(** * Tado local control: schedule store, resolver and consolidation compiler

    A shallow embedding of [src/schedule_storage.py]
    ([OptimizedScheduleStorage]) and of the template builders of
    [src/smart_automation_manager.py] ([SmartAutomationManager]), with the
    properties of the schedule model stated and proved over it.

    Python values are modelled as follows.  Integers are [Z], strings are
    [string] (sequences of bytes; the case mapping of [str.lower] is the
    ASCII one, which agrees with Python's on every comparison against an
    ASCII constant made in this code), dictionaries read with [.get] are
    records of optional fields, and the SQLite database is a record of
    tables, each table being the list of its rows in rowid order.  A
    selection returns its rows in the order its ORDER BY clause gives
    them, rows that the clause does not tell apart, and the rows of a
    selection without the clause, coming in the order of the index the
    selection is served from (as SQLite 3.40 plans it for the tables and
    indexes of [init_database], on which no statistics are gathered);
    each definition says which index that is. *)

From Stdlib Require Import ZArith QArith String Ascii List Lia DecimalString.
From stdpp Require Import base list strings gmap sorting.

Local Open Scope string_scope.
Local Open Scope Z_scope.
Local Open Scope list_scope.

(** ** Python built-ins used by the storage layer *)

Module Py.

(** The scalar values of a JSON document, which are also the values
    [sqlite3] can bind: [None], a [bool], an [int], a [float] or a
    [str].  A finite [float] is kept as the rational number it stands
    for ([PyNum]), without the rounding to 53 bits; the [float] that is
    not a number is [PyNaN]; the two infinities are not represented. *)
Inductive value : Type :=
| PyNone
| PyBool (b : bool)
| PyInt (z : Z)
| PyNum (q : Q)
| PyNaN
| PyStr (s : string).

Definition is_upper (c : ascii) : bool :=
  let n := N_of_ascii c in ((65 <=? n) && (n <=? 90))%N.

Definition lower_ascii (c : ascii) : ascii :=
  if is_upper c then ascii_of_N (N_of_ascii c + 32) else c.

(** [str.lower] *)
Fixpoint lower (s : string) : string :=
  match s with
  | EmptyString => EmptyString
  | String c r => String (lower_ascii c) (lower r)
  end.

(** [str(v).lower() == 'off'].  [str(None)] is ['None'], a [bool] gives
    ['True'] or ['False'], the text of a number starts with a digit or a
    sign and [str] of the [float] that is not a number is ['nan'], so
    only a [str] can compare equal. *)
Definition str_lower_is_off (v : value) : bool :=
  match v with
  | PyStr s => String.eqb (lower s) "off"
  | PyInt _ | PyNum _ | PyNaN | PyBool _ | PyNone => false
  end.

(** [c in s] for a one-character [c] *)
Fixpoint contains (c : ascii) (s : string) : bool :=
  match s with
  | EmptyString => false
  | String d r => Ascii.eqb c d || contains c r
  end.

(** [s.split(sep)] for a one-character separator: every occurrence cuts. *)
Fixpoint split (sep : ascii) (s : string) : list string :=
  match s with
  | EmptyString => [EmptyString]
  | String c r =>
      if Ascii.eqb c sep then EmptyString :: split sep r
      else match split sep r with
           | [] => [String c EmptyString]
           | p :: ps => String c p :: ps
           end
  end.

(** [s.split(sep, 1)] when [sep in s]: the text before the first
    separator and the text after it. *)
Fixpoint split_once (sep : ascii) (s : string) : string * string :=
  match s with
  | EmptyString => (EmptyString, EmptyString)
  | String c r =>
      if Ascii.eqb c sep then (EmptyString, r)
      else let '(a, b) := split_once sep r in (String c a, b)
  end.

Definition is_digit (c : ascii) : bool :=
  let n := N_of_ascii c in ((48 <=? n) && (n <=? 57))%N.

Definition digit_value (c : ascii) : Z := Z.of_N (N_of_ascii c) - 48.

(** White space removed by [int] around its argument. *)
Definition is_space (c : ascii) : bool :=
  let n := N_of_ascii c in
  ((n =? 32) || ((9 <=? n) && (n <=? 13)) || ((28 <=? n) && (n <=? 31)))%N.

Fixpoint lstrip (s : string) : string :=
  match s with
  | String c r => if is_space c then lstrip r else s
  | EmptyString => EmptyString
  end.

Fixpoint rstrip (s : string) : string :=
  match s with
  | EmptyString => EmptyString
  | String c r =>
      match rstrip r with
      | EmptyString => if is_space c then EmptyString else String c EmptyString
      | r' => String c r'
      end
  end.

(** Digits with single underscores between them, after a first digit. *)
Fixpoint int_digits (s : string) (acc : Z) (after_underscore : bool)
  : option Z :=
  match s with
  | EmptyString => if after_underscore then None else Some acc
  | String c r =>
      if is_digit c then int_digits r (acc * 10 + digit_value c) false
      else if Ascii.eqb c "_" then
        if after_underscore then None else int_digits r acc true
      else None
  end.

(** The number of digits of a text. *)
Fixpoint count_digits (s : string) : Z :=
  match s with
  | EmptyString => 0
  | String c r => (if is_digit c then 1 else 0) + count_digits r
  end.

(** The limit [sys.int_info.default_max_str_digits] on the number of
    digits [int] converts (Python 3.11, and the security releases of
    3.7 to 3.10). *)
Definition max_str_digits : Z := 4300.

Definition int_unsigned (s : string) : option Z :=
  match s with
  | String c r =>
      if is_digit c then
        if max_str_digits <? count_digits s then None
        else int_digits r (digit_value c) false
      else None
  | EmptyString => None
  end.

(** [int(s)] on a [str]: white space around, an optional sign, ASCII
    digits with single underscores between them, at most
    [max_str_digits] digits; [None] stands for [ValueError]. *)
Definition int (s : string) : option Z :=
  match rstrip (lstrip s) with
  | String "-" r => Z.opp <$> int_unsigned r
  | String "+" r => int_unsigned r
  | t => int_unsigned t
  end.

(** Decimal text of a non-negative integer. *)
Definition decimal (z : Z) : string :=
  NilZero.string_of_uint (N.to_uint (Z.to_N z)).

(** [f"{z:02d}"]: the sign counts in the width. *)
Definition format_02d (z : Z) : string :=
  if z <? 0 then "-" +:+ decimal (- z)
  else if z <? 10 then "0" +:+ decimal z
  else decimal z.

(** [l[i]] with Python's negative indices; [None] is [IndexError]. *)
Definition index {A : Type} (l : list A) (i : Z) : option A :=
  let n := Z.of_nat (length l) in
  if 0 <=? i then l !! Z.to_nat i
  else if - n <=? i then l !! Z.to_nat (n + i)
  else None.

(** [s.replace(a, b)] for one-character [a] and [b]. *)
Fixpoint replace_char (a b : ascii) (s : string) : string :=
  match s with
  | EmptyString => EmptyString
  | String c r =>
      String (if Ascii.eqb c a then b else c) (replace_char a b r)
  end.

(** [sep.join(l)] *)
Fixpoint join (sep : string) (l : list string) : string :=
  match l with
  | [] => EmptyString
  | [x] => x
  | x :: r => x +:+ sep +:+ join sep r
  end.

End Py.

(** ** Time codec *)

(** [hours, minutes = map(int, time_str.split(':'))]: exactly two fields,
    both accepted by [int]; any exception gives 0. *)
Definition _time_str_to_minutes (time_str : string) : Z :=
  match Py.split ":" time_str with
  | [h; m] =>
      match Py.int h, Py.int m with
      | Some hours, Some minutes => hours * 60 + minutes
      | _, _ => 0
      end
  | _ => 0
  end.

Definition _minutes_to_time_str (minutes : Z) : string :=
  let hours := minutes `div` 60 in
  let mins := minutes `mod` 60 in
  Py.format_02d hours +:+ ":" +:+ Py.format_02d mins.

(** ** Dictionaries exchanged with the storage layer *)

(** A schedule entry (or a legacy period) as a dictionary: a field is
    [None] when the key is absent.  Keys the code never reads (['end'])
    are not represented. *)
Record entry : Type := Entry {
  e_time : option string;
  e_start : option string;
  e_temperature : option Py.value;
  e_action : option string
}.

Definition metadata : Type := list (string * Py.value).

(** The dictionary built by [get_schedule]: its ten fixed keys, and the
    [**metadata] splice kept apart in [d_extra].  The record stands for
    the dictionary as long as no metadata key is one of the fixed keys
    (see [fixed_keys]); a metadata key that is one replaces the fixed
    value in the code, which the record does not follow.  The same
    record stands for the schedule dictionaries the automation manager
    reads with [.get]. *)
Record schedule_dict : Type := ScheduleDict {
  d_id : option string;
  d_name : option string;
  d_active : option bool;
  d_zones : list string;
  d_rooms : list string;
  d_days : option (list string);
  d_periods : option (list entry);
  d_entries : option (list entry);
  d_created_at : Z;
  d_updated_at : Z;
  d_extra : metadata
}.

(** The keys [get_schedule] sets before the splice. *)
Definition fixed_keys : list string :=
  ["id"; "name"; "active"; "zones"; "rooms"; "days"; "periods"; "entries";
   "created_at"; "updated_at"].

(** A legacy flat record read from a JSON file. *)
Record legacy_dict : Type := LegacyDict {
  l_id : option string;
  l_name : option string;
  l_zones : option (list string);
  l_days : option (list string);
  l_periods : option (list entry);
  l_entries : option (list entry);
  l_active : option bool;
  l_created_at : option Py.value;
  l_error : option Py.value
}.

(** ** The SQLite database *)

Module Sql.

(** Rows of the four tables of [init_database].  [schedule_zones],
    [schedule_rooms] and [schedule_entries] carry their
    [INTEGER PRIMARY KEY AUTOINCREMENT] column.  The [temperature] column
    holds what its REAL affinity makes of the bound value (see [real]):
    [Py.PyNone] for [NULL], a [Py.PyNum] for a REAL, a [Py.PyStr] for a
    TEXT. *)
Record schedule_row : Type := ScheduleRow {
  s_id : string;
  s_name : string;
  s_active : bool;
  s_created_at : Z;
  s_updated_at : Z;
  s_metadata : metadata
}.

Record zone_row : Type := ZoneRow {
  sz_rowid : Z;
  sz_schedule_id : string;
  sz_zone_id : string
}.

Record room_row : Type := RoomRow {
  sr_rowid : Z;
  sr_schedule_id : string;
  sr_room_name : string;
  sr_area_id : option string
}.

Record entry_row : Type := EntryRow {
  se_rowid : Z;
  se_schedule_id : string;
  se_day_of_week : Z;
  se_time_minutes : Z;
  se_temperature : Py.value;
  se_action : string
}.

(** The tables, each in rowid order, and the [sqlite_sequence] counters
    of the three AUTOINCREMENT tables. *)
Record db : Type := Db {
  schedules : list schedule_row;
  schedule_zones : list zone_row;
  schedule_rooms : list room_row;
  schedule_entries : list entry_row;
  seq_zones : Z;
  seq_rooms : Z;
  seq_entries : Z
}.

Definition empty : db := Db [] [] [] [] 0 0 0.

(** A connection.  [sqlite3.connect] opens it with foreign-key
    enforcement off, SQLite's default, and enforcement stays off until
    [PRAGMA foreign_keys = ON] is executed on that connection; the code
    never executes it. *)
Record connection : Type := Connection { foreign_keys : bool }.

Definition connect : connection := Connection false.

(** [INSERT OR REPLACE INTO schedules (id, name, active, metadata)]:
    a row with the same primary key is deleted, the new row is appended;
    both timestamp columns take [CURRENT_TIMESTAMP]. *)
Definition insert_or_replace_schedule
    (now : Z) (i n : string) (a : bool) (m : metadata) (d : db) : db :=
  Db (filter (λ r, s_id r ≠ i) (schedules d) ++ [ScheduleRow i n a now now m])
     (schedule_zones d) (schedule_rooms d) (schedule_entries d)
     (seq_zones d) (seq_rooms d) (seq_entries d).

(** [DELETE FROM schedule_zones WHERE schedule_id = ?] and its two
    siblings. *)
Definition delete_zones (i : string) (d : db) : db :=
  Db (schedules d) (filter (λ r, sz_schedule_id r ≠ i) (schedule_zones d))
     (schedule_rooms d) (schedule_entries d)
     (seq_zones d) (seq_rooms d) (seq_entries d).

Definition delete_rooms (i : string) (d : db) : db :=
  Db (schedules d) (schedule_zones d)
     (filter (λ r, sr_schedule_id r ≠ i) (schedule_rooms d))
     (schedule_entries d) (seq_zones d) (seq_rooms d) (seq_entries d).

Definition delete_entries (i : string) (d : db) : db :=
  Db (schedules d) (schedule_zones d) (schedule_rooms d)
     (filter (λ r, se_schedule_id r ≠ i) (schedule_entries d))
     (seq_zones d) (seq_rooms d) (seq_entries d).

(** [INSERT INTO schedule_zones (schedule_id, zone_id)]: [None] is the
    [IntegrityError] of [UNIQUE(schedule_id, zone_id)]. *)
Definition insert_zone (i z : string) (d : db) : option db :=
  if decide (Exists (λ r, sz_schedule_id r = i ∧ sz_zone_id r = z)
               (schedule_zones d))
  then None
  else Some (Db (schedules d)
               (schedule_zones d ++ [ZoneRow (seq_zones d + 1) i z])
               (schedule_rooms d) (schedule_entries d)
               (seq_zones d + 1) (seq_rooms d) (seq_entries d)).

(** [INSERT INTO schedule_rooms (schedule_id, room_name, area_id)] under
    [UNIQUE(schedule_id, room_name)]. *)
Definition insert_room (i r : string) (a : option string) (d : db)
  : option db :=
  if decide (Exists (λ x, sr_schedule_id x = i ∧ sr_room_name x = r)
               (schedule_rooms d))
  then None
  else Some (Db (schedules d) (schedule_zones d)
               (schedule_rooms d ++ [RoomRow (seq_rooms d + 1) i r a])
               (schedule_entries d)
               (seq_zones d) (seq_rooms d + 1) (seq_entries d)).

(** An [int] that [sqlite3] can bind: it fits a signed 64-bit integer.
    Binding another one raises [OverflowError]. *)
Definition int64 (z : Z) : Prop := - 2 ^ 63 ≤ z ≤ 2 ^ 63 - 1.

Global Instance int64_dec z : Decision (int64 z).
Proof. unfold int64. apply _. Defined.

(** A value that [sqlite3] can bind. *)
Definition bindable (v : Py.value) : Prop :=
  match v with
  | Py.PyInt z => int64 z
  | _ => True
  end.

Global Instance bindable_dec v : Decision (bindable v).
Proof. destruct v; simpl; apply _. Defined.

(** White space that SQLite passes over around the text of a number. *)
Definition is_space (c : ascii) : bool :=
  let n := N_of_ascii c in ((n =? 32) || ((9 <=? n) && (n <=? 13)))%N.

Fixpoint lstrip (s : string) : string :=
  match s with
  | String c r => if is_space c then lstrip r else s
  | EmptyString => EmptyString
  end.

Fixpoint rstrip (s : string) : string :=
  match s with
  | EmptyString => EmptyString
  | String c r =>
      match rstrip r with
      | EmptyString => if is_space c then EmptyString else String c EmptyString
      | r' => String c r'
      end
  end.

(** The decimal digits a text starts with: their value, their number
    and the rest of the text. *)
Fixpoint digits (s : string) (acc n : Z) : Z * Z * string :=
  match s with
  | String c r =>
      if Py.is_digit c
      then digits r (acc * 10 + Py.digit_value c) (n + 1)
      else (acc, n, s)
  | EmptyString => (acc, n, s)
  end.

(** An optional sign: whether it is a minus, and the rest of the text. *)
Definition sign (s : string) : bool * string :=
  match s with
  | String "-" r => (true, r)
  | String "+" r => (false, r)
  | _ => (false, s)
  end.

(** The number a text stands for in SQLite's eyes, if it is the text of
    a number and nothing else: white space around, a sign, digits with
    at most one point among them (one digit at least), and an exponent
    [e] or [E] with a sign and one digit at least.  Hexadecimal text,
    ['inf'] and ['nan'] are no numbers. *)
Definition numeric_text (s : string) : option Q :=
  let '(neg, s) := sign (rstrip (lstrip s)) in
  let '(i, ni, s) := digits s 0 0 in
  let '(f, nf, s) :=
    match s with
    | String "." r => digits r 0 0
    | _ => (0, 0, s)
    end in
  if ni + nf =? 0 then None else
  let m := (inject_Z i + inject_Z f / inject_Z (10 ^ nf))%Q in
  let m := if neg then (- m)%Q else m in
  match s with
  | EmptyString => Some (Qred m)
  | String c r =>
      if Ascii.eqb c "e" || Ascii.eqb c "E" then
        let '(eneg, r) := sign r in
        let '(e, ne, r) := digits r 0 0 in
        if (ne =? 0) || negb (String.eqb r EmptyString) then None
        else Some (Qred (m * Qpower (inject_Z 10) (if eneg then - e else e)))
      else None
  end.

(** What a column of REAL affinity keeps of a bound value: an [int] or a
    [bool] becomes the REAL of the same value, the text of a number
    becomes that number, other text stays TEXT, and the [float] that is
    not a number is stored as [NULL].  (The REAL is written without its
    rounding to 53 bits, and without the overflow of a huge exponent to
    infinity.) *)
Definition real (v : Py.value) : Py.value :=
  match v with
  | Py.PyNone | Py.PyNaN => Py.PyNone
  | Py.PyBool b => Py.PyNum (inject_Z (if b then 1 else 0))
  | Py.PyInt z => Py.PyNum (inject_Z z)
  | Py.PyNum q => Py.PyNum q
  | Py.PyStr s =>
      match numeric_text s with
      | Some q => Py.PyNum q
      | None => Py.PyStr s
      end
  end.

(** [INSERT INTO schedule_entries (schedule_id, day_of_week,
    time_minutes, temperature, action)]: [None] is the [OverflowError]
    of binding an [int] beyond 64 bits; [temperature] is a column of
    type REAL. *)
Definition insert_entry
    (i : string) (day minutes : Z) (t : Py.value) (a : string) (d : db)
  : option db :=
  if decide (int64 day ∧ int64 minutes ∧ bindable t)
  then Some (Db (schedules d) (schedule_zones d) (schedule_rooms d)
               (schedule_entries d
                  ++ [EntryRow (seq_entries d + 1) i day minutes (real t) a])
               (seq_zones d) (seq_rooms d) (seq_entries d + 1))
  else None.

(** [DELETE FROM schedules WHERE id = ?] on connection [c], with the
    statement's [rowcount].  The [ON DELETE CASCADE] clauses of the three
    child tables act only when the connection enforces foreign keys. *)
Definition delete_schedule_row (c : connection) (i : string) (d : db)
  : db * Z :=
  let n := Z.of_nat (length (filter (λ r, s_id r = i) (schedules d))) in
  let d1 := Db (filter (λ r, s_id r ≠ i) (schedules d))
              (schedule_zones d) (schedule_rooms d) (schedule_entries d)
              (seq_zones d) (seq_rooms d) (seq_entries d) in
  (if foreign_keys c
   then delete_entries i (delete_rooms i (delete_zones i d1))
   else d1, n).

End Sql.

Import Sql.

(** What a call does to the store and how it ends.  A call that raises
    inside [with sqlite3.connect(...) as conn] leaves the store as it
    was: the connection's context manager rolls the transaction back. *)
Inductive outcome (A : Type) : Type :=
| Returned (a : A)
| Raised.
Arguments Returned {A} a.
Arguments Raised {A}.

(** ** The schedule store ([OptimizedScheduleStorage]) *)

(** The dictionary [day_mapping] of [create_schedule]. *)
Definition day_mapping : gmap string Z :=
  list_to_map
    [("mon", 0); ("tue", 1); ("wed", 2); ("thu", 3);
     ("fri", 4); ("sat", 5); ("sun", 6)].

(** The list [day_names] of [get_schedule]. *)
Definition day_names : list string :=
  ["mon"; "tue"; "wed"; "thu"; "fri"; "sat"; "sun"].

(** [ORDER BY day_of_week, time_minutes]; rows of the same day and minute
    stay in rowid order, the order of the index on [schedule_id] they are
    read from. *)
Definition by_day_then_time (a b : entry_row) : Prop :=
  se_day_of_week a < se_day_of_week b
  ∨ (se_day_of_week a = se_day_of_week b
     ∧ se_time_minutes a ≤ se_time_minutes b).

Global Instance by_day_then_time_dec a b : Decision (by_day_then_time a b).
Proof. unfold by_day_then_time. apply _. Defined.

(** The loop of [get_schedule] over the entry rows: the day names in the
    order they first appear and one period per row.  [None] is the
    [IndexError] of [day_names[row[0]]]. *)
Fixpoint group_rows (rows : list entry_row) (days : list string)
    (periods : list entry) : option (list string * list entry) :=
  match rows with
  | [] => Some (days, periods)
  | row :: rest =>
      day_name ← Py.index day_names (se_day_of_week row);
      let days' :=
        if decide (day_name ∈ days) then days else (days ++ [day_name])%list in
      let time_str := _minutes_to_time_str (se_time_minutes row) in
      let temperature :=
        match se_temperature row with
        | Py.PyNone => Py.PyStr "off"
        | v => v
        end in
      group_rows rest days'
        (periods ++ [Entry (Some time_str) None (Some temperature)
                       (Some (se_action row))])%list
  end.

(** The order in which the rows of a schedule come out of
    [schedule_zones] and [schedule_rooms]: both selections are served
    from the index of the table's UNIQUE constraint, hence by zone id
    and by room name, compared byte by byte. *)
Definition by_zone_id (a b : zone_row) : Prop :=
  String.le (sz_zone_id a) (sz_zone_id b).

Global Instance by_zone_id_dec a b : Decision (by_zone_id a b).
Proof. unfold by_zone_id. apply _. Defined.

Definition by_room_name (a b : room_row) : Prop :=
  String.le (sr_room_name a) (sr_room_name b).

Global Instance by_room_name_dec a b : Decision (by_room_name a b).
Proof. unfold by_room_name. apply _. Defined.

(** [get_schedule]: [None] when there is no such schedule, and also when
    an exception is caught. *)
Definition get_schedule (d : db) (schedule_id : string)
  : option schedule_dict :=
  match filter (λ r, s_id r = schedule_id) (schedules d) with
  | [] => None
  | schedule_row :: _ =>
      let zones :=
        sz_zone_id <$>
          merge_sort by_zone_id
            (filter (λ r, sz_schedule_id r = schedule_id) (schedule_zones d)) in
      let rooms :=
        (λ r, match sr_area_id r with
              | Some (String c a) => sr_room_name r +:+ "|" +:+ String c a
              | Some EmptyString | None => sr_room_name r
              end) <$>
          merge_sort by_room_name
            (filter (λ r, sr_schedule_id r = schedule_id) (schedule_rooms d)) in
      let entries_rows :=
        merge_sort by_day_then_time
          (filter (λ r, se_schedule_id r = schedule_id) (schedule_entries d)) in
      '(days, periods) ← group_rows entries_rows [] [];
      Some (ScheduleDict (Some (s_id schedule_row))
              (Some (s_name schedule_row)) (Some (s_active schedule_row))
              zones rooms (Some days) (Some periods) (Some periods)
              (s_created_at schedule_row) (s_updated_at schedule_row)
              (s_metadata schedule_row))
  end.

(** The loop [for zone_id in zones] of [create_schedule]. *)
Fixpoint insert_zones (schedule_id : string) (zones : list string) (d : db)
  : option db :=
  match zones with
  | [] => Some d
  | zone_id :: rest =>
      d' ← insert_zone schedule_id zone_id d; insert_zones schedule_id rest d'
  end.

(** [room_name, area_id = room_name.split('|', 1)] when the name holds a
    bar, else the name and no area. *)
Definition split_room (room_name : string) : string * option string :=
  if Py.contains "|" room_name
  then let '(r, a) := Py.split_once "|" room_name in (r, Some a)
  else (room_name, None).

(** The loop [for room_name in rooms]. *)
Fixpoint insert_rooms (schedule_id : string) (rooms : list string) (d : db)
  : option db :=
  match rooms with
  | [] => Some d
  | room_name :: rest =>
      let '(room_name, area_id) := split_room room_name in
      d' ← insert_room schedule_id room_name area_id d;
      insert_rooms schedule_id rest d'
  end.

(** The columns [(time_minutes, temperature, action)] bound for one entry. *)
Definition entry_values (e : entry) : Z * Py.value * string :=
  let time_str := default "08:00" (e_time e) in
  let time_minutes := _time_str_to_minutes time_str in
  let temperature := default (Py.PyNum (20 # 1)) (e_temperature e) in
  let action := default "heat" (e_action e) in
  if Py.str_lower_is_off temperature
  then (time_minutes, Py.PyNone, "off")
  else (time_minutes, temperature, action).

(** The loop [for entry in entries] for one day number. *)
Fixpoint insert_day_entries (schedule_id : string) (day_num : Z)
    (entries : list entry) (d : db) : option db :=
  match entries with
  | [] => Some d
  | entry :: rest =>
      let '(time_minutes, temperature, action) := entry_values entry in
      d' ← insert_entry schedule_id day_num time_minutes temperature action d;
      insert_day_entries schedule_id day_num rest d'
  end.

(** The loop [for day_abbr in days]: a name that [day_mapping] does not
    hold is passed over by [continue]. *)
Fixpoint insert_all_entries (schedule_id : string) (days : list string)
    (entries : list entry) (d : db) : option db :=
  match days with
  | [] => Some d
  | day_abbr :: rest =>
      match day_mapping !! Py.lower day_abbr with
      | None => insert_all_entries schedule_id rest entries d
      | Some day_num =>
          d' ← insert_day_entries schedule_id day_num entries d;
          insert_all_entries schedule_id rest entries d'
      end
  end.

(** The statements of [create_schedule] up to [conn.commit()]; [None] when
    one of them raises. *)
Definition create_schedule_txn (now : Z) (d : db) (schedule_id name : string)
    (zones rooms : option (list string)) (entries : option (list entry))
    (days : option (list string)) (active : bool) (meta : option metadata)
  : option db :=
  let d := insert_or_replace_schedule now schedule_id name active
             (default [] meta) d in
  let d := delete_entries schedule_id
             (delete_rooms schedule_id (delete_zones schedule_id d)) in
  d ← insert_zones schedule_id (default [] zones) d;
  d ← insert_rooms schedule_id (default [] rooms) d;
  match entries, days with
  | Some (e :: es), Some (day :: ds) =>
      insert_all_entries schedule_id (day :: ds) (e :: es) d
  | _, _ => Some d
  end.

(** [create_schedule] run at clock reading [now]: the new store and the
    dictionary returned, or the old store and the exception raised again
    by the handler. *)
Definition create_schedule (now : Z) (d : db) (schedule_id name : string)
    (zones rooms : option (list string)) (entries : option (list entry))
    (days : option (list string)) (active : bool) (meta : option metadata)
  : db * outcome (option schedule_dict) :=
  match create_schedule_txn now d schedule_id name zones rooms entries days
          active meta with
  | Some d' => (d', Returned (get_schedule d' schedule_id))
  | None => (d, Raised)
  end.

(** [SELECT DISTINCT sz.schedule_id FROM schedule_zones sz JOIN schedules s
    ON sz.schedule_id = s.id WHERE sz.zone_id = ? AND s.active = 1].  The
    rows of the zone are read from the index on [(zone_id, schedule_id)],
    so the ids come out in their byte order. *)
Definition active_schedule_ids_for_zone (d : db) (zone_id : string)
  : list string :=
  merge_sort String.le
    (remove_dups
       (sz ← schedule_zones d; s ← schedules d;
        if decide (sz_schedule_id sz = s_id s ∧ sz_zone_id sz = zone_id
                   ∧ s_active s = true)
        then [sz_schedule_id sz] else [])).

(** The same query over [schedule_rooms], by room name, read from the
    index on [(room_name, schedule_id)]. *)
Definition active_schedule_ids_for_room (d : db) (room_name : string)
  : list string :=
  merge_sort String.le
    (remove_dups
       (sr ← schedule_rooms d; s ← schedules d;
        if decide (sr_schedule_id sr = s_id s ∧ sr_room_name sr = room_name
                   ∧ s_active s = true)
        then [sr_schedule_id sr] else [])).

Definition get_active_schedules_for_zone (d : db) (zone_id : string)
  : list schedule_dict :=
  omap (get_schedule d) (active_schedule_ids_for_zone d zone_id).

Definition get_active_schedules_for_room (d : db) (room_name : string)
  : list schedule_dict :=
  omap (get_schedule d) (active_schedule_ids_for_room d room_name).

(** The values of a list, each where it first comes, without those
    already seen. *)
Fixpoint distinct (seen l : list string) : list string :=
  match l with
  | [] => []
  | x :: r =>
      if decide (x ∈ seen) then distinct seen r
      else x :: distinct (x :: seen) r
  end.

(** [SELECT DISTINCT sz.zone_id FROM schedule_zones sz JOIN schedules s
    ON sz.schedule_id = s.id WHERE s.active = 1].  The active schedules
    are read from the index on [active], in the order of the table, and
    the zone rows of each from the index of the UNIQUE constraint, by
    zone id; a zone is listed where it first comes. *)
Definition get_zones_with_schedules (d : db) : list string :=
  distinct []
    (s ← filter (λ s, s_active s = true) (schedules d);
     sz_zone_id
       <$> merge_sort by_zone_id
             (filter (λ sz, sz_schedule_id sz = s_id s) (schedule_zones d))).

(** [delete_schedule]: one [DELETE FROM schedules] on a fresh connection;
    the result is [cursor.rowcount > 0]. *)
Definition delete_schedule (d : db) (schedule_id : string) : db * bool :=
  let '(d', rowcount) := delete_schedule_row connect schedule_id d in
  (d', 0 <? rowcount).

(** *** State resolver *)

(** The dictionary returned by [get_schedule_state_at_time]. *)
Record state : Type := State {
  temperature : Py.value;
  action : string;
  schedule_name : string
}.

(** The rows of [schedule_entries se JOIN schedule_zones sz JOIN
    schedules s] that pass the [WHERE] clause. *)
Definition state_rows (d : db) (zone_id : string)
    (day_of_week time_minutes : Z) : list (entry_row * schedule_row) :=
  se ← schedule_entries d; sz ← schedule_zones d; s ← schedules d;
  if decide (se_schedule_id se = sz_schedule_id sz
             ∧ se_schedule_id se = s_id s
             ∧ sz_zone_id sz = zone_id
             ∧ se_day_of_week se = day_of_week
             ∧ se_time_minutes se ≤ time_minutes
             ∧ s_active s = true)
  then [(se, s)] else [].

(** [ORDER BY se.time_minutes DESC].  The selection walks the index on
    [(day_of_week, time_minutes)] backwards, so that among rows of the
    same minute the one inserted last comes first. *)
Definition by_time_desc (a b : entry_row * schedule_row) : Prop :=
  se_time_minutes (b.1) < se_time_minutes (a.1)
  ∨ (se_time_minutes (b.1) = se_time_minutes (a.1)
     ∧ se_rowid (b.1) ≤ se_rowid (a.1)).

Global Instance by_time_desc_dec a b : Decision (by_time_desc a b).
Proof. unfold by_time_desc. apply _. Defined.

(** [get_schedule_state_at_time]: the first row of the ordered selection
    ([LIMIT 1], [fetchone]). *)
Definition get_schedule_state_at_time (d : db) (zone_id : string)
    (day_of_week time_minutes : Z) : option state :=
  match merge_sort by_time_desc
          (state_rows d zone_id day_of_week time_minutes) with
  | [] => None
  | (se, s) :: _ => Some (State (se_temperature se) (se_action se) (s_name s))
  end.

(** *** Legacy importer *)

(** The body of the loop of [_convert_legacy_periods], for one period. *)
Definition convert_legacy_period (period : entry) : entry :=
  let time_str :=
    match e_time period with
    | Some t => t
    | None => default "08:00" (e_start period)
    end in
  let temperature := default (Py.PyNum (20 # 1)) (e_temperature period) in
  Entry (Some time_str) None (Some temperature)
    (Some (if Py.str_lower_is_off temperature then "off" else "heat")).

(** [_convert_legacy_periods] *)
Definition _convert_legacy_periods (legacy_schedule : legacy_dict)
  : list entry :=
  let periods :=
    match l_periods legacy_schedule with
    | Some p => p
    | None => default [] (l_entries legacy_schedule)
    end in
  convert_legacy_period <$> periods.

(** [_migrate_single_schedule] at clock reading [now]. *)
Definition _migrate_single_schedule (now : Z) (d : db)
    (legacy_schedule : legacy_dict) : db * outcome unit :=
  match l_id legacy_schedule with
  | None | Some EmptyString => (d, Returned ())
  | Some schedule_id =>
      match get_schedule d schedule_id with
      | Some _ => (d, Returned ())
      | None =>
          let meta :=
            [("legacy_migrated", Py.PyBool true);
             ("original_created_at",
              default Py.PyNone (l_created_at legacy_schedule));
             ("error", default Py.PyNone (l_error legacy_schedule))] in
          match create_schedule now d schedule_id
                  (default "Migrated Schedule" (l_name legacy_schedule))
                  (Some (default [] (l_zones legacy_schedule)))
                  None
                  (Some (_convert_legacy_periods legacy_schedule))
                  (Some (default [] (l_days legacy_schedule)))
                  (default true (l_active legacy_schedule))
                  (Some meta) with
          | (d', Returned _) => (d', Returned ())
          | (d', Raised) => (d', Raised)
          end
      end
  end.

(** [migrate_from_legacy_storage] over the records read from the legacy
    directory, each with the clock reading at which it is handled; an
    exception raised for one record is logged and the loop goes on. *)
Definition migrate_from_legacy_storage (d : db)
    (records : list (Z * legacy_dict)) : db :=
  foldl (λ d r, (_migrate_single_schedule r.1 d r.2).1) d records.

(** ** The consolidation compiler ([SmartAutomationManager]) *)

(** The automation document sent to the rule-execution platform. *)
Module HA.

Record trigger : Type := Trigger {
  platform : string;
  at_ : string;
  trigger_id : string
}.

Inductive condition : Type :=
| StateCondition (entity_id state : string)
| TemplateCondition (value_template : string).

Record service_call : Type := ServiceCall {
  service : string;
  target_entity_id : option string;
  data : list (string * string)
}.

(** The two kinds of step of the action list: a [variables] block
    binding [target_state], and a [choose] with its options (conditions
    and sequence) and its [default] sequence. *)
Inductive step : Type :=
| Variables (target_state : string)
| Choose (options : list (list condition * list service_call))
         (default_sequence : list service_call).

Record automation : Type := Automation {
  alias : string;
  description : string;
  trigger_list : list trigger;
  condition_list : list condition;
  action_list : list step;
  mode : string
}.

(** The [away_home] section of the client configuration. *)
Record away_home : Type := AwayHome {
  enabled : option bool;
  away_entity_id : option string;
  home_state : option string
}.

End HA.

(** [schedule.get('entries', schedule.get('periods', []))] *)
Definition schedule_entries_of (schedule : schedule_dict) : list entry :=
  match d_entries schedule with
  | Some es => es
  | None => default [] (d_periods schedule)
  end.

(** [entry.get('time', entry.get('start', '08:00'))] *)
Definition entry_time (e : entry) : string :=
  match e_time e with
  | Some t => t
  | None => default "08:00" (e_start e)
  end.

(** The set [trigger_times] after the two nested loops. *)
Definition trigger_times (zone_schedules : list schedule_dict) : gset string :=
  foldl (λ acc schedule,
           foldl (λ acc e, acc ∪ {[ entry_time e ]}) acc
                 (schedule_entries_of schedule))
        ∅ zone_schedules.

(** [sorted(trigger_times)] turned into time triggers. *)
Definition build_triggers (zone_schedules : list schedule_dict)
  : list HA.trigger :=
  (λ time_str,
     HA.Trigger "time" time_str ("time_" +:+ Py.replace_char ":" "_" time_str))
  <$> merge_sort String.le (elements (trigger_times zone_schedules)).

Section Compiler.

(** [json.dumps] on a list of strings. *)
Variable json_dumps : list string → string.

(** The text an f-string gives for [float(v)]; [None] when [float]
    raises. *)
Variable format_float : Py.value → option string.

(** [_build_schedule_evaluation_template] *)
Definition _build_schedule_evaluation_template
    (zone_schedules : list schedule_dict) : string :=
  let template_parts :=
    omap (λ schedule,
            if negb (default true (d_active schedule)) then None else
            let schedule_days := default [] (d_days schedule) in
            let entries := schedule_entries_of schedule in
            match schedule_days, entries with
            | [], _ | _, [] => None
            | _, _ =>
                let day_condition :=
                  "now().strftime('%a').lower() in "
                  +:+ json_dumps schedule_days in
                let time_conditions :=
                  (λ e, "now().strftime('%H:%M') == '" +:+ entry_time e
                        +:+ "'") <$> entries in
                Some ("(" +:+ day_condition +:+ " and ("
                      +:+ Py.join " or " time_conditions +:+ "))")
            end)
         zone_schedules in
  match template_parts with
  | [] => "{{ false }}"
  | _ => "{{ " +:+ Py.join " or " template_parts +:+ " }}"
  end.

Definition default_target_state : string :=
  "{{ {'temperature': 20, 'action': 'heat', 'schedule_name': 'Default'} }}".

(** [_build_target_state_template_safe]: the literal built from the
    first entry of the first active schedule that has entries.  [None]
    when [float(temperature)] raises. *)
Fixpoint _build_target_state_template_safe
    (zone_schedules : list schedule_dict) : option string :=
  match zone_schedules with
  | [] => Some default_target_state
  | schedule :: rest =>
      if default true (d_active schedule) then
        match schedule_entries_of schedule with
        | first_entry :: _ =>
            let temperature :=
              default (Py.PyInt 20) (e_temperature first_entry) in
            let action :=
              if Py.str_lower_is_off temperature then "off" else "heat" in
            let schedule_name :=
              default "Unnamed Schedule" (d_name schedule) in
            temp_value ←
              (if String.eqb action "off" then Some "16"
               else format_float temperature);
            Some ("{{ {'temperature': " +:+ temp_value
                  +:+ ", 'action': '" +:+ action
                  +:+ "', 'schedule_name': '" +:+ schedule_name
                  +:+ "'} }}")
        | [] => _build_target_state_template_safe rest
        end
      else _build_target_state_template_safe rest
  end.

(** The action list of [_build_consolidated_automation_config]. *)
Definition build_actions (zone_id zone_name target_state : string)
  : list HA.step :=
  [ HA.Variables target_state;
    HA.Choose
      [ ([HA.TemplateCondition "{{ target_state.action == 'off' }}"],
         [ HA.ServiceCall "climate.set_hvac_mode" (Some zone_id)
             [("hvac_mode", "off")];
           HA.ServiceCall "logbook.log" None
             [("name", "Tado Smart Scheduler");
              ("message",
               "Turned off heating in " +:+ zone_name
               +:+ " (Schedule: {{ target_state.schedule_name }})")] ]) ]
      [ HA.ServiceCall "climate.set_temperature" (Some zone_id)
          [("temperature", "{{ target_state.temperature }}")];
        HA.ServiceCall "climate.set_hvac_mode" (Some zone_id)
          [("hvac_mode", "heat")];
        HA.ServiceCall "logbook.log" None
          [("name", "Tado Smart Scheduler");
           ("message",
            "Set " +:+ zone_name
            +:+ " to {{ target_state.temperature }}Â°C (Schedule: "
            +:+ "{{ target_state.schedule_name }})")] ] ].

(** [_build_consolidated_automation_config]; [None] when building the
    target state raises. *)
Definition _build_consolidated_automation_config
    (away_home_config : HA.away_home) (zone_id zone_name : string)
    (zone_schedules : list schedule_dict) : option HA.automation :=
  let away_home_enabled := default false (HA.enabled away_home_config) in
  let home_state := default "home" (HA.home_state away_home_config) in
  let triggers := build_triggers zone_schedules in
  let away_conditions :=
    match HA.away_entity_id away_home_config with
    | Some (String c r) =>
        if away_home_enabled
        then [HA.StateCondition (String c r) home_state] else []
    | Some EmptyString | None => []
    end in
  let conditions :=
    (away_conditions
       ++ [HA.TemplateCondition
             (_build_schedule_evaluation_template zone_schedules)])%list in
  target_state ← _build_target_state_template_safe zone_schedules;
  Some (HA.Automation
          ("Tado Smart Scheduler: " +:+ zone_name)
          ("Consolidated smart heating schedule for " +:+ zone_name
           +:+ " - manages "
           +:+ Py.decimal (Z.of_nat (length zone_schedules))
           +:+ " schedules")
          triggers conditions
          (build_actions zone_id zone_name target_state)
          "single").

End Compiler.

(** ** The rest of the schedule store *)

(** The keyword arguments of [update_schedule]: a field is [None] when the
    key is not passed. *)
Record updates : Type := Updates {
  u_name : option string;
  u_active : option bool;
  u_zones : option (list string);
  u_entries : option (list entry);
  u_days : option (list string);
  u_metadata : option metadata
}.

(** [UPDATE schedules SET name = COALESCE(?, name), active =
    COALESCE(?, active), updated_at = CURRENT_TIMESTAMP WHERE id = ?] *)
Definition update_schedule_row (now : Z) (schedule_id : string)
    (new_name : option string) (new_active : option bool) (d : db) : db :=
  Db ((λ r, if decide (s_id r = schedule_id)
            then ScheduleRow (s_id r) (default (s_name r) new_name)
                   (default (s_active r) new_active) (s_created_at r) now
                   (s_metadata r)
            else r) <$> schedules d)
     (schedule_zones d) (schedule_rooms d) (schedule_entries d)
     (seq_zones d) (seq_rooms d) (seq_entries d).

(** [update_schedule] at clock reading [now].  An unknown id raises
    [ValueError]; with ['zones'], ['entries'] and ['days'] all passed the
    schedule is created again, otherwise only name and active flag are
    merged.  On that path [get_schedule] is called inside the [with]
    block, on a connection of its own and before the UPDATE is
    committed: it reads the store as it was before the update. *)
Definition update_schedule (now : Z) (d : db) (schedule_id : string)
    (u : updates) : db * outcome (option schedule_dict) :=
  match get_schedule d schedule_id with
  | None => (d, Raised)
  | Some current_schedule =>
      match u_zones u, u_entries u, u_days u with
      | Some zones, Some entries, Some days =>
          match d_name current_schedule, d_active current_schedule with
          | Some current_name, Some current_active =>
              create_schedule now d schedule_id
                (default current_name (u_name u))
                (Some zones) None (Some entries) (Some days)
                (default current_active (u_active u))
                (Some (default [] (u_metadata u)))
          | _, _ => (d, Raised)
          end
      | _, _, _ =>
          let d' :=
            match u_name u, u_active u with
            | None, None => d
            | _, _ =>
                update_schedule_row now schedule_id (u_name u) (u_active u) d
            end in
          (d', Returned (get_schedule d schedule_id))
      end
  end.

(** [ORDER BY created_at DESC]; rows created at the same time stay in
    the order of the table. *)
Definition by_created_desc (a b : schedule_row) : Prop :=
  s_created_at b ≤ s_created_at a.

Global Instance by_created_desc_dec a b : Decision (by_created_desc a b).
Proof. unfold by_created_desc. apply _. Defined.

(** [get_all_schedules] *)
Definition get_all_schedules (d : db) : list schedule_dict :=
  omap (get_schedule d)
       (s_id <$> merge_sort by_created_desc (schedules d)).

(** *** The zone roster *)

(** A device and a room as [get_rooms_with_tado_devices] lists them. *)
Record device : Type := Device { dev_entity_id : option string }.

Record ha_room : Type := HaRoom {
  room_name : string;
  room_devices : option (list device)
}.

(** [get_zones_for_room_schedules]: the entity ids of the devices of the
    first room with that name.  [ha_client] is [None] when no client is
    passed, and holds [Raised] when asking it for the rooms raises. *)
Definition get_zones_for_room_schedules (name : string)
    (ha_client : option (outcome (list ha_room))) : list string :=
  match ha_client with
  | None | Some Raised => []
  | Some (Returned rooms) =>
      match filter (λ room, room_name room = name) rooms with
      | [] => []
      | matching_room :: _ =>
          omap (λ dev, match dev_entity_id dev with
                       | Some (String c r) => Some (String c r)
                       | Some EmptyString | None => None
                       end)
               (default [] (room_devices matching_room))
      end
  end.

(** ** The rest of the consolidation compiler *)

(** The loop that fills [unique_schedules]: the first schedule of each id
    is kept, in order; a schedule without id, or with an empty one, is
    dropped. *)
Fixpoint unique_by_id (seen : list string) (schedules : list schedule_dict)
  : list schedule_dict :=
  match schedules with
  | [] => []
  | schedule :: rest =>
      match d_id schedule with
      | Some (String c r) =>
          if decide (String c r ∈ seen) then unique_by_id seen rest
          else schedule :: unique_by_id (String c r :: seen) rest
      | Some EmptyString | None => unique_by_id seen rest
      end
  end.

(** The names of the rooms one of whose devices is the zone. *)
Definition zone_rooms (rooms : list ha_room) (zone_id : string)
  : list string :=
  room_name <$>
    filter (λ room, Exists (λ dev, dev_entity_id dev = Some zone_id)
                      (default [] (room_devices room)))
           rooms.

(** [_get_all_schedules_for_zone]: the direct schedules, then those of
    every room of the zone, without repeated ids; the empty list when
    the roster cannot be read. *)
Definition _get_all_schedules_for_zone (d : db)
    (roster : outcome (list ha_room)) (zone_id : string)
  : list schedule_dict :=
  match roster with
  | Raised => []
  | Returned rooms =>
      unique_by_id []
        (get_active_schedules_for_zone d zone_id
           ++ (zone_rooms rooms zone_id ≫= get_active_schedules_for_room d))
  end.

(** [s.replace(old, '')]: occurrences of [old] are cut out from left to
    right, without overlap.  [skip] counts the characters of the
    occurrence under way that are still to be dropped. *)
Fixpoint remove_all (old : string) (skip : nat) (s : string) : string :=
  match s with
  | EmptyString => EmptyString
  | String c r =>
      match skip with
      | S k => remove_all old k r
      | O =>
          if negb (String.eqb old EmptyString) && String.prefix old s
          then remove_all old (String.length old - 1) r
          else String c (remove_all old 0 r)
      end
  end.

(** The characters kept by [re.sub(r'[^a-zA-Z0-9_]', '', ...)]. *)
Definition is_word_char (c : ascii) : bool :=
  let n := N_of_ascii c in
  (((97 <=? n) && (n <=? 122)) || ((65 <=? n) && (n <=? 90))
   || ((48 <=? n) && (n <=? 57)) || (n =? 95))%N.

Fixpoint keep_word_chars (s : string) : string :=
  match s with
  | EmptyString => EmptyString
  | String c r =>
      if is_word_char c then String c (keep_word_chars r)
      else keep_word_chars r
  end.

(** [_get_zone_name] *)
Definition _get_zone_name (zone_id : string) : string :=
  let clean_name :=
    remove_all "smart_radiator_thermostat_" 0
      (remove_all "tado_" 0 (remove_all "climate." 0 zone_id)) in
  Py.lower (keep_word_chars clean_name).

(** ** Notions used to state the properties *)

(** A valid ["HH:MM"] text: two digits, a colon, two digits, with the
    hour at most 23 and the minute at most 59. *)
Definition is_hh_mm (s : string) : bool :=
  match s with
  | String h1 (String h2 (String c (String m1 (String m2 EmptyString)))) =>
      Ascii.eqb c ":"
      && Py.is_digit h1 && Py.is_digit h2 && Py.is_digit m1 && Py.is_digit m2
      && (10 * Py.digit_value h1 + Py.digit_value h2 <=? 23)
      && (10 * Py.digit_value m1 + Py.digit_value m2 <=? 59)
  | _ => false
  end.

Definition digit_chars : list ascii :=
  ["0"; "1"; "2"; "3"; "4"; "5"; "6"; "7"; "8"; "9"]%char.

Definition hh_mm_of (h1 h2 m1 m2 : ascii) : string :=
  String h1 (String h2 (String ":" (String m1 (String m2 EmptyString)))).

Definition round_trips (s : string) : bool :=
  String.eqb (_minutes_to_time_str (_time_str_to_minutes s)) s.

(** Entry [se] of schedule [s] governs zone [zone_id] at [minute] of
    weekday [day]: the schedule is directly assigned to the zone and
    active, the entry is for that weekday and not after [minute]. *)
Definition qualifies (d : db) (zone_id : string) (day minute : Z)
    (se : entry_row) (s : schedule_row) : Prop :=
  se ∈ schedule_entries d ∧ s ∈ schedules d
  ∧ s_id s = se_schedule_id se ∧ s_active s = true
  ∧ (∃ sz, sz ∈ schedule_zones d
           ∧ sz_schedule_id sz = se_schedule_id se ∧ sz_zone_id sz = zone_id)
  ∧ se_day_of_week se = day ∧ se_time_minutes se ≤ minute.

(** Rows built from a list of values, with the row ids an AUTOINCREMENT
    table hands out after [n]. *)
Fixpoint stamp {A B : Type} (mk : Z → A → B) (n : Z) (l : list A) : list B :=
  match l with
  | [] => []
  | x :: r => mk (n + 1) x :: stamp mk (n + 1) r
  end.

(** The day numbers of the recognised names of a [days] list. *)
Definition day_numbers (days : list string) : list Z :=
  omap (λ day_abbr, day_mapping !! Py.lower day_abbr) days.

(** The columns [(time_minutes, temperature, action)] stored for one
    entry: the values bound, the temperature as the REAL column keeps it. *)
Definition stored_values (e : entry) : Z * Py.value * string :=
  ((entry_values e).1.1, Sql.real (entry_values e).1.2, (entry_values e).2).

(** The (day, entry) pairs [create_schedule] goes through, in its order,
    each with the columns stored for it. *)
Definition entry_plan (days : list string) (entries : list entry)
  : list (Z * (Z * Py.value * string)) :=
  day_num ← day_numbers days; (λ e, (day_num, stored_values e)) <$> entries.

(** The values bound for an entry can be bound: the minutes of its time,
    and its temperature if that is an [int], fit 64 bits. *)
Definition entry_fits (e : entry) : Prop :=
  int64 (entry_values e).1.1 ∧ bindable (entry_values e).1.2.

Global Instance entry_fits_dec e : Decision (entry_fits e).
Proof. unfold entry_fits. apply _. Defined.

(** No insertion of an entry row overflows: every entry fits, or no
    element of [days] is recognised and nothing is inserted. *)
Definition entries_fit (days : list string) (entries : list entry) : Prop :=
  day_numbers days = [] ∨ Forall entry_fits entries.

Global Instance entries_fit_dec days entries :
  Decision (entries_fit days entries).
Proof. unfold entries_fit. apply _. Defined.

Definition mk_zone_row (i : string) (k : Z) (z : string) : zone_row :=
  ZoneRow k i z.

Definition mk_room_row (i : string) (k : Z) (r : string * option string)
  : room_row :=
  RoomRow k i r.1 r.2.

Definition mk_entry_row (i : string) (k : Z)
    (x : Z * (Z * Py.value * string)) : entry_row :=
  EntryRow k i x.1 x.2.1.1 x.2.1.2 x.2.2.

(** The data of a row, without its auto-assigned row id; for a schedule
    row, without its two timestamps. *)
Definition zone_data (r : zone_row) : string * string :=
  (sz_schedule_id r, sz_zone_id r).




(** The entry invariant of the data model. *)
Definition entry_invariant (r : entry_row) : Prop :=
  (se_action r = "off" → se_temperature r = Py.PyNone)
  ∧ (se_action r = "heat" → se_temperature r ≠ Py.PyNone).

(** Every entry row is for one of the seven weekdays. *)
Definition weekdays_ok (d : db) : Prop :=
  Forall (λ r, 0 ≤ se_day_of_week r ≤ 6) (schedule_entries d).

(** The zone and room lists of a call can be inserted: no zone twice, no
    room name twice (the two UNIQUE constraints). *)
Definition insertable (zones rooms : option (list string)) : Prop :=
  NoDup (default [] zones) ∧ NoDup (split_room <$> default [] rooms).*1.

(** The arguments of a call of [create_schedule] under which no statement
    raises. *)
Definition storable (zones rooms : option (list string))
    (entries : option (list entry)) (days : option (list string)) : Prop :=
  insertable zones rooms ∧ entries_fit (default [] days) (default [] entries).

Global Instance storable_dec zones rooms entries days :
  Decision (storable zones rooms entries days).
Proof. unfold storable, insertable. apply _. Defined.

(** The order of the (day, columns) pairs that [ORDER BY day_of_week,
    time_minutes] induces, and the order of the (room name, area) pairs
    by room name. *)
Definition plan_order (a b : Z * (Z * Py.value * string)) : Prop :=
  a.1 < b.1 ∨ (a.1 = b.1 ∧ a.2.1.1 ≤ b.2.1.1).

Global Instance plan_order_dec a b : Decision (plan_order a b).
Proof. unfold plan_order. apply _. Defined.

Definition room_order (a b : string * option string) : Prop :=
  String.le a.1 b.1.

Global Instance room_order_dec a b : Decision (room_order a b).
Proof. unfold room_order. apply _. Defined.

(** The store a successful [create_schedule] leaves: in every table the
    rows of the other schedules, then the rows of this call. *)
Definition created (now : Z) (d : db) (schedule_id name : string)
    (zones rooms : option (list string)) (entries : option (list entry))
    (days : option (list string)) (active : bool) (meta : option metadata)
  : db :=
  let plan := entry_plan (default [] days) (default [] entries) in
  Db (filter (λ r, s_id r ≠ schedule_id) (schedules d)
        ++ [ScheduleRow schedule_id name active now now (default [] meta)])
     (filter (λ r, sz_schedule_id r ≠ schedule_id) (schedule_zones d)
        ++ stamp (mk_zone_row schedule_id) (seq_zones d) (default [] zones))
     (filter (λ r, sr_schedule_id r ≠ schedule_id) (schedule_rooms d)
        ++ stamp (mk_room_row schedule_id) (seq_rooms d)
             (split_room <$> default [] rooms))
     (filter (λ r, se_schedule_id r ≠ schedule_id) (schedule_entries d)
        ++ stamp (mk_entry_row schedule_id) (seq_entries d) plan)
     (seq_zones d + Z.of_nat (length (default [] zones)))
     (seq_rooms d + Z.of_nat (length (default [] rooms)))
     (seq_entries d + Z.of_nat (length plan)).


(** No row carries a row id above its table's [sqlite_sequence] counter:
    the counters record the largest id ever handed out. *)
Definition seq_ok (d : db) : Prop :=
  Forall (λ r, sz_rowid r ≤ seq_zones d) (schedule_zones d)
  ∧ Forall (λ r, sr_rowid r ≤ seq_rooms d) (schedule_rooms d)
  ∧ Forall (λ r, se_rowid r ≤ seq_entries d) (schedule_entries d).

(** The columns of an entry row that [create_schedule] binds from a day and
    an entry. *)
Definition entry_columns (r : entry_row) : Z * (Z * Py.value * string) :=
  (se_day_of_week r, (se_time_minutes r, se_temperature r, se_action r)).

(** A sample entry, zone and store used in the examples. *)
Definition entry_0800_21 : entry :=
  Entry (Some "08:00") None (Some (Py.PyNum (21 # 1))) None.

(** The instant [t] occurs in an entry of one of the schedules. *)
Definition instant_of (zone_schedules : list schedule_dict) (t : string)
  : Prop :=
  ∃ schedule e, schedule ∈ zone_schedules
                ∧ e ∈ schedule_entries_of schedule ∧ entry_time e = t.

(** The periods of a legacy record: under ['periods'], else under
    ['entries'], else none. *)
Definition legacy_periods (legacy_schedule : legacy_dict) : list entry :=
  match l_periods legacy_schedule with
  | Some p => p
  | None =>
      match l_entries legacy_schedule with
      | Some p => p
      | None => []
      end
  end.

(** Entry [e] is the conversion of legacy period [p]: the time is taken
    from ['time'], else from ['start'], else is "08:00"; the temperature
    is the period's, else 20.0; the action is ['off'] exactly when the
    temperature is the string "off" in any letter case, else ['heat']. *)
Definition converted_from (p e : entry) : Prop :=
  let t := match e_temperature p with Some v => v | None => Py.PyNum (20 # 1) end in
  e_time e = Some (match e_time p, e_start p with
                   | Some x, _ => x
                   | None, Some x => x
                   | None, None => "08:00"
                   end)
  ∧ e_temperature e = Some t
  ∧ (e_action e = Some "off" ∨ e_action e = Some "heat")
  ∧ (e_action e = Some "off" ↔ ∃ s, t = Py.PyStr s ∧ Py.lower s = "off").

(** The legacy record of the worked example:
    [periods = [{start: "07:00", temperature: 20}]], for Mondays. *)
Definition legacy_example : legacy_dict :=
  LegacyDict (Some "legacy_001") (Some "Legacy Workday")
    (Some ["climate.legacy_zone"]) (Some ["mon"])
    (Some [Entry None (Some "07:00") (Some (Py.PyInt 20)) None])
    None (Some true) (Some (Py.PyStr "2024-01-01T00:00:00")) None.

(** A legacy record that migration leaves the store alone for: it has no
    id, or its id is in the store, or its zones or periods make the
    insertion fail. *)
Definition settled (d : db) (legacy_schedule : legacy_dict) : Prop :=
  l_id legacy_schedule = None ∨ l_id legacy_schedule = Some ""
  ∨ (∃ s, s ∈ schedules d ∧ l_id legacy_schedule = Some (s_id s))
  ∨ ¬ storable (Some (default [] (l_zones legacy_schedule))) None
        (Some (_convert_legacy_periods legacy_schedule))
        (Some (default [] (l_days legacy_schedule))).

(** *** Sample inputs for the worked examples *)

(** A stand-in for the f-string text of [float(v)] on whole numbers
    ("20.0" for 20); other values are not needed by the examples. *)
Definition sample_format_float (v : Py.value) : option string :=
  match v with
  | Py.PyNum q =>
      if decide (Qden q = 1%positive ∧ 0 ≤ Qnum q)
      then Some (Py.decimal (Qnum q) +:+ ".0") else None
  | Py.PyInt z =>
      if decide (0 ≤ z) then Some (Py.decimal z +:+ ".0") else None
  | _ => None
  end.

(** A stand-in for [json.dumps] on a list of plain ASCII strings. *)
Definition sample_json_dumps (l : list string) : string :=
  let quote := String (ascii_of_N 34) EmptyString in
  "[" +:+ Py.join ", " ((λ s, quote +:+ s +:+ quote) <$> l) +:+ "]".

Definition no_away_home : HA.away_home := HA.AwayHome None None None.

(** A schedule dictionary as [get_schedule] builds it, active, with the
    given name, days and entries. *)
Definition schedule_of (schedule_id name : string) (days : list string)
    (entries : list entry) : schedule_dict :=
  ScheduleDict (Some schedule_id) (Some name) (Some true) [] []
    (Some days) (Some entries) (Some entries) 0 0 [].

Definition entry_at (time_str : string) (degrees : Z) : entry :=
  Entry (Some time_str) None (Some (Py.PyNum (degrees # 1))) (Some "heat").

(** Two schedules of one zone that both have an entry at 08:00. *)
Definition two_schedules_at_0800 : list schedule_dict :=
  [schedule_of "s1" "Workday" ["mon"] [entry_at "08:00" 20; entry_at "17:00" 21];
   schedule_of "s2" "Kitchen" ["mon"] [entry_at "08:00" 22]].

(** One schedule: 06:00 → 20, 08:00 → 16. *)
Definition workday_schedule : list schedule_dict :=
  [schedule_of "s1" "Workday" ["mon"] [entry_at "06:00" 20; entry_at "08:00" 16]].

(** The store after one schedule with a zone, a room and an entry has been
    created in the empty store. *)
Definition store_with_s1 : db :=
  (create_schedule 0 Sql.empty "s1" "Week" (Some ["climate.z"])
     (Some ["Living"]) (Some [entry_0800_21]) (Some ["mon"]) true None).1.

(** A temperature that is stored as [NULL]: [None], or the [float] that
    is not a number. *)
Definition null_temperature (t : Py.value) : Prop :=
  t = Py.PyNone ∨ t = Py.PyNaN.

(** Column value [c] is what the REAL column keeps of temperature [t]. *)
Definition kept_as (t c : Py.value) : Prop :=
  match t with
  | Py.PyNone | Py.PyNaN => c = Py.PyNone
  | Py.PyNum q => c = Py.PyNum q
  | Py.PyInt z => c = Py.PyNum (inject_Z z)
  | Py.PyBool b => c = Py.PyNum (inject_Z (if b then 1 else 0))
  | Py.PyStr s =>
      (∀ q, Sql.numeric_text s = Some q → c = Py.PyNum q)
      ∧ (Sql.numeric_text s = None → c = Py.PyStr s)
  end.

(** Entry row [x] stores entry [e] the way [create_schedule] does: the
    string "off" in any letter case as temperature gives action ['off']
    and [NULL]; otherwise the action is the one supplied, else ['heat'],
    and the temperature is what the column keeps of the one supplied,
    else of 20.0. *)
Definition stored_from (e : entry) (x : entry_row) : Prop :=
  let t := default (Py.PyNum (20 # 1)) (e_temperature e) in
  se_time_minutes x = _time_str_to_minutes (default "08:00" (e_time e))
  ∧ (Py.str_lower_is_off t = true →
     se_action x = "off" ∧ se_temperature x = Py.PyNone)
  ∧ (Py.str_lower_is_off t = false →
     se_action x = default "heat" (e_action e)
     ∧ kept_as t (se_temperature x)
     ∧ (se_temperature x = Py.PyNone ↔ null_temperature t)).

(** The entries for which the stored row satisfies the entry invariant:
    the temperature is the string "off", or the action (['heat'] when
    absent) is ['off'] with a temperature stored as [NULL], ['heat'] with
    one that is not, or another action. *)
Definition keeps_invariant (e : entry) : Prop :=
  let t := default (Py.PyNum (20 # 1)) (e_temperature e) in
  let a := default "heat" (e_action e) in
  Py.str_lower_is_off t = true
  ∨ ((a = "off" → null_temperature t) ∧ (a = "heat" → ¬ null_temperature t)).

(** An entry whose temperature is the string "OFF", with action
    ['heat'] supplied. *)
Definition entry_1700_off : entry :=
  Entry (Some "17:00") None (Some (Py.PyStr "OFF")) (Some "heat").

Definition sample_days : list string := ["mon"; "monday"; "TUE"].

Definition sample_call : db * outcome (option schedule_dict) :=
  create_schedule 0 Sql.empty "s1" "Week" (Some ["climate.z"]) None
    (Some [entry_0800_21; entry_1700_off]) (Some sample_days) true None.

(** ** Store invariants *)

(** The keys the schema declares unique are unique: schedule ids, row ids,
    (schedule, zone) pairs and (schedule, room name) pairs. *)
Definition keys_ok (d : db) : Prop :=
  NoDup (s_id <$> schedules d)
  ∧ NoDup (zone_data <$> schedule_zones d)
  ∧ NoDup ((λ x, (sr_schedule_id x, sr_room_name x)) <$> schedule_rooms d)
  ∧ NoDup (sz_rowid <$> schedule_zones d)
  ∧ NoDup (sr_rowid <$> schedule_rooms d)
  ∧ NoDup (se_rowid <$> schedule_entries d).

Definition store_ok (d : db) : Prop :=
  keys_ok d ∧ weekdays_ok d ∧ seq_ok d.

(** Every zone, room and entry row refers to a stored schedule. *)
Definition refs_ok (d : db) : Prop :=
  Forall (λ r, sz_schedule_id r ∈ s_id <$> schedules d) (schedule_zones d)
  ∧ Forall (λ r, sr_schedule_id r ∈ s_id <$> schedules d) (schedule_rooms d)
  ∧ Forall (λ r, se_schedule_id r ∈ s_id <$> schedules d) (schedule_entries d).

(** The store [delete_schedule] would leave if the connection enforced
    foreign keys. *)
Definition delete_cascading (d : db) (schedule_id : string) : db :=
  (delete_schedule_row (Connection true) schedule_id d).1.

(** The text [get_schedule] gives for a stored room: ["name|area"] when
    the area is not empty, else the name alone. *)
Definition room_text (r : string * option string) : string :=
  match r.2 with
  | Some (String c a) => r.1 +:+ "|" +:+ String c a
  | Some EmptyString | None => r.1
  end.

(** Lower-case letters, digits and the underscore. *)
Definition is_slug_char (c : ascii) : bool :=
  let n := N_of_ascii c in
  (((97 <=? n) && (n <=? 122)) || ((48 <=? n) && (n <=? 57)) || (n =? 95))%N.

Fixpoint string_forall (p : ascii → bool) (s : string) : bool :=
  match s with
  | EmptyString => true
  | String c r => p c && string_forall p r
  end.

(** The number of occurrences of a character in a text. *)
Fixpoint count_char (c : ascii) (s : string) : nat :=
  match s with
  | EmptyString => 0%nat
  | String d r => ((if Ascii.eqb d c then 1 else 0) + count_char c r)%nat
  end.

(** The minutes of a day, 0 to 1439. *)
Definition minutes_of_day : list Z := Z.of_nat <$> seq 0 1440.

(** ** Properties *)

(** *** Time codec *)

Lemma is_digit_chars c : Py.is_digit c = true → c ∈ digit_chars.
Proof.
  destruct c as [[] [] [] [] [] [] [] []]; vm_compute; intros H;
    try discriminate H; clear H;
    repeat (first [ apply list_elem_of_here | apply list_elem_of_further ]).
Qed.

Lemma round_trips_all_digits :
  forallb (λ h1, forallb (λ h2, forallb (λ m1, forallb (λ m2,
    implb (is_hh_mm (hh_mm_of h1 h2 m1 m2))
          (round_trips (hh_mm_of h1 h2 m1 m2)))
    digit_chars) digit_chars) digit_chars) digit_chars = true.
Proof. vm_compute. reflexivity. Qed.

(** C7: for every valid ["HH:MM"] text [s], converting it to minutes since
    midnight and back gives [s] again. *)
Theorem time_str_round_trip (s : string) :
  is_hh_mm s = true →
  _minutes_to_time_str (_time_str_to_minutes s) = s.
Proof.
  intros Hs.
  destruct s as [|h1 [|h2 [|c [|m1 [|m2 [|? ?]]]]]]; try discriminate Hs.
  pose proof Hs as Hv. cbn [is_hh_mm] in Hv.
  repeat (apply andb_prop in Hv; destruct Hv as [Hv ?]).
  apply Ascii.eqb_eq in Hv. subst c.
  repeat match goal with
         | H : Py.is_digit _ = true |- _ =>
             apply is_digit_chars, list_elem_of_In in H
         end.
  pose proof round_trips_all_digits as Hall.
  rewrite forallb_forall in Hall. specialize (Hall h1 ltac:(assumption)).
  rewrite forallb_forall in Hall. specialize (Hall h2 ltac:(assumption)).
  rewrite forallb_forall in Hall. specialize (Hall m1 ltac:(assumption)).
  rewrite forallb_forall in Hall. specialize (Hall m2 ltac:(assumption)).
  change (hh_mm_of h1 h2 m1 m2) with
    (String h1 (String h2 (String ":" (String m1 (String m2 EmptyString))))) in Hall.
  rewrite Hs in Hall. cbn [implb] in Hall.
  unfold round_trips in Hall. by apply String.eqb_eq in Hall.
Qed.

Lemma time_str_round_trip_witness :
  _minutes_to_time_str (_time_str_to_minutes "07:30") = "07:30".
Proof. apply time_str_round_trip. reflexivity. Defined.

(** *** Closed form of the store operations *)

Lemma stamp_app {A B} (mk : Z → A → B) n (l1 l2 : list A) :
  stamp mk n (l1 ++ l2) = stamp mk n l1 ++ stamp mk (n + Z.of_nat (length l1)) l2.
Proof.
  revert n. induction l1 as [|x l1 IH]; intros n; simpl.
  - by rewrite Z.add_0_r.
  - rewrite IH. do 3 f_equal. lia.
Qed.

Lemma length_stamp {A B} (mk : Z → A → B) n (l : list A) :
  length (stamp mk n l) = length l.
Proof. revert n. induction l; intros; simpl; auto. Qed.

Lemma elem_of_stamp {A B} (mk : Z → A → B) n (l : list A) y :
  y ∈ stamp mk n l → ∃ k x, n < k ∧ x ∈ l ∧ y = mk k x.
Proof.
  revert n. induction l as [|x l IH]; intros n; simpl.
  - by intros ?%elem_of_nil.
  - intros [->|Hy]%elem_of_cons.
    + exists (n + 1), x. split_and!; [lia|left|done].
    + destruct (IH _ Hy) as (k & x' & ? & ? & ->).
      exists k, x'. split_and!; [lia|by right|done].
Qed.

Lemma fmap_stamp {A B C} (f : B → C) (g : A → C) (mk : Z → A → B) n l :
  (∀ k x, f (mk k x) = g x) → f <$> stamp mk n l = g <$> l.
Proof.
  intros Hf. revert n. induction l as [|x l IH]; intros n; simpl; [done|].
  by rewrite Hf, IH.
Qed.

Lemma insert_zones_closed i zs d :
  insert_zones i zs d =
  if decide (NoDup zs
             ∧ Forall (λ z, (i, z) ∉ zone_data <$> schedule_zones d) zs)
  then Some (Db (schedules d)
               (schedule_zones d ++ stamp (mk_zone_row i) (seq_zones d) zs)
               (schedule_rooms d) (schedule_entries d)
               (seq_zones d + Z.of_nat (length zs)) (seq_rooms d)
               (seq_entries d))
  else None.
Proof.
  revert d. induction zs as [|z zs IH]; intros d.
  - cbn [insert_zones stamp length]. rewrite decide_True by (split; constructor).
    destruct d; simpl. by rewrite app_nil_r, Z.add_0_r.
  - cbn [insert_zones]. unfold insert_zone.
    destruct (decide (Exists _ _)) as [Hex|Hex]; simpl.
    + rewrite decide_False; [done|]. intros [_ Hall].
      apply Forall_cons in Hall as [Hz _]. apply Hz.
      apply Exists_exists in Hex as (r & Hr & <- & <-).
      apply list_elem_of_fmap. by exists r.
    + rewrite IH. simpl.
      assert (Hz : (i, z) ∉ zone_data <$> schedule_zones d).
      { intros (r & Heq & Hr)%list_elem_of_fmap. apply Hex.
        apply Exists_exists. exists r. split; [done|].
        unfold zone_data in Heq. by simplify_eq. }
      destruct (decide (NoDup zs ∧ _)) as [[Hnd Hall]|Hno].
      * rewrite decide_True.
        { rewrite <- app_assoc. simpl. do 2 f_equal. lia. }
        split.
        -- constructor; [|done]. intros Hin.
           eapply Forall_forall in Hall; [|exact Hin]. apply Hall.
           rewrite fmap_app. apply elem_of_app. right. simpl. left.
        -- constructor; [done|]. eapply Forall_impl; [exact Hall|].
           intros z' Hz' Hin. apply Hz'. rewrite fmap_app.
           apply elem_of_app. by left.
      * rewrite decide_False; [done|]. intros [Hnd Hall]. apply Hno.
        apply NoDup_cons in Hnd as [Hz1 Hnd].
        apply Forall_cons in Hall as [_ Hall].
        split; [done|]. apply Forall_forall. intros z' Hz' Hin.
        rewrite fmap_app in Hin. apply elem_of_app in Hin as [Hin|Hin].
        -- eapply Forall_forall in Hall; [|exact Hz']. by apply Hall.
        -- simpl in Hin. apply list_elem_of_singleton in Hin.
           unfold zone_data in Hin. simpl in Hin. by simplify_eq.
Qed.

Lemma insert_rooms_closed i rs d :
  insert_rooms i rs d =
  if decide (NoDup (split_room <$> rs).*1
             ∧ Forall (λ r, (i, r) ∉ (λ x, (sr_schedule_id x, sr_room_name x))
                                       <$> schedule_rooms d)
                 (split_room <$> rs).*1)
  then Some (Db (schedules d) (schedule_zones d)
               (schedule_rooms d
                  ++ stamp (mk_room_row i) (seq_rooms d) (split_room <$> rs))
               (schedule_entries d)
               (seq_zones d) (seq_rooms d + Z.of_nat (length rs))
               (seq_entries d))
  else None.
Proof.
  revert d. induction rs as [|r0 rs IH]; intros d.
  - cbn [insert_rooms stamp length fmap list_fmap].
    rewrite decide_True by (split; constructor).
    destruct d; simpl. by rewrite app_nil_r, Z.add_0_r.
  - cbn [insert_rooms]. rewrite !fmap_cons.
    destruct (split_room r0) as [r a] eqn:Hsplit. cbn [fst].
    unfold insert_room.
    destruct (decide (Exists _ _)) as [Hex|Hex]; simpl.
    + rewrite decide_False; [done|]. intros [_ Hall].
      apply Forall_cons in Hall as [Hz _]. apply Hz.
      apply Exists_exists in Hex as (x & Hx & <- & <-).
      apply list_elem_of_fmap. by exists x.
    + rewrite IH. simpl.
      assert (Hz : (i, r) ∉ (λ x, (sr_schedule_id x, sr_room_name x))
                             <$> schedule_rooms d).
      { intros (x & Heq & Hx)%list_elem_of_fmap. apply Hex.
        apply Exists_exists. exists x. split; [done|]. by simplify_eq. }
      destruct (decide (NoDup _ ∧ _)) as [[Hnd Hall]|Hno].
      * rewrite decide_True.
        { rewrite <- app_assoc. simpl. do 2 f_equal. lia. }
        split.
        -- constructor; [|done]. intros Hin.
           eapply Forall_forall in Hall; [|exact Hin]. apply Hall.
           rewrite fmap_app. apply elem_of_app. right. simpl. left.
        -- constructor; [done|]. eapply Forall_impl; [exact Hall|].
           intros z' Hz' Hin. apply Hz'. rewrite fmap_app.
           apply elem_of_app. by left.
      * rewrite decide_False; [done|]. intros [Hnd Hall]. apply Hno.
        apply NoDup_cons in Hnd as [Hz1 Hnd].
        apply Forall_cons in Hall as [_ Hall].
        split; [done|]. apply Forall_forall. intros z' Hz' Hin.
        rewrite fmap_app in Hin. apply elem_of_app in Hin as [Hin|Hin].
        -- eapply Forall_forall in Hall; [|exact Hz']. by apply Hall.
        -- simpl in Hin. apply list_elem_of_singleton in Hin. by simplify_eq.
Qed.

(** *** Day names *)

Lemma day_mapping_None k : day_mapping !! k = None ↔ k ∉ day_names.
Proof.
  unfold day_mapping. rewrite <- not_elem_of_list_to_map. reflexivity.
Qed.

Lemma day_mapping_Some k day_num :
  day_mapping !! k = Some day_num → 0 ≤ day_num ≤ 6.
Proof.
  intros H%elem_of_list_to_map_2.
  repeat (apply elem_of_cons in H as [H|H]; [simplify_eq; lia|]).
  by apply elem_of_nil in H.
Qed.

Lemma int64_weekday n : 0 ≤ n ≤ 6 → int64 n.
Proof. unfold int64. lia. Qed.

Lemma insert_day_entries_closed i n es d :
  0 ≤ n ≤ 6 →
  insert_day_entries i n es d =
  if decide (Forall entry_fits es)
  then Some (Db (schedules d) (schedule_zones d) (schedule_rooms d)
               (schedule_entries d
                  ++ stamp (mk_entry_row i) (seq_entries d)
                       ((λ e, (n, stored_values e)) <$> es))
               (seq_zones d) (seq_rooms d)
               (seq_entries d + Z.of_nat (length es)))
  else None.
Proof.
  intros Hn%int64_weekday. revert d.
  induction es as [|e es IH]; intros d.
  - cbn [insert_day_entries]. rewrite decide_True by constructor.
    destruct d; simpl. by rewrite app_nil_r, Z.add_0_r.
  - cbn [insert_day_entries]. unfold stored_values.
    pose proof (eq_refl : entry_fits e = entry_fits e) as Hfit.
    unfold entry_fits at 2 in Hfit.
    destruct (entry_values e) as [[m t] a] eqn:He. cbn [fst snd] in Hfit.
    unfold insert_entry.
    destruct (decide (int64 n ∧ int64 m ∧ bindable t)) as [Hok|Hno].
    + cbn [mbind option_bind]. rewrite IH.
      cbn [schedules schedule_zones schedule_rooms schedule_entries
           seq_zones seq_rooms seq_entries].
      destruct (decide (Forall entry_fits es)) as [Hes|Hes].
      * rewrite decide_True.
        2:{ constructor; [|done]. rewrite Hfit. tauto. }
        rewrite fmap_cons. cbn [stamp length]. rewrite He. cbn [fst snd].
        rewrite <- app_assoc. do 2 f_equal. lia.
      * rewrite decide_False; [done|]. by intros [_ ?]%Forall_cons.
    + cbn [mbind option_bind]. rewrite decide_False; [done|].
      intros [Hfe _]%Forall_cons. rewrite Hfit in Hfe. tauto.
Qed.

Lemma entries_fit_cons_None day days es :
  day_mapping !! Py.lower day = None →
  entries_fit (day :: days) es ↔ entries_fit days es.
Proof.
  intros Hd. unfold entries_fit, day_numbers. cbn [omap list_omap].
  by rewrite Hd.
Qed.

Lemma entries_fit_cons_Some day n days es :
  day_mapping !! Py.lower day = Some n →
  entries_fit (day :: days) es ↔ Forall entry_fits es.
Proof.
  intros Hd. unfold entries_fit, day_numbers. cbn [omap list_omap].
  rewrite Hd. split; [by intros [?|?]|by right].
Qed.

Lemma insert_all_entries_closed i days es d :
  insert_all_entries i days es d =
  if decide (entries_fit days es)
  then Some (Db (schedules d) (schedule_zones d) (schedule_rooms d)
               (schedule_entries d
                  ++ stamp (mk_entry_row i) (seq_entries d)
                       (entry_plan days es))
               (seq_zones d) (seq_rooms d)
               (seq_entries d + Z.of_nat (length (entry_plan days es))))
  else None.
Proof.
  revert d. induction days as [|day days IH]; intros d.
  - cbn [insert_all_entries]. rewrite decide_True by (by left).
    destruct d; simpl. by rewrite app_nil_r, Z.add_0_r.
  - cbn [insert_all_entries]. unfold entry_plan, day_numbers.
    cbn [omap list_omap].
    destruct (day_mapping !! Py.lower day) as [n|] eqn:Hd.
    + rewrite insert_day_entries_closed by (by eapply day_mapping_Some).
      destruct (decide (Forall entry_fits es)) as [Hes|Hes].
      * cbn [mbind option_bind]. rewrite IH.
        rewrite decide_True by (by right).
        rewrite decide_True by (by right).
        cbn [schedules schedule_zones schedule_rooms schedule_entries
             seq_zones seq_rooms seq_entries].
        unfold entry_plan, day_numbers. rewrite bind_cons.
        rewrite stamp_app, length_app, !length_fmap, <- app_assoc.
        do 2 f_equal. lia.
      * cbn [mbind option_bind]. rewrite decide_False; [done|].
        intros Hf. apply Hes.
        exact (proj1 (entries_fit_cons_Some day n days es Hd) Hf).
    + rewrite IH.
      destruct (decide (entries_fit days es)) as [Hes|Hes].
      * rewrite decide_True; [done|].
        exact (proj2 (entries_fit_cons_None day days es Hd) Hes).
      * rewrite decide_False; [done|]. intros Hf. apply Hes.
        exact (proj1 (entries_fit_cons_None day days es Hd) Hf).
Qed.

Lemma entry_plan_nil_r days : entry_plan days [] = [].
Proof.
  unfold entry_plan. induction (day_numbers days) as [|n l IH]; [done|].
  cbn. exact IH.
Qed.

Lemma create_schedule_txn_closed now d i n zones rooms entries days active meta :
  create_schedule_txn now d i n zones rooms entries days active meta =
  if decide (storable zones rooms entries days)
  then Some (created now d i n zones rooms entries days active meta)
  else None.
Proof.
  unfold create_schedule_txn, storable, insertable. rewrite insert_zones_closed.
  cbn [schedule_zones delete_entries delete_rooms delete_zones
       insert_or_replace_schedule].
  assert (Hz : ∀ zs : list string,
    Forall (λ z, (i, z) ∉ zone_data <$>
       filter (λ r, sz_schedule_id r ≠ i) (schedule_zones d)) zs).
  { intros zs. apply Forall_forall.
    intros z _ (r & Heq & Hr%list_elem_of_filter)%list_elem_of_fmap.
    destruct Hr as [Hne _]. unfold zone_data in Heq. by simplify_eq. }
  destruct (decide (NoDup (default [] zones))) as [Hnz|Hnz].
  2:{ rewrite decide_False by tauto. rewrite decide_False by tauto. done. }
  rewrite decide_True by (split; [done|apply Hz]).
  cbn [mbind option_bind]. rewrite insert_rooms_closed.
  cbn [schedule_rooms].
  assert (Hr : ∀ rs : list string,
    Forall (λ r, (i, r) ∉ (λ x, (sr_schedule_id x, sr_room_name x)) <$>
       filter (λ r, sr_schedule_id r ≠ i) (schedule_rooms d)) rs).
  { intros rs. apply Forall_forall.
    intros r _ (x & Heq & Hx%list_elem_of_filter)%list_elem_of_fmap.
    destruct Hx as [Hne _]. by simplify_eq. }
  destruct (decide (NoDup (split_room <$> default [] rooms).*1)) as [Hnr|Hnr].
  2:{ rewrite decide_False by tauto. rewrite decide_False by tauto. done. }
  rewrite decide_True by (split; [done|apply Hr]).
  cbn [mbind option_bind]. unfold created.
  destruct entries as [[|e es]|], days as [[|day ds]|];
    cbn [default];
    rewrite ?entry_plan_nil_r;
    try (rewrite decide_True
           by (split; [done|first [by left|right; constructor]]);
         cbn; by rewrite ?app_nil_r, ?Z.add_0_r).
  rewrite insert_all_entries_closed.
  cbn [schedules schedule_zones schedule_rooms schedule_entries
       seq_zones seq_rooms seq_entries].
  destruct (decide (entries_fit (day :: ds) (e :: es))) as [Hfit|Hfit].
  - by rewrite decide_True.
  - rewrite decide_False; [done|]. tauto.
Qed.

(** *** Sorting commutes with a map that respects the order *)

Lemma list_merge_fmap {A B} (f : A → B) (R : relation A) (R' : relation B)
    `{!∀ x y, Decision (R x y)} `{!∀ x y, Decision (R' x y)} l1 l2 :
  (∀ x y, R x y ↔ R' (f x) (f y)) →
  f <$> list_merge R l1 l2 = list_merge R' (f <$> l1) (f <$> l2).
Proof.
  intros HR. revert l2. induction l1 as [|x1 l1 IH1]; intros l2.
  - by destruct l2.
  - induction l2 as [|x2 l2 IH2]; [done|].
    rewrite !fmap_cons, !list_merge_cons.
    destruct (decide (R x1 x2)) as [Hx|Hx].
    + rewrite decide_True by (by apply HR).
      rewrite fmap_cons, IH1. by rewrite fmap_cons.
    + rewrite decide_False by (by rewrite <- HR).
      rewrite fmap_cons, IH2. by rewrite fmap_cons.
Qed.

Lemma merge_sort_fmap {A B} (f : A → B) (R : relation A) (R' : relation B)
    `{!∀ x y, Decision (R x y)} `{!∀ x y, Decision (R' x y)} l :
  (∀ x y, R x y ↔ R' (f x) (f y)) →
  f <$> merge_sort R l = merge_sort R' (f <$> l).
Proof.
  intros HR. unfold merge_sort.
  set (F := λ o : option (list A),
              match o with Some l0 => Some (f <$> l0) | None => None end).
  assert (Hpush : ∀ st l0,
    F <$> merge_list_to_stack R st l0
    = merge_list_to_stack R' (F <$> st) (f <$> l0)).
  { induction st as [|[l'|] st IH]; intros l0; cbn; [done| |done].
    by rewrite IH, (list_merge_fmap f R R'). }
  assert (Hpop : ∀ st,
    f <$> merge_stack R st = merge_stack R' (F <$> st)).
  { induction st as [|[l'|] st IH]; cbn [merge_stack fmap list_fmap];
      [done| |done].
    cbn. by rewrite (list_merge_fmap f R R'), IH. }
  assert (Haux : ∀ l0 st,
    f <$> merge_sort_aux R st l0
    = merge_sort_aux R' (F <$> st) (f <$> l0)).
  { induction l0 as [|x l0 IH]; intros st; cbn [merge_sort_aux fmap list_fmap].
    - apply Hpop.
    - rewrite IH, Hpush. done. }
  apply (Haux l []).
Qed.

Lemma fmap_sort_stamp {A B C} (f : B → C) (mk : Z → A → B)
    (R : relation B) (R' : relation C) (g : A → C)
    `{!∀ x y, Decision (R x y)} `{!∀ x y, Decision (R' x y)} n l :
  (∀ x y, R x y ↔ R' (f x) (f y)) → (∀ k x, f (mk k x) = g x) →
  f <$> merge_sort R (stamp mk n l) = merge_sort R' (g <$> l).
Proof.
  intros HR Hf. rewrite (merge_sort_fmap f R R') by done.
  by rewrite (fmap_stamp f g).
Qed.

(** *** [create_schedule] *)

Lemma filter_none {A} (P : A → Prop) `{!∀ x, Decision (P x)} (l : list A) :
  Forall (λ x, ¬ P x) l → filter P l = [].
Proof.
  induction 1 as [|x l Hx _ IH]; [done|].
  rewrite filter_cons, decide_False by done. exact IH.
Qed.

Lemma filter_all {A} (P : A → Prop) `{!∀ x, Decision (P x)} (l : list A) :
  Forall P l → filter P l = l.
Proof.
  induction 1 as [|x l Hx _ IH]; [done|].
  rewrite filter_cons, decide_True by done. by rewrite IH.
Qed.

Lemma Forall_stamp {A B} (P : B → Prop) (mk : Z → A → B) n l :
  (∀ k x, n < k → P (mk k x)) → Forall P (stamp mk n l).
Proof.
  intros HP. apply Forall_forall. intros y Hy.
  apply elem_of_stamp in Hy as (k & x & ? & _ & ->). by apply HP.
Qed.

Lemma filter_own_rows {B} (key : B → string) (i : string) (old new : list B) :
  Forall (λ x, key x = i) new →
  filter (λ x, key x = i) (filter (λ x, key x ≠ i) old ++ new) = new.
Proof.
  intros Hnew. rewrite filter_app, (filter_all _ new) by done.
  rewrite filter_none; [done|].
  apply Forall_forall. intros x Hx%list_elem_of_filter. tauto.
Qed.


Lemma length_entry_plan days es :
  length (entry_plan days es)
  = (length es * length (day_numbers days))%nat.
Proof.
  unfold entry_plan. induction (day_numbers days) as [|n l IH].
  - simpl. lia.
  - rewrite bind_cons, length_app, length_fmap, IH. simpl. lia.
Qed.

Lemma create_schedule_returned now d i n zones rooms entries days active meta d' r :
  create_schedule now d i n zones rooms entries days active meta
  = (d', Returned r) →
  d' = created now d i n zones rooms entries days active meta.
Proof.
  unfold create_schedule. rewrite create_schedule_txn_closed.
  case_decide; intros; by simplify_eq.
Qed.

Lemma create_schedule_raised now d i n zones rooms entries days active meta :
  ¬ storable zones rooms entries days →
  create_schedule now d i n zones rooms entries days active meta = (d, Raised).
Proof.
  intros. unfold create_schedule. rewrite create_schedule_txn_closed.
  by rewrite decide_False.
Qed.

Lemma create_schedule_stored now d i n zones rooms entries days active meta :
  storable zones rooms entries days →
  create_schedule now d i n zones rooms entries days active meta
  = (created now d i n zones rooms entries days active meta,
     Returned (get_schedule
                 (created now d i n zones rooms entries days active meta) i)).
Proof.
  intros. unfold create_schedule. rewrite create_schedule_txn_closed.
  by rewrite decide_True.
Qed.

Lemma own_entries_created now d i n zones rooms entries days active meta :
  filter (λ x, se_schedule_id x = i)
    (schedule_entries (created now d i n zones rooms entries days active meta))
  = stamp (mk_entry_row i) (seq_entries d)
      (entry_plan (default [] days) (default [] entries)).
Proof.
  cbn [created schedule_entries].
  apply (filter_own_rows se_schedule_id), Forall_stamp. done.
Qed.

Lemma own_zones_created now d i n zones rooms entries days active meta :
  filter (λ x, sz_schedule_id x = i)
    (schedule_zones (created now d i n zones rooms entries days active meta))
  = stamp (mk_zone_row i) (seq_zones d) (default [] zones).
Proof.
  cbn [created schedule_zones].
  apply (filter_own_rows sz_schedule_id), Forall_stamp. done.
Qed.

Lemma own_rooms_created now d i n zones rooms entries days active meta :
  filter (λ x, sr_schedule_id x = i)
    (schedule_rooms (created now d i n zones rooms entries days active meta))
  = stamp (mk_room_row i) (seq_rooms d) (split_room <$> default [] rooms).
Proof.
  cbn [created schedule_rooms].
  apply (filter_own_rows sr_schedule_id), Forall_stamp. done.
Qed.

(** C5, counterexample: one entry and the one-element day list
    [['monday']] give a call that returns with no entry row stored, not
    1 × 1. *)
Lemma create_schedule_full_day_name_no_rows :
  let call :=
    create_schedule 0 Sql.empty "s1" "Week" (Some ["climate.z"]) None
      (Some [entry_0800_21]) (Some ["monday"]) true None in
  (∃ r, call.2 = Returned r)
  ∧ length (filter (λ x, se_schedule_id x = "s1") (schedule_entries call.1))
    ≠ (length [entry_0800_21] * length ["monday"])%nat.
Proof. vm_compute. split; [eauto|discriminate]. Qed.

(** C5, amended: when [create_schedule] returns, the entry rows of the
    schedule are exactly one per pair of an entry and a recognised element
    of [days] (each entry on every such day), N × n' rows for N entries and
    n' recognised day names; every zone, room and entry row of that id
    carries a row id handed out during the call, so that no row that was
    in the store before the call remains for that id. *)
Theorem create_schedule_cross_product
    now d i n zones rooms entries days active meta d' r :
  create_schedule now d i n zones rooms entries days active meta
  = (d', Returned r) →
  let own := filter (λ x, se_schedule_id x = i) (schedule_entries d') in
  length own
  = (length (default [] entries)
     * length (day_numbers (default [] days)))%nat
  ∧ entry_columns <$> own
    = entry_plan (default [] days) (default [] entries)
  ∧ (∀ x, x ∈ schedule_entries d' → se_schedule_id x = i →
          seq_entries d < se_rowid x)
  ∧ (∀ x, x ∈ schedule_zones d' → sz_schedule_id x = i →
          seq_zones d < sz_rowid x)
  ∧ (∀ x, x ∈ schedule_rooms d' → sr_schedule_id x = i →
          seq_rooms d < sr_rowid x)
  ∧ (seq_ok d →
     (∀ x, x ∈ schedule_entries d' → se_schedule_id x = i →
           x ∉ schedule_entries d)
     ∧ (∀ x, x ∈ schedule_zones d' → sz_schedule_id x = i →
             x ∉ schedule_zones d)
     ∧ (∀ x, x ∈ schedule_rooms d' → sr_schedule_id x = i →
             x ∉ schedule_rooms d)).
Proof.
  intros Hret own.
  apply create_schedule_returned in Hret. subst d'. subst own.
  assert (He : ∀ x,
    x ∈ schedule_entries (created now d i n zones rooms entries days active meta) →
    se_schedule_id x = i → seq_entries d < se_rowid x).
  { intros x Hx Hi.
    assert (Hown : x ∈ filter (λ x, se_schedule_id x = i)
      (schedule_entries (created now d i n zones rooms entries days active meta)))
      by by apply list_elem_of_filter.
    rewrite own_entries_created in Hown.
    by apply elem_of_stamp in Hown as (k & y & Hk & _ & ->). }
  assert (Hz : ∀ x,
    x ∈ schedule_zones (created now d i n zones rooms entries days active meta) →
    sz_schedule_id x = i → seq_zones d < sz_rowid x).
  { intros x Hx Hi.
    assert (Hown : x ∈ filter (λ x, sz_schedule_id x = i)
      (schedule_zones (created now d i n zones rooms entries days active meta)))
      by by apply list_elem_of_filter.
    rewrite own_zones_created in Hown.
    by apply elem_of_stamp in Hown as (k & y & Hk & _ & ->). }
  assert (Hr : ∀ x,
    x ∈ schedule_rooms (created now d i n zones rooms entries days active meta) →
    sr_schedule_id x = i → seq_rooms d < sr_rowid x).
  { intros x Hx Hi.
    assert (Hown : x ∈ filter (λ x, sr_schedule_id x = i)
      (schedule_rooms (created now d i n zones rooms entries days active meta)))
      by by apply list_elem_of_filter.
    rewrite own_rooms_created in Hown.
    by apply elem_of_stamp in Hown as (k & y & Hk & _ & ->). }
  rewrite own_entries_created.
  split_and!; try done.
  - by rewrite length_stamp, length_entry_plan.
  - erewrite fmap_stamp; [apply list_fmap_id|]. by intros k [day [[m t] a]].
  - intros (Hsz & Hsr & Hse). split_and!; intros x Hx Hi Hold.
    + specialize (He x Hx Hi).
      eapply Forall_forall in Hse; [|exact Hold]. simpl in Hse. lia.
    + specialize (Hz x Hx Hi).
      eapply Forall_forall in Hsz; [|exact Hold]. simpl in Hsz. lia.
    + specialize (Hr x Hx Hi).
      eapply Forall_forall in Hsr; [|exact Hold]. simpl in Hsr. lia.
Qed.

Lemma create_schedule_cross_product_witness :
  sample_call = (sample_call.1, Returned (get_schedule sample_call.1 "s1"))
  ∧ length (filter (λ x, se_schedule_id x = "s1")
              (schedule_entries sample_call.1))
    = (2 * 2)%nat.
Proof.
  assert (Hret : sample_call
                 = (sample_call.1, Returned (get_schedule sample_call.1 "s1")))
    by (vm_compute; reflexivity).
  split; [exact Hret|].
  pose proof (create_schedule_cross_product 0 Sql.empty "s1" "Week"
                (Some ["climate.z"]) None
                (Some [entry_0800_21; entry_1700_off])
                (Some sample_days) true None
                sample_call.1 (get_schedule sample_call.1 "s1") Hret) as H.
  destruct H as [H _]. exact H.
Defined.

(** *** Reading a schedule back *)

Lemma elem_of_entry_plan days es x :
  x ∈ entry_plan days es →
  x.1 ∈ day_numbers days ∧ ∃ e, e ∈ es ∧ x.2 = stored_values e.
Proof.
  unfold entry_plan. intros (n & Hx & Hn)%list_elem_of_bind.
  apply list_elem_of_fmap in Hx as (e & -> & He). eauto.
Qed.

Lemma index_day_names day :
  0 ≤ day ≤ 6 → is_Some (Py.index day_names day).
Proof.
  intros Hday.
  assert (day = 0 ∨ day = 1 ∨ day = 2 ∨ day = 3 ∨ day = 4 ∨ day = 5 ∨ day = 6)
    as Hcases by lia.
  destruct_or!; subst day; vm_compute; eauto.
Qed.

Lemma group_rows_is_Some rows days periods :
  Forall (λ r, 0 ≤ se_day_of_week r ≤ 6) rows →
  is_Some (group_rows rows days periods).
Proof.
  intros Hrows. revert days periods.
  induction Hrows as [|row rows Hrow _ IH]; intros days periods.
  - by eexists.
  - cbn [group_rows].
    destruct (index_day_names _ Hrow) as [day_name ->]. cbn. apply IH.
Qed.


Lemma group_rows_spec rows days periods :
  Forall (λ r, 0 ≤ se_day_of_week r ≤ 6) rows →
  ∃ days' periods',
    group_rows rows days periods = Some (days', periods')
    ∧ length periods' = (length periods + length rows)%nat
    ∧ (NoDup days → NoDup days')
    ∧ (∀ nm, nm ∈ days'
             ↔ nm ∈ days
               ∨ ∃ row, row ∈ rows
                        ∧ Py.index day_names (se_day_of_week row) = Some nm).
Proof.
  intros Hrows. revert days periods.
  induction Hrows as [|row rows Hrow _ IH]; intros days periods.
  - exists days, periods. split_and!; [done|simpl; lia|done|].
    intros nm. split; [by left|]. intros [?|(r & Hr & _)]; [done|].
    by apply elem_of_nil in Hr.
  - cbn [group_rows].
    destruct (index_day_names _ Hrow) as [day_name Hname]. rewrite Hname.
    cbn [mbind option_bind].
    match goal with
    | |- context [group_rows rows ?ds ?ps] =>
        destruct (IH ds ps) as (days' & periods' & Heq & Hlen & Hnd & Hin)
    end.
    exists days', periods'. split_and!.
    + exact Heq.
    + rewrite Hlen, length_app. simpl. lia.
    + intros Hd. apply Hnd. case_decide; [done|].
      apply NoDup_app. split_and!; [done| |apply NoDup_singleton].
      intros x Hx ->%list_elem_of_singleton. done.
    + intros nm. rewrite Hin. split.
      * intros [Hnm|(r & Hr & Hidx)].
        -- case_decide; [by left|].
           apply elem_of_app in Hnm as [? | ->%list_elem_of_singleton];
             [by left|]. right. exists row. split; [left|done].
        -- right. exists r. split; [by right|done].
      * intros [Hnm|(r & [->|Hr]%elem_of_cons & Hidx)].
        -- left. case_decide; [done|]. apply elem_of_app. by left.
        -- left. rewrite Hname in Hidx. injection Hidx as <-.
           case_decide; [done|]. apply elem_of_app. right. left.
        -- right. by exists r.
Qed.

Lemma group_rows_columns rows1 rows2 days periods :
  entry_columns <$> rows1 = entry_columns <$> rows2 →
  group_rows rows1 days periods = group_rows rows2 days periods.
Proof.
  revert rows2 days periods.
  induction rows1 as [|r1 rows1 IH]; intros [|r2 rows2] days periods Heq;
    try done.
  rewrite !fmap_cons in Heq. injection Heq as Hd Hm Ht Ha Hrest.
  cbn [group_rows]. rewrite Hd, Hm, Ht, Ha.
  destruct (Py.index day_names (se_day_of_week r2)); [|done].
  cbn [mbind option_bind]. by apply IH.
Qed.

(** The rows a dictionary is built from, for a list of (day, columns)
    pairs: in the order of the selection, whatever their row ids. *)
Lemma sorted_own_entries i k plan :
  entry_columns <$> merge_sort by_day_then_time (stamp (mk_entry_row i) k plan)
  = merge_sort plan_order plan.
Proof.
  rewrite (fmap_sort_stamp entry_columns _ by_day_then_time plan_order id);
    [by rewrite list_fmap_id|done|by intros ? [? [[? ?] ?]]].
Qed.

Lemma sorted_own_zones i k zones :
  sz_zone_id <$> merge_sort by_zone_id (stamp (mk_zone_row i) k zones)
  = merge_sort String.le zones.
Proof.
  rewrite (fmap_sort_stamp sz_zone_id _ by_zone_id String.le id);
    [by rewrite list_fmap_id|done|done].
Qed.

Lemma sorted_own_rooms i k rooms :
  (λ r, (sr_room_name r, sr_area_id r))
    <$> merge_sort by_room_name (stamp (mk_room_row i) k rooms)
  = merge_sort room_order rooms.
Proof.
  rewrite (fmap_sort_stamp (λ r, (sr_room_name r, sr_area_id r)) _
             by_room_name room_order id);
    [by rewrite list_fmap_id|done|by intros ? [? ?]].
Qed.

Lemma plan_rows_weekdays i days es :
  Forall (λ r, 0 ≤ se_day_of_week r ≤ 6)
    (mk_entry_row i 0 <$> merge_sort plan_order (entry_plan days es)).
Proof.
  apply Forall_fmap, Forall_forall. intros x Hx.
  rewrite merge_sort_Permutation in Hx.
  apply elem_of_entry_plan in Hx as [Hday _].
  apply list_elem_of_omap in Hday as (day & _ & Hday).
  cbn. by eapply day_mapping_Some.
Qed.

(** The dictionary [get_schedule] builds for a schedule that has just
    been stored: it is made of the arguments of the call alone. *)
Lemma get_schedule_created now d i n zones rooms entries days active meta :
  ∃ days' periods',
    group_rows
      (mk_entry_row i 0
         <$> merge_sort plan_order
               (entry_plan (default [] days) (default [] entries))) [] []
    = Some (days', periods')
    ∧ get_schedule (created now d i n zones rooms entries days active meta) i
      = Some (ScheduleDict (Some i) (Some n) (Some active)
                (merge_sort String.le (default [] zones))
                (room_text
                   <$> merge_sort room_order (split_room <$> default [] rooms))
                (Some days') (Some periods') (Some periods') now now
                (default [] meta)).
Proof.
  destruct (group_rows_spec
              (mk_entry_row i 0
                 <$> merge_sort plan_order
                       (entry_plan (default [] days) (default [] entries)))
              [] []) as (days' & periods' & Heq & _).
  { apply plan_rows_weekdays. }
  exists days', periods'. split; [exact Heq|].
  unfold get_schedule.
  rewrite own_entries_created, own_zones_created, own_rooms_created.
  rewrite (group_rows_columns _
             (mk_entry_row i 0
                <$> merge_sort plan_order
                      (entry_plan (default [] days) (default [] entries)))).
  2:{ rewrite sorted_own_entries, <- list_fmap_compose.
      rewrite <- (list_fmap_id (merge_sort _ _)) at 1.
      apply list_fmap_ext. by intros ? [? [[? ?] ?]]. }
  rewrite Heq. cbn [created schedules].
  rewrite (filter_own_rows s_id) by (by repeat constructor).
  cbn [mbind option_bind s_id s_name s_active s_created_at s_updated_at
       s_metadata].
  do 2 f_equal.
  - apply sorted_own_zones.
  - rewrite <- (sorted_own_rooms i (seq_rooms d)), <- list_fmap_compose.
    apply list_fmap_ext. by intros ? [? ? ? ?].
Qed.


Lemma seq_ok_empty : seq_ok Sql.empty.
Proof. repeat split; constructor. Qed.

Lemma seq_ok_created now d i n zones rooms entries days active meta :
  seq_ok d → seq_ok (created now d i n zones rooms entries days active meta).
Proof.
  intros (Hsz & Hsr & Hse). unfold seq_ok. cbn.
  assert (Hgrow : ∀ {A B} (rowid : B → Z) (mk : Z → A → B) (k : Z)
            (old : list B) (P : B → Prop) `{!∀ x, Decision (P x)} (l : list A),
            (∀ j x, rowid (mk j x) = j) →
            Forall (λ r, rowid r ≤ k) old →
            Forall (λ r, rowid r ≤ k + Z.of_nat (length l))
              (filter P old ++ stamp mk k l)).
  { intros A B rowid mk k old P ? l Hid Hold. apply Forall_app. split.
    - apply Forall_forall. intros x [_ Hx]%list_elem_of_filter.
      eapply Forall_forall in Hold; [|exact Hx]. simpl in Hold. lia.
    - clear Hold. revert k. induction l as [|x l IH]; intros k; simpl.
      + constructor.
      + constructor; [rewrite Hid; lia|].
        eapply Forall_impl; [apply IH|]. intros r Hr. simpl in Hr. lia. }
  split_and!.
  - by apply (Hgrow _ _ sz_rowid).
  - rewrite <- (length_fmap split_room). by apply (Hgrow _ _ sr_rowid).
  - by apply (Hgrow _ _ se_rowid).
Qed.



(** *** Stored entry rows *)

Lemma real_kept_as t : kept_as t (Sql.real t).
Proof.
  destruct t as [|b|z|q| |s]; cbn; try done.
  destruct (Sql.numeric_text s) as [q|]; split; intros; by simplify_eq.
Qed.

Lemma real_null t : Sql.real t = Py.PyNone ↔ null_temperature t.
Proof.
  unfold null_temperature.
  destruct t as [|b|z|q| |s]; cbn; try (split; [done|by intros [?|?]]);
    try (split; [by left|done]); try (split; [by right|done]).
  destruct (Sql.numeric_text s); (split; [done|by intros [?|?]]).
Qed.

Lemma stored_values_from e i k day :
  stored_from e (mk_entry_row i k (day, stored_values e))
  ∧ (entry_invariant (mk_entry_row i k (day, stored_values e))
     ↔ keeps_invariant e).
Proof.
  unfold stored_from, keeps_invariant, entry_invariant, mk_entry_row,
    stored_values, entry_values.
  cbn [fst snd se_time_minutes se_action se_temperature].
  destruct (Py.str_lower_is_off (default (Py.PyNum (20 # 1)) (e_temperature e)))
    eqn:Hoff; cbn [fst snd].
  - split; [by split_and!|]. split; [by left|]. intros _. by split.
  - split.
    + split_and!; [done|done|]. intros _.
      split_and!; [done|apply real_kept_as|apply real_null].
    + unfold not. rewrite !real_null. split; [by right|].
      by intros [?|?].
Qed.

Lemma own_entry_row now d i n zones rooms entries days active meta e k :
  e ∈ default [] entries → k ∈ day_numbers (default [] days) →
  ∃ x, x ∈ schedule_entries
             (created now d i n zones rooms entries days active meta)
       ∧ se_schedule_id x = i ∧ entry_columns x = (k, stored_values e).
Proof.
  intros He Hk.
  assert (Hx : (k, stored_values e)
               ∈ entry_plan (default [] days) (default [] entries)).
  { unfold entry_plan. apply list_elem_of_bind. exists k.
    split; [|done]. apply list_elem_of_fmap. by exists e. }
  assert (Hrow : ∃ j, mk_entry_row i j (k, stored_values e)
                      ∈ stamp (mk_entry_row i) (seq_entries d)
                          (entry_plan (default [] days) (default [] entries))).
  { revert Hx. generalize (seq_entries d).
    induction (entry_plan (default [] days) (default [] entries))
      as [|y l IH]; intros k0; [by intros ?%elem_of_nil|].
    intros [->|Hx]%elem_of_cons; simpl.
    - exists (k0 + 1). left.
    - destruct (IH (k0 + 1) Hx) as [j Hj]. exists j. by right. }
  destruct Hrow as [j Hj].
  exists (mk_entry_row i j (k, stored_values e)). split_and!; [|done|done].
  rewrite <- (own_entries_created now d i n zones rooms entries days
                active meta) in Hj.
  by apply list_elem_of_filter in Hj as [_ ?].
Qed.

Lemma stored_from_columns e x k :
  entry_columns x = (k, stored_values e) →
  stored_from e x ∧ (entry_invariant x ↔ keeps_invariant e).
Proof.
  intros Hcols.
  assert (Hrow : x = mk_entry_row (se_schedule_id x) (se_rowid x)
                       (k, stored_values e)).
  { destruct x as [j i dw m t a]. unfold entry_columns in Hcols.
    cbn [se_day_of_week se_time_minutes se_temperature se_action] in Hcols.
    by injection Hcols as -> -> -> ->. }
  rewrite Hrow. apply stored_values_from.
Qed.




(** The temperature column at work: the text ['21'] is stored as 21.0,
    [True] as 1.0, and the [float] that is not a number as [NULL], with
    the action ['heat'] that was defaulted. *)
Example create_schedule_real_column :
  entry_columns
    <$> schedule_entries
          (create_schedule 0 Sql.empty "s1" "Week" (Some ["climate.z"]) None
             (Some [Entry (Some "08:00") None (Some (Py.PyStr "21")) None;
                    Entry (Some "09:00") None (Some (Py.PyBool true)) None;
                    Entry (Some "10:00") None (Some Py.PyNaN) None])
             (Some ["mon"]) true None).1
  = [(0, (480, Py.PyNum (21 # 1), "heat"));
     (0, (540, Py.PyNum (1 # 1), "heat"));
     (0, (600, Py.PyNone, "heat"))].
Proof. vm_compute. reflexivity. Qed.

(** *** Unrecognised day names *)

Lemma day_numbers_skip days1 day days2 :
  Py.lower day ∉ day_names →
  day_numbers (days1 ++ day :: days2) = day_numbers (days1 ++ days2).
Proof.
  intros Hd%day_mapping_None. unfold day_numbers.
  rewrite !omap_app. cbn [omap list_omap]. by rewrite Hd.
Qed.

Lemma entry_plan_app days1 days2 es :
  entry_plan (days1 ++ days2) es = entry_plan days1 es ++ entry_plan days2 es.
Proof.
  unfold entry_plan, day_numbers. rewrite omap_app.
  induction (omap _ days1) as [|k l IH]; [done|].
  cbn [app]. rewrite !bind_cons, IH. by rewrite app_assoc.
Qed.

Lemma create_schedule_raises now d i n zones rooms entries days active meta :
  (create_schedule now d i n zones rooms entries days active meta).2 = Raised
  ↔ ¬ storable zones rooms entries days.
Proof.
  destruct (decide (storable zones rooms entries days)) as [Hok|Hno].
  - rewrite create_schedule_stored by done. by cbn.
  - rewrite create_schedule_raised by done. by cbn.
Qed.

(** C10: an element of [days] that is not one of the seven abbreviations,
    compared without regard to letter case, is passed over.  The call
    leaves the same store and ends the same way as the call without that
    element, and alone in the list the element inserts no row and raises
    nothing.  So the call raises only for what the rest of the arguments
    hold (a zone or a room name twice, an entry that cannot be bound
    while another day is recognised), and when it returns the entry rows
    of the schedule are exactly those of the days before and after the
    element: every entry is stored for every recognised one of them. *)
Theorem create_schedule_skips_unknown_day
    now d i n zones rooms entries days1 day days2 active meta :
  Py.lower day ∉ day_names →
  let call :=
    create_schedule now d i n zones rooms entries
      (Some (days1 ++ day :: days2)) active meta in
  call = create_schedule now d i n zones rooms entries
           (Some (days1 ++ days2)) active meta
  ∧ insert_all_entries i [day] (default [] entries) d = Some d
  ∧ (call.2 = Raised
     ↔ ¬ (NoDup (default [] zones)
          ∧ NoDup (split_room <$> default [] rooms).*1
          ∧ entries_fit (days1 ++ days2) (default [] entries)))
  ∧ (call.2 ≠ Raised →
     entry_columns
       <$> filter (λ x, se_schedule_id x = i) (schedule_entries call.1)
     = entry_plan days1 (default [] entries)
         ++ entry_plan days2 (default [] entries))
  ∧ (call.2 ≠ Raised →
     ∀ e other k, e ∈ default [] entries → other ∈ days1 ++ days2 →
       day_mapping !! Py.lower other = Some k →
       ∃ x, x ∈ schedule_entries call.1 ∧ se_schedule_id x = i
            ∧ se_day_of_week x = k ∧ stored_from e x).
Proof.
  intros Hday call.
  assert (Hsame : call = create_schedule now d i n zones rooms entries
                           (Some (days1 ++ days2)) active meta).
  { subst call.
    assert (Hdn : day_numbers (days1 ++ day :: days2)
                  = day_numbers (days1 ++ days2))
      by by apply day_numbers_skip.
    assert (Hst : storable zones rooms entries (Some (days1 ++ day :: days2))
                  ↔ storable zones rooms entries (Some (days1 ++ days2))).
    { unfold storable, entries_fit.
      change (default [] (Some (days1 ++ day :: days2)))
        with (days1 ++ day :: days2).
      change (default [] (Some (days1 ++ days2))) with (days1 ++ days2).
      by rewrite Hdn. }
    assert (Hcr : created now d i n zones rooms entries
                    (Some (days1 ++ day :: days2)) active meta
                  = created now d i n zones rooms entries
                      (Some (days1 ++ days2)) active meta).
    { unfold created, entry_plan.
      change (default [] (Some (days1 ++ day :: days2)))
        with (days1 ++ day :: days2).
      change (default [] (Some (days1 ++ days2))) with (days1 ++ days2).
      by rewrite Hdn. }
    destruct (decide (storable zones rooms entries (Some (days1 ++ days2))))
      as [Hok|Hno].
    - rewrite !create_schedule_stored by tauto. by rewrite Hcr.
    - by rewrite !create_schedule_raised by tauto. }
  split; [exact Hsame|]. rewrite Hsame. clear call Hsame.
  split.
  { cbn [insert_all_entries]. apply day_mapping_None in Hday.
    by rewrite Hday. }
  split.
  { rewrite create_schedule_raises. unfold storable, insertable.
    change (default [] (Some (days1 ++ days2))) with (days1 ++ days2).
    tauto. }
  split.
  - intros Hret. rewrite create_schedule_raises in Hret.
    apply dec_stable in Hret. rewrite create_schedule_stored by done.
    cbn [fst]. rewrite own_entries_created.
    change (default [] (Some (days1 ++ days2))) with (days1 ++ days2).
    rewrite <- entry_plan_app.
    erewrite fmap_stamp; [apply list_fmap_id|]. by intros k [? [[? ?] ?]].
  - intros Hret e other k He Hother Hk.
    rewrite create_schedule_raises in Hret. apply dec_stable in Hret.
    rewrite create_schedule_stored by done. cbn [fst].
    destruct (own_entry_row now d i n zones rooms entries
                (Some (days1 ++ days2)) active meta e k He)
      as (x & Hx & Hi & Hcols).
    { change (default [] (Some (days1 ++ days2))) with (days1 ++ days2).
      apply list_elem_of_omap. by exists other. }
    exists x. split_and!; [done|done|exact (f_equal fst Hcols)|].
    by apply (stored_from_columns e x k).
Qed.

Lemma create_schedule_skips_unknown_day_witness :
  let call :=
    create_schedule 0 Sql.empty "s1" "Week" (Some ["climate.z"]) None
      (Some [entry_0800_21]) (Some (["mon"] ++ "monday" :: ["TUE"])) true None
  in
  call = create_schedule 0 Sql.empty "s1" "Week" (Some ["climate.z"]) None
           (Some [entry_0800_21]) (Some (["mon"] ++ ["TUE"])) true None
  ∧ entry_columns
      <$> filter (λ x, se_schedule_id x = "s1") (schedule_entries call.1)
    = [(0, (480, Py.PyNum (21 # 1), "heat"));
       (1, (480, Py.PyNum (21 # 1), "heat"))].
Proof.
  intros call.
  destruct (create_schedule_skips_unknown_day 0 Sql.empty "s1" "Week"
              (Some ["climate.z"]) None (Some [entry_0800_21])
              ["mon"] "monday" ["TUE"] true None)
    as (Hsame & _ & _ & Hrows & _).
  - vm_compute.
    intros H. repeat (apply elem_of_cons in H as [H|H]; [discriminate H|]).
    by apply elem_of_nil in H.
  - split; [exact Hsame|]. subst call. rewrite Hrows; [reflexivity|].
    vm_compute. discriminate.
Defined.

(** *** State resolver *)

Global Instance by_time_desc_trans : Transitive by_time_desc.
Proof. unfold by_time_desc. intros a b c ??. lia. Qed.

Global Instance by_time_desc_total : Total by_time_desc.
Proof. unfold by_time_desc. intros a b. lia. Qed.

Lemma elem_of_state_rows d zone_id day minute se s :
  (se, s) ∈ state_rows d zone_id day minute
  ↔ qualifies d zone_id day minute se s.
Proof.
  unfold state_rows, qualifies. split.
  - intros (se' & Hin & Hse)%list_elem_of_bind.
    apply list_elem_of_bind in Hin as (sz & Hin & Hsz).
    apply list_elem_of_bind in Hin as (s' & Hin & Hs).
    case_decide as Hc; [|by apply elem_of_nil in Hin].
    apply list_elem_of_singleton in Hin. simplify_eq.
    destruct Hc as (? & ? & ? & ? & ? & ?).
    split_and!; try done. exists sz. by split_and!.
  - intros (Hse & Hs & Hid & Hact & (sz & Hsz & Hsid & Hz) & Hday & Hmin).
    apply list_elem_of_bind. exists se. split; [|done].
    apply list_elem_of_bind. exists sz. split; [|done].
    apply list_elem_of_bind. exists s. split; [|done].
    rewrite decide_True by by split_and!.
    apply list_elem_of_singleton. done.
Qed.

Lemma head_of_sorted_is_greatest (l : list (entry_row * schedule_row)) x rest :
  merge_sort by_time_desc l = x :: rest →
  x ∈ l ∧ ∀ y, y ∈ l → se_time_minutes (y.1) ≤ se_time_minutes (x.1).
Proof.
  intros Hsort.
  pose proof (merge_sort_Permutation by_time_desc l) as Hperm.
  pose proof (StronglySorted_merge_sort by_time_desc l) as Hsorted.
  rewrite Hsort in Hperm, Hsorted. split.
  - rewrite <- Hperm. left.
  - intros y Hy. rewrite <- Hperm in Hy.
    apply StronglySorted_inv in Hsorted as [_ Hall].
    apply elem_of_cons in Hy as [->|Hy]; [lia|].
    eapply Forall_forall in Hall; [|exact Hy].
    unfold by_time_desc in Hall. lia.
Qed.

(** C2: for every zone, weekday and minute, [get_schedule_state_at_time]
    returns the temperature, action and schedule name of an entry that is
    for that weekday, not after the minute, and of an active schedule
    directly assigned to the zone, and no such entry has a greater
    [time_minutes]; when there is no such entry it returns [None]. *)
Theorem get_schedule_state_at_time_greatest d zone_id day_of_week minute :
  match get_schedule_state_at_time d zone_id day_of_week minute with
  | Some st =>
      ∃ se s,
        qualifies d zone_id day_of_week minute se s
        ∧ st = State (se_temperature se) (se_action se) (s_name s)
        ∧ ∀ se' s', qualifies d zone_id day_of_week minute se' s' →
                    se_time_minutes se' ≤ se_time_minutes se
  | None => ∀ se s, ¬ qualifies d zone_id day_of_week minute se s
  end.
Proof.
  unfold get_schedule_state_at_time.
  destruct (merge_sort by_time_desc _) as [|[se s] rest] eqn:Hsort.
  - intros se s Hq%elem_of_state_rows.
    rewrite <- (merge_sort_Permutation by_time_desc), Hsort in Hq.
    by apply elem_of_nil in Hq.
  - apply head_of_sorted_is_greatest in Hsort as [Hin Hmax].
    exists se, s. split_and!; [by apply elem_of_state_rows|done|].
    intros se' s' Hq%elem_of_state_rows. exact (Hmax _ Hq).
Qed.

(** The worked example of the specification: 06:00 → 20, 08:00 → 16,
    17:00 → 21 on Monday. *)
Example resolver_monday :
  let d :=
    (create_schedule 0 Sql.empty "s1" "Workday" (Some ["climate.z"]) None
       (Some [Entry (Some "06:00") None (Some (Py.PyNum (20 # 1))) None;
              Entry (Some "08:00") None (Some (Py.PyNum (16 # 1))) None;
              Entry (Some "17:00") None (Some (Py.PyNum (21 # 1))) None])
       (Some ["mon"]) true None).1 in
  get_schedule_state_at_time d "climate.z" 0 (7 * 60 + 30)
  = Some (State (Py.PyNum (20 # 1)) "heat" "Workday")
  ∧ get_schedule_state_at_time d "climate.z" 0 (5 * 60) = None
  ∧ get_schedule_state_at_time d "climate.z" 0 (23 * 60)
    = Some (State (Py.PyNum (21 # 1)) "heat" "Workday").
Proof. vm_compute. done. Qed.

(** Two schedules of one zone with an entry at the same minute of the same
    day: the entry row inserted last is the one selected. *)
Example resolver_same_minute :
  let d1 :=
    (create_schedule 0 Sql.empty "s1" "First" (Some ["climate.z"]) None
       (Some [Entry (Some "08:00") None (Some (Py.PyNum (20 # 1))) None])
       (Some ["mon"]) true None).1 in
  let d2 :=
    (create_schedule 0 d1 "s2" "Second" (Some ["climate.z"]) None
       (Some [Entry (Some "08:00") None (Some (Py.PyNum (22 # 1))) None])
       (Some ["mon"]) true None).1 in
  get_schedule_state_at_time d2 "climate.z" 0 (9 * 60)
  = Some (State (Py.PyNum (22 # 1)) "heat" "Second").
Proof. vm_compute. reflexivity. Qed.

(** *** Consolidation compiler: triggers *)

Lemma elem_of_trigger_times_entries (acc : gset string) (es : list entry) t :
  t ∈ foldl (λ acc e, acc ∪ {[ entry_time e ]}) acc es
  ↔ t ∈ acc ∨ ∃ e, e ∈ es ∧ entry_time e = t.
Proof.
  revert acc. induction es as [|e es IH]; intros acc; cbn [foldl].
  - split; [by left|]. intros [?|(e & He & _)]; [done|].
    by apply elem_of_nil in He.
  - rewrite IH, elem_of_union, elem_of_singleton. split.
    + intros [[? | ->] | (e' & ? & ?)]; [by left|right..].
      * exists e. split; [left|done].
      * exists e'. split; [by right|done].
    + intros [?|(e' & [-> | ?]%elem_of_cons & Ht)]; [by left; left|..].
      * left. by right.
      * right. by exists e'.
Qed.

Lemma elem_of_trigger_times_acc (acc : gset string) zone_schedules t :
  t ∈ foldl (λ acc schedule,
               foldl (λ acc e, acc ∪ {[ entry_time e ]}) acc
                     (schedule_entries_of schedule))
            acc zone_schedules
  ↔ t ∈ acc
    ∨ ∃ schedule e, schedule ∈ zone_schedules
                    ∧ e ∈ schedule_entries_of schedule ∧ entry_time e = t.
Proof.
  revert acc. induction zone_schedules as [|s ss IH]; intros acc; cbn [foldl].
  - split; [by left|]. intros [?|(s & e & Hs & _)]; [done|].
    by apply elem_of_nil in Hs.
  - rewrite IH, elem_of_trigger_times_entries. split.
    + intros [[?|(e & ? & ?)]|(s' & e & ? & ? & ?)]; [by left|right..].
      * exists s, e. split_and!; [left|done..].
      * exists s', e. split_and!; [by right|done..].
    + intros [?|(s' & e & [-> | ?]%elem_of_cons & He & Ht)]; [by left; left|..].
      * left. right. by exists e.
      * right. by exists s', e.
Qed.

Lemma elem_of_trigger_times zone_schedules t :
  t ∈ trigger_times zone_schedules
  ↔ ∃ schedule e, schedule ∈ zone_schedules
                  ∧ e ∈ schedule_entries_of schedule ∧ entry_time e = t.
Proof.
  unfold trigger_times. rewrite elem_of_trigger_times_acc.
  split; [|by right]. intros [H|H]; [|done]. by apply elem_of_empty in H.
Qed.

Lemma build_triggers_at zone_schedules :
  HA.at_ <$> build_triggers zone_schedules
  = merge_sort String.le (elements (trigger_times zone_schedules)).
Proof.
  unfold build_triggers. rewrite <- list_fmap_compose. apply list_fmap_id.
Qed.

Lemma length_filter_NoDup_1 {A} `{EqDecision A} (l : list A) x :
  NoDup l → x ∈ l → length (filter (λ y, y = x) l) = 1%nat.
Proof.
  induction 1 as [|y l Hy Hnd IH]; [by intros ?%elem_of_nil|].
  rewrite filter_cons. intros [-> | Hx]%elem_of_cons.
  - rewrite decide_True by done. cbn. rewrite filter_none; [done|].
    apply Forall_forall. by intros z Hz ->.
  - rewrite decide_False by (by intros ->). by apply IH.
Qed.

(** C4: the trigger list of the compiled automation holds time triggers
    only, one for each ["HH:MM"] instant that occurs in an entry of a
    governing schedule and no other, and no instant twice: an instant
    shared by two schedules has exactly one trigger. *)
Theorem consolidated_triggers_distinct
    json_dumps format_float away_home_config zone_id zone_name
    zone_schedules a :
  _build_consolidated_automation_config json_dumps format_float
    away_home_config zone_id zone_name zone_schedules = Some a →
  Forall (λ tr, HA.platform tr = "time"
                ∧ instant_of zone_schedules (HA.at_ tr)) (HA.trigger_list a)
  ∧ NoDup (HA.at_ <$> HA.trigger_list a)
  ∧ ∀ t, instant_of zone_schedules t →
         length (filter (λ tr, HA.at_ tr = t) (HA.trigger_list a)) = 1%nat.
Proof.
  unfold _build_consolidated_automation_config. intros Ha.
  destruct (_build_target_state_template_safe _ _) as [target|];
    [|discriminate Ha].
  cbn in Ha. injection Ha as <-. cbn [HA.trigger_list].
  assert (Hnd : NoDup (HA.at_ <$> build_triggers zone_schedules)).
  { rewrite build_triggers_at, merge_sort_Permutation. apply NoDup_elements. }
  assert (Hin : ∀ t, t ∈ HA.at_ <$> build_triggers zone_schedules
                     ↔ instant_of zone_schedules t).
  { intros t. rewrite build_triggers_at, merge_sort_Permutation.
    rewrite elem_of_elements. apply elem_of_trigger_times. }
  split_and!.
  - apply Forall_forall. intros tr Htr. split.
    + unfold build_triggers in Htr.
      by apply list_elem_of_fmap in Htr as (t & -> & _).
    + apply Hin, list_elem_of_fmap. by exists tr.
  - exact Hnd.
  - intros t Ht%Hin.
    pose proof (length_filter_NoDup_1 _ t Hnd Ht) as Hlen.
    rewrite <- Hlen, <- (length_fmap HA.at_). f_equal.
    clear. induction (build_triggers zone_schedules) as [|tr l IH]; [done|].
    rewrite fmap_cons, !filter_cons.
    destruct (decide (HA.at_ tr = t)); [|done]. by rewrite fmap_cons, IH.
Qed.

Lemma consolidated_triggers_distinct_witness :
  ∃ a,
    _build_consolidated_automation_config sample_json_dumps
      sample_format_float no_away_home "climate.z" "Z" two_schedules_at_0800
    = Some a
    ∧ HA.at_ <$> HA.trigger_list a = ["08:00"; "17:00"]
    ∧ length (filter (λ tr, HA.at_ tr = "08:00") (HA.trigger_list a)) = 1%nat.
Proof.
  eexists. split; [vm_compute; reflexivity|]. split; [reflexivity|].
  eapply (consolidated_triggers_distinct sample_json_dumps
            sample_format_float no_away_home "climate.z" "Z"
            two_schedules_at_0800).
  - vm_compute. reflexivity.
  - exists (schedule_of "s2" "Kitchen" ["mon"] [entry_at "08:00" 22]),
      (entry_at "08:00" 22).
    split_and!; [right; left|left|reflexivity].
Defined.

(** *** Legacy importer *)

Lemma get_schedule_is_Some d s :
  weekdays_ok d → s ∈ schedules d → is_Some (get_schedule d (s_id s)).
Proof.
  intros Hok Hs. unfold get_schedule.
  destruct (filter _ (schedules d)) as [|row rows] eqn:Hf.
  - assert (s ∈ filter (λ r, s_id r = s_id s) (schedules d)) as Hin
      by by apply list_elem_of_filter.
    rewrite Hf in Hin. by apply elem_of_nil in Hin.
  - destruct (group_rows_is_Some
                (merge_sort by_day_then_time
                   (filter (λ r, se_schedule_id r = s_id s)
                      (schedule_entries d))) [] []) as [[days periods] ->].
    + rewrite merge_sort_Permutation. apply Forall_forall.
      intros r [_ Hr]%list_elem_of_filter.
      by eapply Forall_forall in Hok.
    + by eexists.
Qed.

Lemma weekdays_ok_created now d i n zones rooms entries days active meta :
  weekdays_ok d →
  weekdays_ok (created now d i n zones rooms entries days active meta).
Proof.
  unfold weekdays_ok. intros Hok. cbn [created schedule_entries].
  apply Forall_app. split.
  - apply Forall_forall. intros r [_ Hr]%list_elem_of_filter.
    by eapply Forall_forall in Hok.
  - apply Forall_forall. intros r (k & x & _ & Hx & ->)%elem_of_stamp.
    apply elem_of_entry_plan in Hx as [Hday _].
    apply list_elem_of_omap in Hday as (day & _ & Hday).
    cbn. by eapply day_mapping_Some.
Qed.

Lemma str_lower_is_off_spec v :
  Py.str_lower_is_off v = true ↔ ∃ s, v = Py.PyStr s ∧ Py.lower s = "off".
Proof.
  destruct v as [|b|z|q| |s]; cbn.
  1-5: split; [discriminate|by intros (? & ? & _)].
  rewrite String.eqb_eq. split; [by exists s|]. by intros (? & [= <-] & ?).
Qed.

Lemma convert_legacy_period_spec p :
  converted_from p (convert_legacy_period p).
Proof.
  unfold converted_from, convert_legacy_period. cbn.
  destruct (e_temperature p) as [t|]; simpl.
  - split_and!.
    + by destruct (e_time p), (e_start p).
    + done.
    + destruct (Py.str_lower_is_off t); auto.
    + rewrite <- str_lower_is_off_spec.
      destruct (Py.str_lower_is_off t); split; (done || discriminate).
  - split_and!.
    + by destruct (e_time p), (e_start p).
    + done.
    + by right.
    + split; [discriminate|]. by intros (? & ? & _).
Qed.

Lemma convert_legacy_periods_spec legacy_schedule :
  Forall2 converted_from (legacy_periods legacy_schedule)
    (_convert_legacy_periods legacy_schedule).
Proof.
  unfold _convert_legacy_periods, legacy_periods.
  destruct (l_periods legacy_schedule) as [ps|];
    [|destruct (l_entries legacy_schedule) as [ps|]]; cbn [default];
    try apply Forall2_nil_2;
    apply Forall2_fmap_r, Forall_Forall2_diag, Forall_forall;
    intros p _; apply convert_legacy_period_spec.
Qed.

Lemma migrate_existing now d legacy_schedule s :
  weekdays_ok d → s ∈ schedules d → l_id legacy_schedule = Some (s_id s) →
  _migrate_single_schedule now d legacy_schedule = (d, Returned ()).
Proof.
  intros Hok Hs Hid. unfold _migrate_single_schedule. rewrite Hid.
  destruct (s_id s) as [|c i] eqn:Hsid; [done|].
  rewrite <- Hsid. by destruct (get_schedule_is_Some d s Hok Hs) as [? ->].
Qed.

Lemma migrate_twice now1 now2 d legacy_schedule :
  weekdays_ok d →
  (_migrate_single_schedule now2
     (_migrate_single_schedule now1 d legacy_schedule).1 legacy_schedule).1
  = (_migrate_single_schedule now1 d legacy_schedule).1.
Proof.
  intros Hok. unfold _migrate_single_schedule at 2 3.
  destruct (l_id legacy_schedule) as [[|c i]|] eqn:Hid; cbn [fst].
  1,3: unfold _migrate_single_schedule; by rewrite Hid.
  destruct (get_schedule d (String c i)) eqn:Hget; cbn [fst].
  { unfold _migrate_single_schedule. by rewrite Hid, Hget. }
  unfold create_schedule. rewrite create_schedule_txn_closed.
  case_decide as Hins; cbn [fst].
  - set (d1 := created _ _ _ _ _ _ _ _ _ _).
    set (row := ScheduleRow (String c i)
                  (default "Migrated Schedule" (l_name legacy_schedule))
                  (default true (l_active legacy_schedule)) now1 now1
                  (default [] (Some
                     [("legacy_migrated", Py.PyBool true);
                      ("original_created_at",
                       default Py.PyNone (l_created_at legacy_schedule));
                      ("error", default Py.PyNone (l_error legacy_schedule))]))).
    assert (Hrow : row ∈ schedules d1).
    { subst d1. cbn [created schedules]. apply elem_of_app. right. left. }
    rewrite (migrate_existing now2 d1 legacy_schedule row); [done| |done|done].
    by apply weekdays_ok_created.
  - unfold _migrate_single_schedule. rewrite Hid, Hget.
    unfold create_schedule. rewrite create_schedule_txn_closed.
    by rewrite decide_False.
Qed.

Lemma migrate_step now d legacy_schedule :
  (_migrate_single_schedule now d legacy_schedule).1 = d
  ∨ ∃ c i n active meta,
      l_id legacy_schedule = Some (String c i)
      ∧ storable (Some (default [] (l_zones legacy_schedule))) None
          (Some (_convert_legacy_periods legacy_schedule))
          (Some (default [] (l_days legacy_schedule)))
      ∧ (_migrate_single_schedule now d legacy_schedule).1
        = created now d (String c i) n
            (Some (default [] (l_zones legacy_schedule))) None
            (Some (_convert_legacy_periods legacy_schedule))
            (Some (default [] (l_days legacy_schedule))) active meta.
Proof.
  unfold _migrate_single_schedule.
  destruct (l_id legacy_schedule) as [[|c i]|]; [by left| |by left].
  destruct (get_schedule d (String c i)); [by left|].
  unfold create_schedule. rewrite create_schedule_txn_closed.
  case_decide; [|by left]. right. by eexists _, _, _, _, _.
Qed.

Lemma weekdays_ok_migrate now d legacy_schedule :
  weekdays_ok d →
  weekdays_ok (_migrate_single_schedule now d legacy_schedule).1.
Proof.
  intros Hok.
  destruct (migrate_step now d legacy_schedule)
    as [->|(c & i & n & a & m & _ & _ & ->)]; [done|].
  by apply weekdays_ok_created.
Qed.

Lemma settled_migrate_other now d legacy_schedule other :
  settled d other →
  settled (_migrate_single_schedule now d legacy_schedule).1 other.
Proof.
  intros Hs.
  destruct (migrate_step now d legacy_schedule)
    as [->|(c & i & n & a & m & _ & _ & ->)]; [done|].
  destruct Hs as [?|[?|[(s & Hs & Hid)|?]]];
    [by left|by right; left| |by do 3 right].
  right; right; left. cbn [created schedules].
  destruct (decide (s_id s = String c i)) as [Heq|Hne].
  - eexists. split; [apply elem_of_app; right; left|]. by rewrite Hid, Heq.
  - exists s. split; [|done]. apply elem_of_app. left.
    by apply list_elem_of_filter.
Qed.

Lemma settled_migrate_self now d legacy_schedule :
  settled (_migrate_single_schedule now d legacy_schedule).1 legacy_schedule.
Proof.
  unfold _migrate_single_schedule.
  destruct (l_id legacy_schedule) as [[|c i]|] eqn:Hid;
    [right; by left| |by left].
  destruct (get_schedule d (String c i)) eqn:Hget; cbn [fst].
  - right; right; left. unfold get_schedule in Hget.
    destruct (filter _ (schedules d)) as [|row rows] eqn:Hf; [done|].
    assert (Hrow : row ∈ filter (λ r, s_id r = String c i) (schedules d))
      by (rewrite Hf; left).
    apply list_elem_of_filter in Hrow as [Hrid Hrow].
    exists row. split; [done|]. by rewrite Hid, Hrid.
  - unfold create_schedule. rewrite create_schedule_txn_closed.
    case_decide; cbn [fst].
    + right; right; left. eexists.
      split; [cbn [created schedules]; apply elem_of_app; right; left|].
      by rewrite Hid.
    + by do 3 right.
Qed.

Lemma migrate_settled now d legacy_schedule :
  weekdays_ok d → settled d legacy_schedule →
  (_migrate_single_schedule now d legacy_schedule).1 = d.
Proof.
  intros Hok [Hid|[Hid|[(s & Hs & Hid)|Hno]]].
  - unfold _migrate_single_schedule. by rewrite Hid.
  - unfold _migrate_single_schedule. by rewrite Hid.
  - by rewrite (migrate_existing now d legacy_schedule s).
  - destruct (migrate_step now d legacy_schedule)
      as [->|(c & i & n & a & m & _ & Hins & _)]; done.
Qed.

Lemma migrate_all_settles records d :
  weekdays_ok d →
  weekdays_ok (migrate_from_legacy_storage d records)
  ∧ (∀ l, settled d l → settled (migrate_from_legacy_storage d records) l)
  ∧ Forall (settled (migrate_from_legacy_storage d records)) records.*2.
Proof.
  unfold migrate_from_legacy_storage. revert d.
  induction records as [|[now l] records IH]; intros d Hok; cbn [foldl].
  - split_and!; [done|done|constructor].
  - destruct (IH _ (weekdays_ok_migrate now d l Hok)) as (Hok' & Hkeep & Hall).
    cbn [fst snd] in *. split_and!; [done| |].
    + intros l' Hl'. by apply Hkeep, settled_migrate_other.
    + rewrite fmap_cons. constructor; [|done].
      apply Hkeep, settled_migrate_self.
Qed.

Lemma migrate_all_settled records d :
  weekdays_ok d → Forall (settled d) records.*2 →
  migrate_from_legacy_storage d records = d.
Proof.
  unfold migrate_from_legacy_storage.
  induction records as [|[now l] records IH]; intros Hok Hall; [done|].
  rewrite fmap_cons in Hall. apply Forall_cons in Hall as [Hl Hall].
  cbn [foldl fst snd]. rewrite (migrate_settled now d l) by done. by apply IH.
Qed.

Lemma migrate_new now d legacy_schedule c i :
  l_id legacy_schedule = Some (String c i) →
  get_schedule d (String c i) = None →
  storable (Some (default [] (l_zones legacy_schedule))) None
    (Some (_convert_legacy_periods legacy_schedule))
    (Some (default [] (l_days legacy_schedule))) →
  _migrate_single_schedule now d legacy_schedule
  = (created now d (String c i)
       (default "Migrated Schedule" (l_name legacy_schedule))
       (Some (default [] (l_zones legacy_schedule))) None
       (Some (_convert_legacy_periods legacy_schedule))
       (Some (default [] (l_days legacy_schedule)))
       (default true (l_active legacy_schedule))
       (Some [("legacy_migrated", Py.PyBool true);
              ("original_created_at",
               default Py.PyNone (l_created_at legacy_schedule));
              ("error", default Py.PyNone (l_error legacy_schedule))]),
     Returned ()).
Proof.
  intros Hid Hget Hok. unfold _migrate_single_schedule.
  rewrite Hid, Hget. by rewrite create_schedule_stored.
Qed.

(** C8: the legacy importer turns each period of a legacy record into one
    entry with the time from ['time'], else ['start'], else "08:00", the
    temperature defaulting to 20.0, and action ['off'] exactly when the
    temperature is the string "off" in any letter case, ['heat']
    otherwise.  A record with an id that [get_schedule] does not find, a
    zone list without duplicate and periods that can be bound is stored:
    the call returns, the schedule is in the store afterwards, and its
    entry rows are those of the converted periods, one per period and
    recognised day, in that order.  A record whose id is already in the
    store is left alone, so running the migration a second time, of one
    record or of the whole list of records, changes nothing.
    [periods = [{start: "07:00", temperature: 20}]] gives the one entry
    [{time: "07:00", temperature: 20, action: "heat"}], stored for a
    Monday as one row (minute 420, 20.0, ['heat']) and read back as one
    period. *)
Theorem legacy_import now1 now2 d legacy_schedule records records' :
  weekdays_ok d → records'.*2 = records.*2 →
  Forall2 converted_from (legacy_periods legacy_schedule)
    (_convert_legacy_periods legacy_schedule)
  ∧ (∀ s, s ∈ schedules d → l_id legacy_schedule = Some (s_id s) →
          _migrate_single_schedule now1 d legacy_schedule = (d, Returned ()))
  ∧ (_migrate_single_schedule now2
        (_migrate_single_schedule now1 d legacy_schedule).1
        legacy_schedule).1
    = (_migrate_single_schedule now1 d legacy_schedule).1
  ∧ migrate_from_legacy_storage (migrate_from_legacy_storage d records)
      records'
    = migrate_from_legacy_storage d records
  ∧ _convert_legacy_periods legacy_example
    = [Entry (Some "07:00") None (Some (Py.PyInt 20)) (Some "heat")]
  ∧ (∀ c i,
       l_id legacy_schedule = Some (String c i) →
       get_schedule d (String c i) = None →
       NoDup (default [] (l_zones legacy_schedule)) →
       entries_fit (default [] (l_days legacy_schedule))
         (_convert_legacy_periods legacy_schedule) →
       let call := _migrate_single_schedule now1 d legacy_schedule in
       call.2 = Returned ()
       ∧ (∃ s, s ∈ schedules call.1 ∧ s_id s = String c i
               ∧ s_created_at s = now1)
       ∧ is_Some (get_schedule call.1 (String c i))
       ∧ entry_columns
           <$> filter (λ x, se_schedule_id x = String c i)
                 (schedule_entries call.1)
         = entry_plan (default [] (l_days legacy_schedule))
             (_convert_legacy_periods legacy_schedule)
       ∧ sz_zone_id
           <$> filter (λ x, sz_schedule_id x = String c i)
                 (schedule_zones call.1)
         = default [] (l_zones legacy_schedule))
  ∧ (let call := _migrate_single_schedule now1 Sql.empty legacy_example in
     schedule_entries call.1
     = [EntryRow 1 "legacy_001" 0 420 (Py.PyNum (20 # 1)) "heat"]
     ∧ (d_entries <$> get_schedule call.1 "legacy_001")
       = Some (Some [Entry (Some "07:00") None (Some (Py.PyNum (20 # 1)))
                       (Some "heat")])).
Proof.
  intros Hok Hsame. split_and!.
  - apply convert_legacy_periods_spec.
  - intros s Hs Hid. by apply migrate_existing with s.
  - by apply migrate_twice.
  - destruct (migrate_all_settles records d Hok) as (Hok' & _ & Hall).
    apply migrate_all_settled; [done|]. by rewrite Hsame.
  - reflexivity.
  - intros c i Hid Hget Hnd Hfit call. subst call.
    rewrite (migrate_new now1 d legacy_schedule c i Hid Hget).
    2:{ split; [|done]. split; [done|constructor]. }
    cbn [fst snd]. split_and!.
    + done.
    + eexists. split; [cbn [created schedules]; apply elem_of_app; right; left|].
      done.
    + destruct (get_schedule_created now1 d (String c i)
                  (default "Migrated Schedule" (l_name legacy_schedule))
                  (Some (default [] (l_zones legacy_schedule))) None
                  (Some (_convert_legacy_periods legacy_schedule))
                  (Some (default [] (l_days legacy_schedule)))
                  (default true (l_active legacy_schedule))
                  (Some [("legacy_migrated", Py.PyBool true);
                         ("original_created_at",
                          default Py.PyNone (l_created_at legacy_schedule));
                         ("error", default Py.PyNone (l_error legacy_schedule))]))
        as (days' & periods' & _ & ->). by eexists.
    + rewrite own_entries_created.
      erewrite fmap_stamp; [apply list_fmap_id|]. by intros k [? [[? ?] ?]].
    + rewrite own_zones_created.
      erewrite fmap_stamp; [apply list_fmap_id|]. done.
  - vm_compute. done.
Qed.

Lemma legacy_import_witness :
  migrate_from_legacy_storage
    (migrate_from_legacy_storage Sql.empty [(0, legacy_example)])
    [(5, legacy_example)]
  = migrate_from_legacy_storage Sql.empty [(0, legacy_example)].
Proof.
  assert (Hok : weekdays_ok Sql.empty) by constructor.
  pose proof (legacy_import 0 5 Sql.empty legacy_example
                [(0, legacy_example)] [(5, legacy_example)] Hok eq_refl)
    as (_ & _ & _ & H & _).
  exact H.
Defined.

(** *** Consolidation compiler: the action body *)

Lemma target_state_first_entry format_float schedule e rest others :
  default true (d_active schedule) = true →
  schedule_entries_of schedule = e :: rest →
  _build_target_state_template_safe format_float (schedule :: others)
  = _build_target_state_template_safe format_float
      [schedule_of "" (default "Unnamed Schedule" (d_name schedule)) [] [e]].
Proof.
  intros Hact Hes. cbn [_build_target_state_template_safe].
  rewrite Hact, Hes. reflexivity.
Qed.

(** C1, the code at the failing input and in general: the expression bound
    to [target_state] in the action body is a literal fixed when the
    automation is built, the first entry of the first active schedule that
    has entries.  For the schedule 06:00 → 20, 08:00 → 16 it is the
    literal with temperature 20.0, which is also what runs at 08:00, and
    the action body is the same whatever the later entries and the other
    schedules are. *)
Theorem target_state_is_fixed_literal
    json_dumps format_float away_home_config zone_id zone_name
    schedule_id name days e rest rest' others others' :
  HA.action_list <$>
    _build_consolidated_automation_config json_dumps format_float
      away_home_config zone_id zone_name
      (schedule_of schedule_id name days (e :: rest) :: others)
  = HA.action_list <$>
      _build_consolidated_automation_config json_dumps format_float
        away_home_config zone_id zone_name
        (schedule_of schedule_id name days (e :: rest') :: others')
  ∧ HA.action_list <$>
      _build_consolidated_automation_config sample_json_dumps
        sample_format_float no_away_home "climate.z" "Z" workday_schedule
    = Some (build_actions "climate.z" "Z"
              "{{ {'temperature': 20.0, 'action': 'heat', 'schedule_name': 'Workday'} }}").
Proof.
  split; [|vm_compute; reflexivity].
  unfold _build_consolidated_automation_config.
  rewrite (target_state_first_entry format_float
             (schedule_of schedule_id name days (e :: rest)) e rest others)
    by done.
  rewrite (target_state_first_entry format_float
             (schedule_of schedule_id name days (e :: rest')) e rest' others')
    by done.
  cbn [schedule_of d_name default].
  by destruct (_build_target_state_template_safe _ _).
Qed.

(** *** [delete_schedule] *)

Lemma delete_schedule_child_tables d schedule_id :
  schedule_zones (delete_schedule d schedule_id).1 = schedule_zones d
  ∧ schedule_rooms (delete_schedule d schedule_id).1 = schedule_rooms d
  ∧ schedule_entries (delete_schedule d schedule_id).1 = schedule_entries d
  ∧ schedules (delete_schedule d schedule_id).1
    = filter (λ r, s_id r ≠ schedule_id) (schedules d).
Proof. done. Qed.

Lemma delete_cascades_with_foreign_keys d schedule_id :
  let d' := (delete_schedule_row (Connection true) schedule_id d).1 in
  Forall (λ r, sz_schedule_id r ≠ schedule_id) (schedule_zones d')
  ∧ Forall (λ r, sr_schedule_id r ≠ schedule_id) (schedule_rooms d')
  ∧ Forall (λ r, se_schedule_id r ≠ schedule_id) (schedule_entries d').
Proof.
  cbn. split_and!; apply Forall_forall; intros r Hr%list_elem_of_filter; tauto.
Qed.

Lemma deleted_schedule_not_in_zone_query d schedule_id zone_id :
  schedule_id ∉
    active_schedule_ids_for_zone (delete_schedule d schedule_id).1 zone_id.
Proof.
  unfold active_schedule_ids_for_zone.
  rewrite merge_sort_Permutation, elem_of_remove_dups.
  intros (sz & Hin & _)%list_elem_of_bind.
  apply list_elem_of_bind in Hin as (s & Hin & Hs).
  case_decide as Hc; [|by apply elem_of_nil in Hin].
  apply list_elem_of_singleton in Hin. destruct Hc as (Hid & _ & _).
  destruct (delete_schedule_child_tables d schedule_id) as (_ & _ & _ & Hsch).
  rewrite Hsch in Hs. apply list_elem_of_filter in Hs as [Hne _].
  congruence.
Qed.

(** C3, the code at the failing input: [delete_schedule] returns true and
    removes the schedule row, and the zone assignment, the room assignment
    and the entry of the deleted schedule are all still stored, none of
    them referring to a schedule of the store. *)
Theorem delete_schedule_leaves_child_rows :
  let '(d', deleted) := delete_schedule store_with_s1 "s1" in
  deleted = true
  ∧ schedules d' = []
  ∧ schedule_zones d' = [ZoneRow 1 "s1" "climate.z"]
  ∧ schedule_rooms d' = [RoomRow 1 "s1" "Living" None]
  ∧ schedule_entries d' = [EntryRow 1 "s1" 0 480 (Py.PyNum (21 # 1)) "heat"].
Proof. vm_compute. done. Qed.

(** ** Further properties of the store *)

(** *** Invariants *)

Lemma NoDup_stamp_rowid {A B} (rowid : B → Z) (mk : Z → A → B) k (l : list A) :
  (∀ j x, rowid (mk j x) = j) → NoDup (rowid <$> stamp mk k l).
Proof.
  intros Hid. revert k. induction l as [|x l IH]; intros k; simpl.
  - constructor.
  - constructor; [|apply IH]. rewrite Hid.
    intros (y & Hy & Hin)%list_elem_of_fmap.
    apply elem_of_stamp in Hin as (j & x' & Hj & _ & ->).
    rewrite Hid in Hy. lia.
Qed.

Lemma NoDup_rowid_grow {A B} (rowid : B → Z) (mk : Z → A → B) k
    (old : list B) (P : B → Prop) `{!∀ x, Decision (P x)} (l : list A) :
  (∀ j x, rowid (mk j x) = j) →
  Forall (λ r, rowid r ≤ k) old → NoDup (rowid <$> old) →
  NoDup (rowid <$> (filter P old ++ stamp mk k l)).
Proof.
  intros Hid Hle Hnd. rewrite fmap_app. apply NoDup_app. split_and!.
  - clear Hle. induction old as [|r old IH]; [constructor|].
    rewrite fmap_cons in Hnd. apply NoDup_cons in Hnd as [Hr Hnd].
    rewrite filter_cons. destruct (decide (P r)); [|by apply IH].
    rewrite fmap_cons. constructor; [|by apply IH].
    intros (y & Hy & [_ Hin]%list_elem_of_filter)%list_elem_of_fmap.
    apply Hr. apply list_elem_of_fmap. by exists y.
  - intros j (r & -> & [_ Hr]%list_elem_of_filter)%list_elem_of_fmap
             (y & Hy & Hin)%list_elem_of_fmap.
    apply elem_of_stamp in Hin as (j' & x' & Hj & _ & ->).
    rewrite Hid in Hy. eapply Forall_forall in Hle; [|exact Hr].
    simpl in Hle. lia.
  - by apply NoDup_stamp_rowid.
Qed.

Lemma NoDup_key_replace {B} (key : B → string) {K} (data : B → string * K)
    (i : string) (old new : list B) :
  (∀ r, (data r).1 = key r) →
  NoDup (data <$> old) → Forall (λ r, key r = i) new → NoDup (data <$> new) →
  NoDup (data <$> (filter (λ r, key r ≠ i) old ++ new)).
Proof.
  intros Hkey Hold Hnew Hnd. rewrite fmap_app. apply NoDup_app. split_and!.
  - induction old as [|r old IH]; [constructor|].
    rewrite fmap_cons in Hold. apply NoDup_cons in Hold as [Hr Hold].
    rewrite filter_cons. destruct (decide (key r ≠ i)); [|by apply IH].
    rewrite fmap_cons. constructor; [|by apply IH].
    intros (y & Hy & [_ Hin]%list_elem_of_filter)%list_elem_of_fmap.
    apply Hr. apply list_elem_of_fmap. by exists y.
  - intros x (r & -> & [Hne _]%list_elem_of_filter)%list_elem_of_fmap
             (y & Hy & Hin)%list_elem_of_fmap.
    eapply Forall_forall in Hnew; [|exact Hin]. simpl in Hnew.
    apply Hne. rewrite <- !Hkey in *. by rewrite Hy.
  - done.
Qed.

Lemma keys_ok_created now d i n zones rooms entries days active meta :
  insertable zones rooms → keys_ok d → seq_ok d →
  keys_ok (created now d i n zones rooms entries days active meta).
Proof.
  intros [Hzs Hrs] (Hid & Hz & Hr & Hzi & Hri & Hei) (Hsz & Hsr & Hse).
  unfold keys_ok. cbn [created schedules schedule_zones schedule_rooms
                       schedule_entries].
  split_and!.
  - rewrite fmap_app. apply NoDup_app. split_and!.
    + clear -Hid. induction (schedules d) as [|r old IH]; [constructor|].
      rewrite fmap_cons in Hid. apply NoDup_cons in Hid as [Hr Hid].
      rewrite filter_cons. destruct (decide (s_id r ≠ i)); [|by apply IH].
      rewrite fmap_cons. constructor; [|by apply IH].
      intros (y & Hy & [_ Hin]%list_elem_of_filter)%list_elem_of_fmap.
      apply Hr. apply list_elem_of_fmap. by exists y.
    + intros x (r & -> & [Hne _]%list_elem_of_filter)%list_elem_of_fmap
               Hin.
      simpl in Hin. apply list_elem_of_singleton in Hin. done.
    + simpl. apply NoDup_singleton.
  - apply (NoDup_key_replace sz_schedule_id); [done|done|by apply Forall_stamp|].
    rewrite (fmap_stamp zone_data (λ z, (i, z))) by done.
    apply NoDup_fmap_2; [|done]. by intros ?? [=].
  - apply (NoDup_key_replace sr_schedule_id); [done|done|by apply Forall_stamp|].
    rewrite (fmap_stamp _ (λ r : string * option string, (i, r.1))) by done.
    replace ((λ r : string * option string, (i, r.1))
               <$> (split_room <$> default [] rooms))
      with ((λ x, (i, x)) <$> (split_room <$> default [] rooms).*1)
      by (by rewrite <- list_fmap_compose).
    apply NoDup_fmap_2; [|done]. by intros ?? [=].
  - by apply (NoDup_rowid_grow sz_rowid).
  - by apply (NoDup_rowid_grow sr_rowid).
  - by apply (NoDup_rowid_grow se_rowid).
Qed.

Lemma refs_ok_created now d i n zones rooms entries days active meta :
  refs_ok d →
  refs_ok (created now d i n zones rooms entries days active meta).
Proof.
  intros (Hz & Hr & He). unfold refs_ok.
  cbn [created schedules schedule_zones schedule_rooms schedule_entries].
  assert (Hids : ∀ j, j ∈ s_id <$> schedules d →
            j ∈ s_id <$> (filter (λ r, s_id r ≠ i) (schedules d)
                            ++ [ScheduleRow i n active now now (default [] meta)])).
  { intros j (r & -> & Hr')%list_elem_of_fmap. rewrite fmap_app.
    apply elem_of_app. destruct (decide (s_id r = i)) as [->|Hne].
    - right. simpl. left.
    - left. apply list_elem_of_fmap. exists r. split; [done|].
      by apply list_elem_of_filter. }
  assert (Hi : i ∈ s_id <$> (filter (λ r, s_id r ≠ i) (schedules d)
                  ++ [ScheduleRow i n active now now (default [] meta)])).
  { rewrite fmap_app. apply elem_of_app. right. simpl. left. }
  split_and!; apply Forall_app; split.
  - apply Forall_forall. intros r [_ Hr']%list_elem_of_filter.
    apply Hids. by eapply Forall_forall in Hz.
  - by apply Forall_stamp.
  - apply Forall_forall. intros r [_ Hr']%list_elem_of_filter.
    apply Hids. by eapply Forall_forall in Hr.
  - by apply Forall_stamp.
  - apply Forall_forall. intros r [_ Hr']%list_elem_of_filter.
    apply Hids. by eapply Forall_forall in He.
  - by apply Forall_stamp.
Qed.

Lemma store_ok_created now d i n zones rooms entries days active meta :
  insertable zones rooms → store_ok d →
  store_ok (created now d i n zones rooms entries days active meta).
Proof.
  intros Hins (Hk & Hw & Hs). split_and!.
  - by apply keys_ok_created.
  - by apply weekdays_ok_created.
  - by apply seq_ok_created.
Qed.

Lemma store_ok_empty : store_ok Sql.empty ∧ refs_ok Sql.empty.
Proof. repeat split; constructor. Qed.

(** X1: [create_schedule] keeps the store well formed, whether it returns
    or raises: no schedule id, row id, (schedule, zone) pair or
    (schedule, room name) pair occurs twice, every entry row is for one of
    the seven weekdays, no row id exceeds its counter, and, when it held
    before, every zone, room and entry row refers to a stored schedule. *)
Theorem create_schedule_keeps_store_ok
    now d i n zones rooms entries days active meta :
  store_ok d →
  let d' :=
    (create_schedule now d i n zones rooms entries days active meta).1 in
  store_ok d' ∧ (refs_ok d → refs_ok d').
Proof.
  intros Hok d'. subst d'. unfold create_schedule.
  rewrite create_schedule_txn_closed. case_decide as Hst; cbn [fst]; [|done].
  destruct Hst as [Hins _].
  split; [by apply store_ok_created|apply refs_ok_created].
Qed.

Lemma create_schedule_keeps_store_ok_witness :
  store_ok sample_call.1 ∧ (refs_ok Sql.empty → refs_ok sample_call.1).
Proof.
  apply (create_schedule_keeps_store_ok 0 Sql.empty "s1" "Week"
           (Some ["climate.z"]) None (Some [entry_0800_21; entry_1700_off])
           (Some sample_days) true None).
  repeat split; constructor.
Defined.

Lemma NoDup_fmap_filter {A B} (f : A → B) (P : A → Prop)
    `{!∀ x, Decision (P x)} (l : list A) :
  NoDup (f <$> l) → NoDup (f <$> filter P l).
Proof.
  induction l as [|r l IH]; [constructor|].
  rewrite fmap_cons. intros [Hr Hnd]%NoDup_cons.
  rewrite filter_cons. destruct (decide (P r)); [|by apply IH].
  rewrite fmap_cons. constructor; [|by apply IH].
  intros (y & Hy & [_ Hin]%list_elem_of_filter)%list_elem_of_fmap.
  apply Hr. apply list_elem_of_fmap. by exists y.
Qed.

Lemma update_schedule_row_ids now i name active d :
  s_id <$> schedules (update_schedule_row now i name active d)
  = s_id <$> schedules d.
Proof.
  cbn [update_schedule_row schedules]. rewrite <- list_fmap_compose.
  apply list_fmap_ext. intros k r _. simpl. by case_decide.
Qed.

Lemma update_schedule_step now d i u :
  (update_schedule now d i u).1 = d
  ∨ (update_schedule now d i u).1
    = update_schedule_row now i (u_name u) (u_active u) d
  ∨ ∃ n zones entries days active meta,
      insertable (Some zones) None
      ∧ (update_schedule now d i u).1
        = created now d i n (Some zones) None (Some entries) (Some days)
            active meta.
Proof.
  unfold update_schedule.
  destruct (get_schedule d i) as [current|]; [|by left].
  destruct (u_zones u) as [zones|], (u_entries u) as [entries|],
    (u_days u) as [days|];
    try (destruct (u_name u), (u_active u); cbn [fst]; by auto).
  destruct (d_name current), (d_active current); try by left.
  unfold create_schedule. rewrite create_schedule_txn_closed.
  case_decide as Hst; cbn [fst]; [|by left].
  destruct Hst as [Hins _].
  right; right. by eexists _, _, _, _, _, _.
Qed.

Lemma store_ok_update_row now i name active d :
  store_ok d → store_ok (update_schedule_row now i name active d).
Proof.
  intros ((Hid & Hrest) & Hw & Hs).
  split; [split; [|exact Hrest]|split; [exact Hw|exact Hs]].
  by rewrite update_schedule_row_ids.
Qed.

Lemma refs_ok_update_row now i name active d :
  refs_ok d → refs_ok (update_schedule_row now i name active d).
Proof.
  unfold refs_ok. rewrite update_schedule_row_ids. done.
Qed.

(** X2: the other operations that change the store keep it well formed
    too: [delete_schedule], [update_schedule], the migration of one legacy
    record and of a list of them; and the last three, unlike
    [delete_schedule], also keep every zone, room and entry row referring
    to a stored schedule. *)
Theorem mutations_keep_store_ok now d i u legacy_schedule records :
  store_ok d →
  store_ok (delete_schedule d i).1
  ∧ store_ok (update_schedule now d i u).1
  ∧ store_ok (_migrate_single_schedule now d legacy_schedule).1
  ∧ store_ok (migrate_from_legacy_storage d records)
  ∧ (refs_ok d →
     refs_ok (update_schedule now d i u).1
     ∧ refs_ok (_migrate_single_schedule now d legacy_schedule).1
     ∧ refs_ok (migrate_from_legacy_storage d records)).
Proof.
  intros Hok.
  assert (Hmig : ∀ now d l, store_ok d →
            store_ok (_migrate_single_schedule now d l).1
            ∧ (refs_ok d → refs_ok (_migrate_single_schedule now d l).1)).
  { clear. intros now d l Hok.
    destruct (migrate_step now d l)
      as [->|(c & i & n & a & m & _ & [Hins _] & ->)]; [done|].
    split; [by apply store_ok_created|apply refs_ok_created]. }
  assert (Hall : ∀ records d, store_ok d →
            store_ok (migrate_from_legacy_storage d records)
            ∧ (refs_ok d → refs_ok (migrate_from_legacy_storage d records))).
  { clear -Hmig. unfold migrate_from_legacy_storage.
    induction records as [|[now l] records IH]; intros d Hok; [done|].
    cbn [foldl fst snd]. destruct (Hmig now d l Hok) as [Hok' Href'].
    destruct (IH _ Hok') as [Hok'' Href'']. split; [done|]. auto. }
  assert (Hupd : store_ok (update_schedule now d i u).1
                 ∧ (refs_ok d → refs_ok (update_schedule now d i u).1)).
  { destruct (update_schedule_step now d i u)
      as [->|[->|(n & zs & es & ds & a & m & Hins & ->)]]; [done|..].
    - split; [by apply store_ok_update_row|apply refs_ok_update_row].
    - split; [by apply store_ok_created|apply refs_ok_created]. }
  split_and!.
  - destruct Hok as ((Hid & Hrest) & Hw & Hs).
    split; [split; [|exact Hrest]|split; [exact Hw|exact Hs]].
    cbn. by apply NoDup_fmap_filter.
  - apply Hupd.
  - by apply Hmig.
  - by apply Hall.
  - intros Href. split_and!; [by apply Hupd|by apply Hmig|by apply Hall].
Qed.

Lemma mutations_keep_store_ok_witness :
  store_ok (delete_schedule store_with_s1 "s1").1
  ∧ store_ok
      (update_schedule 9 store_with_s1 "s1"
         (Updates None (Some false) None None None None)).1.
Proof.
  assert (Hok : store_ok store_with_s1).
  { assert (Hs : store_with_s1
                  = created 0 Sql.empty "s1" "Week" (Some ["climate.z"])
                      (Some ["Living"]) (Some [entry_0800_21]) (Some ["mon"])
                      true None) by (vm_compute; reflexivity).
    rewrite Hs. apply store_ok_created; [|apply store_ok_empty].
    split; vm_compute; apply NoDup_singleton. }
  pose proof (mutations_keep_store_ok 9 store_with_s1 "s1"
                (Updates None (Some false) None None None None)
                legacy_example [] Hok) as (H1 & H2 & _).
  by split.
Defined.

(** *** [create_schedule] and [get_schedule] *)

Lemma day_numbers_nil days :
  day_numbers days = [] ↔ Forall (λ day, Py.lower day ∉ day_names) days.
Proof.
  unfold day_numbers. induction days as [|day days IH]; cbn [omap list_omap].
  - split; [constructor|done].
  - destruct (day_mapping !! Py.lower day) as [k|] eqn:Hk.
    + split; [done|]. intros [Hd _]%Forall_cons.
      apply day_mapping_None in Hd. congruence.
    + rewrite IH. apply day_mapping_None in Hk. split.
      * by constructor.
      * by intros [_ ?]%Forall_cons.
Qed.

Lemma entry_fits_spec e :
  entry_fits e
  ↔ int64 (_time_str_to_minutes (default "08:00" (e_time e)))
    ∧ ∀ z, e_temperature e = Some (Py.PyInt z) → int64 z.
Proof.
  unfold entry_fits, entry_values.
  destruct (e_temperature e) as [[|b|z|q| |s]|]; cbn;
    try (split; [by intros [? _]|by intros [? _]]).
  - split; [intros [? ?]; split; [done|by intros ? [= <-]]|].
    intros [? Hz]. split; [done|]. by apply Hz.
  - destruct (String.eqb (Py.lower s) "off"); cbn;
      (split; [by intros [? _]|by intros [? _]]).
Qed.

(** X3: [create_schedule] raises exactly when a zone occurs twice in
    [zones], or two elements of [rooms] have the same room name (the text
    before the first bar), or, some element of [days] being recognised, an
    entry holds an integer that does not fit 64 bits, as the minutes of
    its time or as its temperature; the store is then left as it was. *)
Theorem create_schedule_raises_iff
    now d i n zones rooms entries days active meta :
  ((create_schedule now d i n zones rooms entries days active meta).2 = Raised
   ↔ ¬ (NoDup (default [] zones)
        ∧ NoDup ((λ r, (split_room r).1) <$> default [] rooms)
        ∧ (Forall (λ day, Py.lower day ∉ day_names) (default [] days)
           ∨ Forall (λ e, int64 (_time_str_to_minutes
                                   (default "08:00" (e_time e)))
                          ∧ ∀ z, e_temperature e = Some (Py.PyInt z) → int64 z)
               (default [] entries))))
  ∧ ((create_schedule now d i n zones rooms entries days active meta).2
     = Raised →
     (create_schedule now d i n zones rooms entries days active meta).1 = d).
Proof.
  split.
  - rewrite create_schedule_raises. unfold storable, insertable, entries_fit.
    rewrite <- list_fmap_compose, day_numbers_nil.
    assert (Hfits : Forall entry_fits (default [] entries)
                    ↔ Forall (λ e, int64 (_time_str_to_minutes
                                            (default "08:00" (e_time e)))
                                   ∧ ∀ z, e_temperature e = Some (Py.PyInt z)
                                          → int64 z)
                        (default [] entries)).
    { rewrite !Forall_forall. split; intros H e He;
        by apply entry_fits_spec, H. }
    rewrite Hfits. unfold compose. tauto.
  - intros Hr%create_schedule_raises. by rewrite create_schedule_raised.
Qed.

(** A call with a time beyond 64 bits of minutes raises, and so does one
    with an [int] temperature beyond 64 bits; neither changes the store. *)
Example create_schedule_overflow :
  create_schedule 0 Sql.empty "s1" "Week" (Some ["climate.z"]) None
    (Some [Entry (Some "9999999999999999999:00") None None None])
    (Some ["mon"]) true None
  = (Sql.empty, Raised)
  ∧ create_schedule 0 Sql.empty "s1" "Week" (Some ["climate.z"]) None
      (Some [Entry (Some "08:00") None (Some (Py.PyInt (2 ^ 63))) None])
      (Some ["mon"]) true None
    = (Sql.empty, Raised).
Proof. by vm_compute. Qed.

Lemma split_once_join sep s :
  Py.contains sep s = true →
  (Py.split_once sep s).1 +:+ String sep (Py.split_once sep s).2 = s.
Proof.
  induction s as [|c s IH]; [discriminate|]. cbn [Py.contains Py.split_once].
  rewrite Ascii.eqb_sym.
  destruct (Ascii.eqb c sep) eqn:Hc; cbn [orb].
  - intros _. apply Ascii.eqb_eq in Hc. by subst.
  - intros Hs. specialize (IH Hs).
    destruct (Py.split_once sep s) as [a b]. simpl in *.
    change (String c (a +:+ String sep b) = String c s). by rewrite IH.
Qed.

Lemma room_text_split_room r :
  (split_room r).2 ≠ Some "" → room_text (split_room r) = r.
Proof.
  unfold split_room, room_text.
  destruct (Py.contains "|" r) eqn:Hc; [|done].
  pose proof (split_once_join "|" r Hc) as Hj.
  destruct (Py.split_once "|" r) as [a b]. cbn in *.
  destruct b; [by intros []|]. intros _. exact Hj.
Qed.

(** X4: when the zone and room lists hold no duplicate, every entry can be
    bound and no metadata key is one of the fixed keys of the dictionary,
    [create_schedule] returns a dictionary (not [None]) and a following
    [get_schedule] returns the same one.  It carries the id, name, active
    flag and metadata that were passed and both time stamps equal to the
    time of the call; its zone list holds the zones that were passed in
    the byte order of their ids, and its room list the rooms that were
    passed in the byte order of their names, a room text with an empty
    area after its first bar coming back without the bar. *)
Theorem create_then_get_schedule
    now d i n zones rooms entries days active meta :
  NoDup (default [] zones) →
  NoDup ((λ r, (split_room r).1) <$> default [] rooms) →
  entries_fit (default [] days) (default [] entries) →
  Forall (λ kv, kv.1 ∉ fixed_keys) (default [] meta) →
  ∃ sd,
    (create_schedule now d i n zones rooms entries days active meta).2
    = Returned (Some sd)
    ∧ get_schedule
        (create_schedule now d i n zones rooms entries days active meta).1 i
      = Some sd
    ∧ d_id sd = Some i ∧ d_name sd = Some n ∧ d_active sd = Some active
    ∧ d_extra sd = default [] meta
    ∧ d_created_at sd = now ∧ d_updated_at sd = now
    ∧ d_zones sd = merge_sort String.le (default [] zones)
    ∧ d_zones sd ≡ₚ default [] zones
    ∧ StronglySorted String.le (d_zones sd)
    ∧ d_rooms sd
      = room_text <$> merge_sort room_order (split_room <$> default [] rooms)
    ∧ (Forall (λ r, (split_room r).2 ≠ Some "") (default [] rooms) →
       d_rooms sd ≡ₚ default [] rooms).
Proof.
  intros Hz Hr Hfit _.
  rewrite create_schedule_stored
    by (split; [split; [done|by rewrite <- list_fmap_compose]|done]).
  cbn [fst snd].
  destruct (get_schedule_created now d i n zones rooms entries days active meta)
    as (days' & periods' & _ & ->).
  eexists. split_and!; try reflexivity.
  - cbn [d_zones]. apply merge_sort_Permutation.
  - cbn [d_zones]. apply StronglySorted_merge_sort; apply _.
  - cbn [d_rooms]. intros Hall. rewrite merge_sort_Permutation.
    rewrite <- list_fmap_compose.
    rewrite <- (list_fmap_id (default [] rooms)) at 2.
    erewrite list_fmap_ext; [reflexivity|]. intros k r Hk. simpl.
    apply room_text_split_room.
    eapply Forall_forall in Hall; [exact Hall|]. by eapply list_elem_of_lookup_2.
Qed.

Lemma create_then_get_schedule_witness :
  ∃ sd,
    (create_schedule 0 Sql.empty "s1" "Week" (Some ["za"; "Zb"])
       (Some ["Living|a1"; "Bed"]) (Some [entry_0800_21]) (Some ["mon"])
       true None).2 = Returned (Some sd)
    ∧ d_zones sd = ["Zb"; "za"]
    ∧ d_rooms sd = ["Bed"; "Living|a1"].
Proof.
  destruct (create_then_get_schedule 0 Sql.empty "s1" "Week"
              (Some ["za"; "Zb"]) (Some ["Living|a1"; "Bed"])
              (Some [entry_0800_21]) (Some ["mon"]) true None)
    as (sd & Hret & _ & _ & _ & _ & _ & _ & _ & Hzones & _ & _ & Hrooms & _).
  - vm_compute. apply NoDup_cons. split; [|apply NoDup_singleton].
    intros H%list_elem_of_singleton. discriminate H.
  - vm_compute. apply NoDup_cons. split; [|apply NoDup_singleton].
    intros H%list_elem_of_singleton. discriminate H.
  - right. repeat constructor; vm_compute; try done.
    all: intros H; discriminate H.
  - constructor.
  - exists sd. split; [exact Hret|]. split.
    + rewrite Hzones. vm_compute. reflexivity.
    + rewrite Hrooms. vm_compute. reflexivity.
Defined.

Lemma elem_of_stamp_2 {A B} (mk : Z → A → B) n (l : list A) x :
  x ∈ l → ∃ k, mk k x ∈ stamp mk n l.
Proof.
  revert n. induction l as [|y l IH]; intros n; [by intros ?%elem_of_nil|].
  intros [->|Hx]%elem_of_cons; simpl.
  - exists (n + 1). left.
  - destruct (IH (n + 1) Hx) as [k Hk]. exists k. by right.
Qed.




(** *** [delete_schedule] *)

(** X6: [delete_schedule] returns true exactly when a schedule with that
    id is stored; afterwards [get_schedule] finds nothing under the id, a
    second [delete_schedule] returns false and changes nothing, and a call
    that returns false has left the store as it was. *)
Theorem delete_schedule_result d i :
  ((delete_schedule d i).2 = true ↔ ∃ s, s ∈ schedules d ∧ s_id s = i)
  ∧ get_schedule (delete_schedule d i).1 i = None
  ∧ delete_schedule (delete_schedule d i).1 i = ((delete_schedule d i).1, false)
  ∧ ((delete_schedule d i).2 = false → (delete_schedule d i).1 = d).
Proof.
  assert (Hnone : filter (λ r, s_id r = i)
                    (filter (λ r, s_id r ≠ i) (schedules d)) = []).
  { apply filter_none, Forall_forall.
    intros r [Hne _]%list_elem_of_filter. tauto. }
  split_and!.
  - clear Hnone. cbn. rewrite Z.ltb_lt. split.
    + destruct (filter _ (schedules d)) as [|s l] eqn:Hf; [simpl; intros; lia|].
      intros _. exists s.
      assert (Hs : s ∈ filter (λ r, s_id r = i) (schedules d))
        by (rewrite Hf; left).
      apply list_elem_of_filter in Hs. tauto.
    + intros (s & Hs & Hi).
      assert (Hin : s ∈ filter (λ r, s_id r = i) (schedules d))
        by by apply list_elem_of_filter.
      destruct (filter _ (schedules d)); [by apply elem_of_nil in Hin|].
      simpl. lia.
  - unfold get_schedule. cbn [delete_schedule delete_schedule_row connect
      foreign_keys fst schedules]. by rewrite Hnone.
  - unfold delete_schedule at 1. cbn [delete_schedule_row connect foreign_keys].
    cbn [delete_schedule delete_schedule_row connect foreign_keys fst
         schedules schedule_zones schedule_rooms schedule_entries seq_zones
         seq_rooms seq_entries].
    rewrite Hnone. cbn. f_equal. f_equal.
    apply filter_all, Forall_forall. intros r [Hne _]%list_elem_of_filter.
    done.
  - clear Hnone. cbn. rewrite Z.ltb_ge. intros Hlen.
    assert (Hnil : filter (λ r, s_id r = i) (schedules d) = []).
    { destruct (filter _ (schedules d)); [done|]. simpl in Hlen. lia. }
    destruct d as [S Zs Rs Es a b c]. cbn in *. f_equal.
    apply filter_all, Forall_forall. intros r Hr Hi.
    assert (Hin : r ∈ filter (λ r, s_id r = i) S)
      by by apply list_elem_of_filter.
    rewrite Hnil in Hin. by apply elem_of_nil in Hin.
Qed.

Lemma filter_filter_narrow {A} (P Q : A → Prop) `{!∀ x, Decision (P x)}
    `{!∀ x, Decision (Q x)} (l : list A) :
  (∀ x, P x → Q x) → filter P (filter Q l) = filter P l.
Proof.
  intros HPQ. induction l as [|x l IH]; [done|].
  rewrite (filter_cons Q), (filter_cons P).
  destruct (decide (Q x)) as [Hq|Hq].
  - rewrite filter_cons. destruct (decide (P x)); by rewrite IH.
  - rewrite decide_False by auto. exact IH.
Qed.

Lemma bind_filter_skip {A B} (P : A → Prop) `{!∀ x, Decision (P x)}
    (f : A → list B) (l : list A) :
  (∀ x, x ∈ l → ¬ P x → f x = []) → filter P l ≫= f = l ≫= f.
Proof.
  induction l as [|x l IH]; intros Hf; [done|].
  rewrite filter_cons, (bind_cons f x l).
  assert (IH' : filter P l ≫= f = l ≫= f).
  { apply IH. intros y Hy. apply Hf. by right. }
  destruct (decide (P x)) as [Hp|Hp].
  - by rewrite bind_cons, IH'.
  - rewrite (Hf x) by (done || left). by rewrite IH'.
Qed.

Lemma bind_all_nil {A B} (f : A → list B) (l : list A) :
  (∀ x, x ∈ l → f x = []) → l ≫= f = [].
Proof.
  induction l as [|x l IH]; intros Hf; [done|].
  rewrite bind_cons, (Hf x) by left. apply IH. intros y Hy. apply Hf. by right.
Qed.

Lemma bind_ext_in {A B} (f g : A → list B) (l : list A) :
  (∀ x, x ∈ l → f x = g x) → l ≫= f = l ≫= g.
Proof.
  induction l as [|x l IH]; intros Hf; [done|].
  rewrite !bind_cons, (Hf x) by left. f_equal. apply IH.
  intros y Hy. apply Hf. by right.
Qed.

Lemma omap_ext_all {A B} (f g : A → option B) (l : list A) :
  (∀ x, f x = g x) → omap f l = omap g l.
Proof.
  intros Hfg. induction l as [|x l IH]; [done|].
  cbn [omap list_omap]. by rewrite Hfg, IH.
Qed.

Lemma get_schedule_orphans d i j :
  get_schedule (delete_schedule d i).1 j = get_schedule (delete_cascading d i) j.
Proof.
  unfold get_schedule, delete_cascading.
  cbn [delete_schedule delete_schedule_row connect foreign_keys fst
       delete_entries delete_rooms delete_zones schedules schedule_zones
       schedule_rooms schedule_entries].
  destruct (filter (λ r, s_id r = j) (filter (λ r, s_id r ≠ i) (schedules d)))
    as [|row rows] eqn:Hf; [done|].
  assert (Hji : j ≠ i).
  { assert (Hrow : row ∈ filter (λ r, s_id r = j)
                           (filter (λ r, s_id r ≠ i) (schedules d)))
      by (rewrite Hf; left).
    apply list_elem_of_filter in Hrow as [<- Hrow].
    apply list_elem_of_filter in Hrow. tauto. }
  rewrite !filter_filter_narrow by (intros ? ->; done).
  done.
Qed.

(** X7: the zone, room and entry rows that [delete_schedule] leaves behind
    cannot be seen through the store's queries: [get_schedule], the
    schedules of a zone and of a room, the zones with schedules, the list
    of all schedules and the state resolver all answer as they would on
    the store with those rows removed. *)
Theorem orphans_invisible d i :
  let d1 := (delete_schedule d i).1 in
  let d2 := delete_cascading d i in
  (∀ j, get_schedule d1 j = get_schedule d2 j)
  ∧ (∀ z, get_active_schedules_for_zone d1 z
          = get_active_schedules_for_zone d2 z)
  ∧ (∀ r, get_active_schedules_for_room d1 r
          = get_active_schedules_for_room d2 r)
  ∧ get_zones_with_schedules d1 = get_zones_with_schedules d2
  ∧ get_all_schedules d1 = get_all_schedules d2
  ∧ (∀ z day minute, get_schedule_state_at_time d1 z day minute
                     = get_schedule_state_at_time d2 z day minute).
Proof.
  intros d1 d2.
  assert (Hget : ∀ j, get_schedule d1 j = get_schedule d2 j)
    by apply get_schedule_orphans.
  assert (Hs : ∀ s, s ∈ schedules d2 → s_id s ≠ i).
  { intros s Hs%list_elem_of_filter. tauto. }
  assert (Hsch : schedules d1 = schedules d2) by done.
  assert (Hz : schedule_zones d2
               = filter (λ r, sz_schedule_id r ≠ i) (schedule_zones d1))
    by done.
  assert (Hr : schedule_rooms d2
               = filter (λ r, sr_schedule_id r ≠ i) (schedule_rooms d1))
    by done.
  assert (He : schedule_entries d2
               = filter (λ r, se_schedule_id r ≠ i) (schedule_entries d1))
    by done.
  split_and!.
  - exact Hget.
  - intros z. unfold get_active_schedules_for_zone, active_schedule_ids_for_zone.
    rewrite Hz, Hsch, bind_filter_skip.
    + by apply omap_ext_all.
    + intros sz _ Hsz. apply bind_all_nil. intros s Hs'.
      rewrite decide_False; [done|]. intros (Hid & _).
      apply (Hs s Hs'). rewrite <- Hid. by apply dec_stable.
  - intros r. unfold get_active_schedules_for_room, active_schedule_ids_for_room.
    rewrite Hr, Hsch, bind_filter_skip.
    + by apply omap_ext_all.
    + intros sr _ Hsr. apply bind_all_nil. intros s Hs'.
      rewrite decide_False; [done|]. intros (Hid & _).
      apply (Hs s Hs'). rewrite <- Hid. by apply dec_stable.
  - unfold get_zones_with_schedules. rewrite Hz, Hsch. f_equal.
    apply bind_ext_in. intros s [_ Hs']%list_elem_of_filter.
    rewrite filter_filter_narrow; [done|].
    intros sz Hsz Hi. apply (Hs s Hs'). by rewrite <- Hsz.
  - unfold get_all_schedules. rewrite Hsch.
    by apply omap_ext_all.
  - intros z day minute. unfold get_schedule_state_at_time.
    assert (Hrows : state_rows d1 z day minute = state_rows d2 z day minute);
      [|by rewrite Hrows].
    unfold state_rows. rewrite He, Hz, Hsch. rewrite bind_filter_skip.
    + apply bind_ext_in. intros se Hse. rewrite bind_filter_skip; [done|].
      intros sz _ Hsz. apply bind_all_nil. intros s Hs'.
      rewrite decide_False; [done|]. intros (Hid1 & Hid2 & _).
      apply (Hs s Hs'). rewrite <- Hid2, Hid1. by apply dec_stable.
    + intros se _ Hse. apply bind_all_nil. intros sz _.
      apply bind_all_nil. intros s Hs'.
      rewrite decide_False; [done|]. intros (_ & Hid2 & _).
      apply (Hs s Hs'). rewrite <- Hid2. by apply dec_stable.
Qed.

(** *** Reading schedules back *)






Global Instance by_created_desc_trans : Transitive by_created_desc.
Proof. unfold by_created_desc. intros a b c ??. lia. Qed.

Global Instance by_created_desc_total : Total by_created_desc.
Proof. unfold by_created_desc. intros a b. lia. Qed.










(** *** [update_schedule] *)

Lemma update_schedule_row_rows now i name active d :
  Forall2 (λ r r',
             s_id r' = s_id r ∧ s_created_at r' = s_created_at r
             ∧ s_metadata r' = s_metadata r
             ∧ (s_id r ≠ i → r' = r)
             ∧ (s_id r = i →
                s_name r' = default (s_name r) name
                ∧ s_active r' = default (s_active r) active
                ∧ s_updated_at r' = now))
    (schedules d) (schedules (update_schedule_row now i name active d)).
Proof.
  cbn [update_schedule_row schedules]. apply Forall2_fmap_r.
  apply Forall_Forall2_diag, Forall_forall. intros r _. simpl.
  case_decide; by split_and!.
Qed.

(** X10: [update_schedule] raises for an id [get_schedule] does not find,
    leaving the store as it was.  Unless ['zones'], ['entries'] and
    ['days'] are all passed, it touches no zone, room or entry row and no
    other schedule, keeps [created_at] and the metadata, merges the name
    and the active flag that were passed and sets [updated_at]; zones,
    entries, days or metadata passed without the others are ignored and,
    with neither name nor active flag, the store is left as it was.  The
    dictionary it returns is the one [get_schedule] gave before the
    update, read before the update is committed: it shows the old name
    and active flag. *)
Theorem update_schedule_partial now d i u :
  (get_schedule d i = None → update_schedule now d i u = (d, Raised))
  ∧ (is_Some (get_schedule d i) →
     u_zones u = None ∨ u_entries u = None ∨ u_days u = None →
     let d' := (update_schedule now d i u).1 in
     (update_schedule now d i u).2 = Returned (get_schedule d i)
     ∧ schedule_zones d' = schedule_zones d
     ∧ schedule_rooms d' = schedule_rooms d
     ∧ schedule_entries d' = schedule_entries d
     ∧ (u_name u = None → u_active u = None → d' = d)
     ∧ Forall2 (λ r r',
                  s_id r' = s_id r ∧ s_created_at r' = s_created_at r
                  ∧ s_metadata r' = s_metadata r
                  ∧ (s_id r ≠ i → r' = r)
                  ∧ (s_id r = i →
                     s_name r' = default (s_name r) (u_name u)
                     ∧ s_active r' = default (s_active r) (u_active u)
                     ∧ (u_name u ≠ None ∨ u_active u ≠ None →
                        s_updated_at r' = now)))
         (schedules d) (schedules d')).
Proof.
  split.
  - intros Hget. unfold update_schedule. by rewrite Hget.
  - intros [current Hget] Hpart d'. subst d'. unfold update_schedule.
    rewrite Hget.
    assert (Hsame : Forall2 (λ r r',
                  s_id r' = s_id r ∧ s_created_at r' = s_created_at r
                  ∧ s_metadata r' = s_metadata r
                  ∧ (s_id r ≠ i → r' = r)
                  ∧ (s_id r = i →
                     s_name r' = default (s_name r) None
                     ∧ s_active r' = default (s_active r) None
                     ∧ (@None string ≠ None ∨ @None bool ≠ None →
                        s_updated_at r' = now)))
         (schedules d) (schedules d)).
    { apply Forall_Forall2_diag, Forall_forall. intros r _.
      split_and!; try done. intros _. split_and!; try done.
      intros [[]|[]]; done. }
    assert (Hrow : ∀ nm ac,
      Forall2 (λ r r',
                  s_id r' = s_id r ∧ s_created_at r' = s_created_at r
                  ∧ s_metadata r' = s_metadata r
                  ∧ (s_id r ≠ i → r' = r)
                  ∧ (s_id r = i →
                     s_name r' = default (s_name r) nm
                     ∧ s_active r' = default (s_active r) ac
                     ∧ (nm ≠ None ∨ ac ≠ None → s_updated_at r' = now)))
         (schedules d) (schedules (update_schedule_row now i nm ac d))).
    { intros nm ac. eapply Forall2_impl; [apply update_schedule_row_rows|].
      intros r r' (? & ? & ? & ? & Hi). split_and!; try done.
      intros Hr. destruct (Hi Hr) as (? & ? & ?). by split_and!. }
    destruct (u_zones u) as [zones|], (u_entries u) as [entries|],
      (u_days u) as [days|];
      try (by destruct Hpart as [?|[?|?]]);
      destruct (u_name u) as [nm|], (u_active u) as [ac|]; cbn [fst snd];
      (split_and!; [done|done|done|done|by intros|first [exact Hsame|apply Hrow]]).
Qed.

(** A change of name: the dictionary returned still carries the old name,
    the one read afterwards the new one. *)
Example update_schedule_returns_old_dictionary :
  let call :=
    update_schedule 9 store_with_s1 "s1"
      (Updates (Some "Weekend") None None None None None) in
  (∃ sd, call.2 = Returned (Some sd) ∧ d_name sd = Some "Week"
         ∧ d_updated_at sd = 0)
  ∧ (∃ sd, get_schedule call.1 "s1" = Some sd ∧ d_name sd = Some "Weekend"
           ∧ d_updated_at sd = 9).
Proof. vm_compute. split; eexists; by split_and!. Qed.

(** X11: when ['zones'], ['entries'] and ['days'] are all passed,
    [update_schedule] stores the schedule again through [create_schedule]
    without its rooms: if it returns, no room assignment of the schedule
    is left, its metadata is the one passed or empty, its zone
    assignments are the zones passed, and both its timestamps, also
    [created_at], are the time of the update. *)
Theorem update_schedule_full now d i u zones entries days d' r :
  u_zones u = Some zones → u_entries u = Some entries →
  u_days u = Some days →
  update_schedule now d i u = (d', Returned r) →
  filter (λ x, sr_schedule_id x = i) (schedule_rooms d') = []
  ∧ sz_zone_id <$> filter (λ x, sz_schedule_id x = i) (schedule_zones d')
    = zones
  ∧ ∃ s, filter (λ x, s_id x = i) (schedules d') = [s]
         ∧ s_metadata s = default [] (u_metadata u)
         ∧ s_created_at s = now ∧ s_updated_at s = now
         ∧ r = get_schedule d' i.
Proof.
  intros Hz He Hd. unfold update_schedule.
  destruct (get_schedule d i) as [current|]; [|discriminate].
  rewrite Hz, He, Hd.
  destruct (d_name current) as [cn|]; [|discriminate].
  destruct (d_active current) as [ca|]; [|discriminate].
  unfold create_schedule. rewrite create_schedule_txn_closed.
  case_decide; [|discriminate]. intros [= <- <-]. split_and!.
  - by rewrite own_rooms_created.
  - rewrite own_zones_created. cbn [default].
    rewrite (fmap_stamp sz_zone_id id) by done. apply list_fmap_id.
  - eexists. split.
    + cbn [created schedules].
      by rewrite (filter_own_rows s_id) by (by repeat constructor).
    + by split_and!.
Qed.

Lemma update_schedule_full_witness :
  filter (λ x, sr_schedule_id x = "s1")
    (schedule_rooms
       (update_schedule 9 store_with_s1 "s1"
          (Updates None None (Some ["climate.y"]) (Some [entry_0800_21])
             (Some ["tue"]) None)).1) = [].
Proof.
  pose proof (update_schedule_full 9 store_with_s1 "s1"
                (Updates None None (Some ["climate.y"]) (Some [entry_0800_21])
                   (Some ["tue"]) None)
                ["climate.y"] [entry_0800_21] ["tue"]
                (update_schedule 9 store_with_s1 "s1"
                   (Updates None None (Some ["climate.y"])
                      (Some [entry_0800_21]) (Some ["tue"]) None)).1
                (get_schedule
                   (update_schedule 9 store_with_s1 "s1"
                      (Updates None None (Some ["climate.y"])
                         (Some [entry_0800_21]) (Some ["tue"]) None)).1 "s1")
                eq_refl eq_refl eq_refl) as H.
  destruct H as [H _]; [vm_compute; reflexivity|exact H].
Defined.



(** ** Further properties of the consolidation compiler *)

(** *** The governing set of a zone *)

Lemma elem_of_unique_by_id seen l x :
  x ∈ unique_by_id seen l →
  x ∈ l ∧ ∃ j, d_id x = Some j ∧ j ≠ "" ∧ j ∉ seen.
Proof.
  revert seen. induction l as [|y l IH]; intros seen;
    [by intros ?%elem_of_nil|].
  cbn [unique_by_id]. destruct (d_id y) as [[|c r]|] eqn:Hy.
  - intros [? ?]%IH. split; [by right|done].
  - case_decide as Hseen.
    + intros [? ?]%IH. split; [by right|done].
    + intros [-> | Hx]%elem_of_cons.
      * split; [left|]. by exists (String c r).
      * apply IH in Hx as [? (j & ? & ? & Hj)]. split; [by right|].
        exists j. split_and!; try done. intros ?. apply Hj. by right.
  - intros [? ?]%IH. split; [by right|done].
Qed.

Lemma NoDup_unique_by_id seen l : NoDup (d_id <$> unique_by_id seen l).
Proof.
  revert seen. induction l as [|y l IH]; intros seen; [constructor|].
  cbn [unique_by_id]. destruct (d_id y) as [[|c r]|] eqn:Hy; [apply IH| |apply IH].
  case_decide; [apply IH|]. rewrite fmap_cons. constructor; [|apply IH].
  intros (x & Hx & Hin)%list_elem_of_fmap.
  apply elem_of_unique_by_id in Hin as [_ (j & Hj & _ & Hseen)].
  apply Hseen. rewrite Hy, Hj in Hx. injection Hx as <-. left.
Qed.

Lemma unique_by_id_covers seen l x j :
  x ∈ l → d_id x = Some j → j ≠ "" → j ∉ seen →
  ∃ x', x' ∈ unique_by_id seen l ∧ d_id x' = Some j.
Proof.
  revert seen. induction l as [|y l IH]; intros seen;
    [by intros ?%elem_of_nil|].
  intros Hx Hj Hne Hseen. cbn [unique_by_id].
  destruct (decide (d_id y = Some j)) as [Hy|Hy].
  - rewrite Hy. destruct j as [|c r]; [done|].
    rewrite decide_False by done. exists y. split; [left|done].
  - apply elem_of_cons in Hx as [-> | Hx]; [done|].
    destruct (d_id y) as [[|c r]|] eqn:Hdy; try by apply IH.
    case_decide; [by apply IH|].
    destruct (IH (String c r :: seen) Hx Hj Hne) as (x' & Hx' & Hid).
    { intros [-> | ?]%elem_of_cons; [|done]. by apply Hy. }
    exists x'. split; [by right|done].
Qed.

Lemma elem_of_zone_rooms rooms zone_id name :
  name ∈ zone_rooms rooms zone_id
  ↔ ∃ room, room ∈ rooms ∧ room_name room = name
            ∧ ∃ dev, dev ∈ default [] (room_devices room)
                     ∧ dev_entity_id dev = Some zone_id.
Proof.
  unfold zone_rooms. rewrite list_elem_of_fmap. split.
  - intros (room & -> & [Hex Hroom]%list_elem_of_filter).
    apply Exists_exists in Hex. by exists room.
  - intros (room & Hroom & <- & Hdev). exists room. split; [done|].
    apply list_elem_of_filter. split; [|done]. by apply Exists_exists.
Qed.

(** X13: the governing set [_get_all_schedules_for_zone] builds holds no
    schedule id twice and no empty id; each of its schedules is one the
    store returns for the zone or for a room that has the zone among its
    devices; every such schedule with a non-empty id is represented in it
    by a schedule of the same id; and it is empty when the roster cannot
    be read. *)
Theorem governing_set d roster zone_id :
  NoDup (d_id <$> _get_all_schedules_for_zone d roster zone_id)
  ∧ (∀ sd, sd ∈ _get_all_schedules_for_zone d roster zone_id →
       (∃ j, d_id sd = Some j ∧ j ≠ "")
       ∧ (sd ∈ get_active_schedules_for_zone d zone_id
          ∨ ∃ rooms name, roster = Returned rooms
                          ∧ name ∈ zone_rooms rooms zone_id
                          ∧ sd ∈ get_active_schedules_for_room d name))
  ∧ (∀ rooms sd j, roster = Returned rooms →
       (sd ∈ get_active_schedules_for_zone d zone_id
        ∨ ∃ name, name ∈ zone_rooms rooms zone_id
                  ∧ sd ∈ get_active_schedules_for_room d name) →
       d_id sd = Some j → j ≠ "" →
       ∃ sd', sd' ∈ _get_all_schedules_for_zone d roster zone_id
              ∧ d_id sd' = Some j)
  ∧ (roster = Raised → _get_all_schedules_for_zone d roster zone_id = []).
Proof.
  unfold _get_all_schedules_for_zone. destruct roster as [rooms|].
  2:{ split_and!; [constructor|by intros ? ?%elem_of_nil|done|done]. }
  split_and!.
  - apply NoDup_unique_by_id.
  - intros sd [Hin (j & Hj & Hne & _)]%elem_of_unique_by_id.
    split; [by exists j|]. apply elem_of_app in Hin as [?|Hin]; [by left|].
    right. apply list_elem_of_bind in Hin as (name & ? & ?).
    by exists rooms, name.
  - intros rooms' sd j [= <-] Hsd Hj Hne.
    apply (unique_by_id_covers [] _ sd); [|done|done|by intros ?%elem_of_nil].
    apply elem_of_app. destruct Hsd as [?|(name & ? & ?)]; [by left|].
    right. apply list_elem_of_bind. by exists name.
  - discriminate.
Qed.

(** X14: [get_zones_for_room_schedules] returns nothing without a client,
    when the client raises, or for a room the roster does not list;
    otherwise it returns entity ids of devices of a room of that name, and
    every zone it returns for a room is governed by the active schedules
    of that room: each of them with a non-empty id is represented, by its
    id, in the governing set of the zone. *)
Theorem room_zones_are_governed d name rooms :
  get_zones_for_room_schedules name None = []
  ∧ get_zones_for_room_schedules name (Some Raised) = []
  ∧ (name ∉ room_name <$> rooms →
     get_zones_for_room_schedules name (Some (Returned rooms)) = [])
  ∧ ∀ z, z ∈ get_zones_for_room_schedules name (Some (Returned rooms)) →
      z ≠ "" ∧ name ∈ zone_rooms rooms z
      ∧ ∀ sd j, sd ∈ get_active_schedules_for_room d name →
                d_id sd = Some j → j ≠ "" →
                ∃ sd', sd' ∈ _get_all_schedules_for_zone d (Returned rooms) z
                       ∧ d_id sd' = Some j.
Proof.
  split_and!; [done|done|..].
  - intros Hno. cbn [get_zones_for_room_schedules].
    destruct (filter _ rooms) as [|room l] eqn:Hf; [done|].
    assert (Hroom : room ∈ filter (λ room, room_name room = name) rooms)
      by (rewrite Hf; left).
    apply list_elem_of_filter in Hroom as [<- Hroom].
    destruct Hno. apply list_elem_of_fmap. by exists room.
  - intros z Hz. cbn [get_zones_for_room_schedules] in Hz.
    destruct (filter _ rooms) as [|room l] eqn:Hf;
      [by apply elem_of_nil in Hz|].
    assert (Hroom : room ∈ filter (λ room, room_name room = name) rooms)
      by (rewrite Hf; left).
    apply list_elem_of_filter in Hroom as [Hname Hroom].
    apply list_elem_of_omap in Hz as (dev & Hdev & Hid).
    destruct (dev_entity_id dev) as [[|c r]|] eqn:He; try discriminate.
    injection Hid as <-.
    assert (Hin : name ∈ zone_rooms rooms (String c r)).
    { apply elem_of_zone_rooms. exists room. split_and!; try done.
      by exists dev. }
    split_and!; [done|done|].
    intros sd j Hsd Hj Hne.
    apply (unique_by_id_covers [] _ sd); [|done|done|by intros ?%elem_of_nil].
    apply elem_of_app. right. apply list_elem_of_bind. by exists name.
Qed.

(** *** Automations of schedules without entries *)


Lemma target_state_default format_float zone_schedules :
  Forall (λ s, default true (d_active s) = false
               ∨ schedule_entries_of s = []) zone_schedules →
  _build_target_state_template_safe format_float zone_schedules
  = Some default_target_state.
Proof.
  induction 1 as [|s l Hs _ IH]; [done|].
  cbn [_build_target_state_template_safe].
  destruct Hs as [->|Hs]; [done|]. rewrite Hs. by destruct (default true _).
Qed.




(** X16: [_build_target_state_template_safe] gives the default literal
    (20, heat, "Default") when no schedule is both active and with
    entries; and when the first entry of the first such schedule has the
    temperature "off" in any letter case it gives the literal with action
    ['off'] and the stand-in temperature 16 without converting anything to
    a float, so it cannot raise there. *)
Theorem target_state_default_and_off
    format_float skipped schedule first_entry rest others :
  Forall (λ s, default true (d_active s) = false
               ∨ schedule_entries_of s = []) skipped →
  (_build_target_state_template_safe format_float skipped
   = Some default_target_state)
  ∧ (default true (d_active schedule) = true →
     schedule_entries_of schedule = first_entry :: rest →
     Py.str_lower_is_off
       (default (Py.PyNum (20 # 1)) (e_temperature first_entry)) = true →
     _build_target_state_template_safe format_float
       (skipped ++ schedule :: others)
     = Some ("{{ {'temperature': 16, 'action': 'off', 'schedule_name': '"
             +:+ default "Unnamed Schedule" (d_name schedule) +:+ "'} }}")).
Proof.
  intros Hskip. split; [by apply target_state_default|].
  intros Hact Hes Hoff.
  assert (Hoff' : Py.str_lower_is_off
                    (default (Py.PyInt 20) (e_temperature first_entry)) = true)
    by (by destruct (e_temperature first_entry)).
  induction Hskip as [|s l Hs _ IH].
  - cbn [app _build_target_state_template_safe]. by rewrite Hact, Hes, Hoff'.
  - cbn [app _build_target_state_template_safe].
    destruct Hs as [->|Hs]; [done|]. rewrite Hs.
    by destruct (default true (d_active s)).
Qed.

Lemma target_state_default_and_off_witness :
  _build_target_state_template_safe sample_format_float
    ([schedule_of "s0" "Empty" ["mon"] []]
       ++ schedule_of "s1" "Night" ["mon"] [entry_1700_off] :: [])
  = Some "{{ {'temperature': 16, 'action': 'off', 'schedule_name': 'Night'} }}".
Proof.
  apply (target_state_default_and_off sample_format_float
           [schedule_of "s0" "Empty" ["mon"] []]
           (schedule_of "s1" "Night" ["mon"] [entry_1700_off])
           entry_1700_off [] []).
  - constructor; [by right|constructor].
  - reflexivity.
  - reflexivity.
  - reflexivity.
Defined.

(** *** Zone names *)

Lemma lower_word_char_is_slug c :
  is_word_char c = true → is_slug_char (Py.lower_ascii c) = true.
Proof.
  destruct c as [[] [] [] [] [] [] [] []]; vm_compute; intros H;
    first [reflexivity | discriminate H].
Qed.

(** X17: whatever the zone id, [_get_zone_name] returns a text made only
    of lower-case letters, digits and underscores, so the automation id
    built from it holds no dot, space or upper-case letter. *)
Theorem zone_name_is_slug zone_id :
  string_forall is_slug_char (_get_zone_name zone_id) = true.
Proof.
  unfold _get_zone_name.
  generalize (remove_all "smart_radiator_thermostat_" 0
                (remove_all "tado_" 0 (remove_all "climate." 0 zone_id))).
  intros s. induction s as [|c s IH]; [done|].
  cbn [keep_word_chars]. destruct (is_word_char c) eqn:Hc; [|exact IH].
  cbn [Py.lower string_forall]. by rewrite lower_word_char_is_slug, IH.
Qed.

(** *** Time codec, the other way round *)

Lemma minutes_round_trip_all :
  forallb (λ m, is_hh_mm (_minutes_to_time_str m)
                && (_time_str_to_minutes (_minutes_to_time_str m) =? m))
    minutes_of_day = true.
Proof. vm_compute. reflexivity. Qed.

(** X18: for every minute of the day, 0 to 1439, [_minutes_to_time_str]
    gives a valid ["HH:MM"] text and [_time_str_to_minutes] of that text
    is the minute again. *)
Theorem minutes_round_trip m :
  0 ≤ m ≤ 1439 →
  is_hh_mm (_minutes_to_time_str m) = true
  ∧ _time_str_to_minutes (_minutes_to_time_str m) = m.
Proof.
  intros Hm. pose proof minutes_round_trip_all as Hall.
  rewrite forallb_forall in Hall. specialize (Hall m).
  assert (Hin : In m minutes_of_day).
  { apply list_elem_of_In. unfold minutes_of_day. apply list_elem_of_fmap.
    exists (Z.to_nat m). split; [lia|]. apply list_elem_of_In, in_seq. lia. }
  apply Hall in Hin. apply andb_prop in Hin as [H1 H2].
  split; [done|]. by apply Z.eqb_eq.
Qed.

Lemma minutes_round_trip_witness :
  is_hh_mm (_minutes_to_time_str 1439) = true
  ∧ _time_str_to_minutes (_minutes_to_time_str 1439) = 1439.
Proof. apply minutes_round_trip. lia. Defined.

Lemma length_split sep s :
  length (Py.split sep s) = S (count_char sep s).
Proof.
  induction s as [|c s IH]; [done|]. cbn [Py.split count_char].
  destruct (Ascii.eqb c sep); cbn [length]; [by rewrite IH|].
  destruct (Py.split sep s); [discriminate IH|]. exact IH.
Qed.

(** X19: a text that does not hold exactly one colon (none, or two and
    more, as in "08:00:00") is converted to minute 0 by
    [_time_str_to_minutes]. *)
Theorem malformed_time_is_midnight s :
  count_char ":" s ≠ 1%nat → _time_str_to_minutes s = 0.
Proof.
  intros Hcount. unfold _time_str_to_minutes.
  pose proof (length_split ":" s) as Hlen.
  destruct (Py.split ":" s) as [|h [|m [|x l]]]; try done.
  simpl in Hlen. lia.
Qed.

Lemma malformed_time_is_midnight_witness :
  _time_str_to_minutes "08:00:00" = 0.
Proof. apply malformed_time_is_midnight. vm_compute. lia. Defined.

(** *** Operations on one schedule leave the others alone *)

Lemma get_schedule_frame d d' j :
  filter (λ r, s_id r = j) (schedules d')
  = filter (λ r, s_id r = j) (schedules d) →
  filter (λ r, sz_schedule_id r = j) (schedule_zones d')
  = filter (λ r, sz_schedule_id r = j) (schedule_zones d) →
  filter (λ r, sr_schedule_id r = j) (schedule_rooms d')
  = filter (λ r, sr_schedule_id r = j) (schedule_rooms d) →
  filter (λ r, se_schedule_id r = j) (schedule_entries d')
  = filter (λ r, se_schedule_id r = j) (schedule_entries d) →
  get_schedule d' j = get_schedule d j.
Proof. intros Hs Hz Hr He. unfold get_schedule. by rewrite Hs, Hz, Hr, He. Qed.

Lemma filter_other_key {B} (key : B → string) (i j : string)
    (old new : list B) :
  j ≠ i → Forall (λ x, key x = i) new →
  filter (λ x, key x = j) (filter (λ x, key x ≠ i) old ++ new)
  = filter (λ x, key x = j) old.
Proof.
  intros Hji Hnew. rewrite filter_app.
  rewrite filter_filter_narrow by (intros ? ->; done).
  rewrite (filter_none _ new); [apply app_nil_r|].
  eapply Forall_impl; [exact Hnew|]. intros x -> ->. done.
Qed.

Lemma get_schedule_created_other
    now d i n zones rooms entries days active meta j :
  j ≠ i →
  get_schedule (created now d i n zones rooms entries days active meta) j
  = get_schedule d j.
Proof.
  intros Hji. apply get_schedule_frame;
    cbn [created schedules schedule_zones schedule_rooms schedule_entries].
  - apply (filter_other_key s_id); [done|by repeat constructor].
  - apply (filter_other_key sz_schedule_id); [done|by apply Forall_stamp].
  - apply (filter_other_key sr_schedule_id); [done|by apply Forall_stamp].
  - apply (filter_other_key se_schedule_id); [done|by apply Forall_stamp].
Qed.

Lemma filter_update_row_other now i name active d j :
  j ≠ i →
  filter (λ r, s_id r = j) (schedules (update_schedule_row now i name active d))
  = filter (λ r, s_id r = j) (schedules d).
Proof.
  intros Hji. cbn [update_schedule_row schedules].
  induction (schedules d) as [|r l IH]; [done|].
  rewrite fmap_cons, !filter_cons, IH.
  destruct (decide (s_id r = i)) as [Hi|Hi]; [|done].
  cbn [s_id]. rewrite !decide_False by congruence. done.
Qed.

(** X20: [create_schedule], [update_schedule], [delete_schedule] and the
    migration of a legacy record, applied to one schedule id, do not
    change what [get_schedule] returns for any other id, whether they
    return or raise. *)
Theorem other_schedules_untouched
    now d i j n zones rooms entries days active meta u legacy_schedule :
  j ≠ i →
  get_schedule
    (create_schedule now d i n zones rooms entries days active meta).1 j
  = get_schedule d j
  ∧ get_schedule (update_schedule now d i u).1 j = get_schedule d j
  ∧ get_schedule (delete_schedule d i).1 j = get_schedule d j
  ∧ (l_id legacy_schedule = Some i →
     get_schedule (_migrate_single_schedule now d legacy_schedule).1 j
     = get_schedule d j).
Proof.
  intros Hji. split_and!.
  - unfold create_schedule. rewrite create_schedule_txn_closed.
    case_decide; cbn [fst]; [|done]. by apply get_schedule_created_other.
  - destruct (update_schedule_step now d i u)
      as [->|[->|(n' & zs & es & ds & a & m & _ & ->)]]; [done|..].
    + apply get_schedule_frame; [|done..]. by apply filter_update_row_other.
    + by apply get_schedule_created_other.
  - apply get_schedule_frame; [|done..].
    cbn. apply filter_filter_narrow. by intros ? ->.
  - intros Hid.
    destruct (migrate_step now d legacy_schedule)
      as [->|(c & i' & n' & a & m & Hid' & _ & ->)]; [done|].
    rewrite Hid in Hid'. injection Hid' as ->.
    by apply get_schedule_created_other.
Qed.

Lemma other_schedules_untouched_witness :
  get_schedule
    (create_schedule 5 store_with_s1 "s2" "Other" (Some ["climate.z"]) None
       (Some [entry_1700_off]) (Some ["sun"]) true None).1 "s1"
  = get_schedule store_with_s1 "s1".
Proof.
  assert (Hne : "s1" ≠ "s2") by discriminate.
  pose proof (other_schedules_untouched 5 store_with_s1 "s2" "s1" "Other"
                (Some ["climate.z"]) None (Some [entry_1700_off])
                (Some ["sun"]) true None
                (Updates None None None None None None) legacy_example Hne)
    as [H _].
  exact H.
Defined.

(** *** Migration of a new record *)

(** X21: a legacy record with a non-empty id that [get_schedule] does not
    find, a zone list without duplicate and periods that can be bound is
    stored by [_migrate_single_schedule]: the schedule is then read back
    under that id with the record's name (["Migrated Schedule"] when
    absent), its active flag (true when absent), its zones in the byte
    order of their ids, no room, and the metadata [legacy_migrated],
    [original_created_at] and [error] taken from the record. *)
Theorem migrate_new_record now d legacy_schedule c i :
  l_id legacy_schedule = Some (String c i) →
  get_schedule d (String c i) = None →
  NoDup (default [] (l_zones legacy_schedule)) →
  entries_fit (default [] (l_days legacy_schedule))
    (_convert_legacy_periods legacy_schedule) →
  ∃ sd,
    _migrate_single_schedule now d legacy_schedule
    = ((_migrate_single_schedule now d legacy_schedule).1, Returned ())
    ∧ get_schedule (_migrate_single_schedule now d legacy_schedule).1
        (String c i) = Some sd
    ∧ d_id sd = Some (String c i)
    ∧ d_name sd = Some (default "Migrated Schedule" (l_name legacy_schedule))
    ∧ d_active sd = Some (default true (l_active legacy_schedule))
    ∧ d_zones sd = merge_sort String.le (default [] (l_zones legacy_schedule))
    ∧ d_zones sd ≡ₚ default [] (l_zones legacy_schedule)
    ∧ StronglySorted String.le (d_zones sd)
    ∧ d_rooms sd = []
    ∧ d_created_at sd = now
    ∧ d_extra sd
      = [("legacy_migrated", Py.PyBool true);
         ("original_created_at",
          default Py.PyNone (l_created_at legacy_schedule));
         ("error", default Py.PyNone (l_error legacy_schedule))].
Proof.
  intros Hid Hget Hz Hfit.
  rewrite (migrate_new now d legacy_schedule c i Hid Hget)
    by (split; [split; [done|constructor]|done]).
  cbn [fst snd].
  match goal with
  | |- context [created ?a ?b ?c ?e ?f ?g ?h ?k ?l ?m] =>
      destruct (get_schedule_created a b c e f g h k l m)
        as (days' & periods' & _ & Hsd)
  end.
  rewrite Hsd. eexists. split_and!; try reflexivity.
  - cbn [d_zones]. apply merge_sort_Permutation.
  - cbn [d_zones]. apply StronglySorted_merge_sort; apply _.
Qed.

Lemma migrate_new_record_witness :
  ∃ sd,
    get_schedule
      (_migrate_single_schedule 0 Sql.empty
         (LegacyDict (Some "legacy_002") None (Some ["za"; "Zb"])
            (Some ["mon"])
            (Some [Entry None (Some "07:00") (Some (Py.PyInt 20)) None])
            None None None None)).1
      "legacy_002" = Some sd
    ∧ d_zones sd = ["Zb"; "za"].
Proof.
  destruct (migrate_new_record 0 Sql.empty
              (LegacyDict (Some "legacy_002") None (Some ["za"; "Zb"])
                 (Some ["mon"])
                 (Some [Entry None (Some "07:00") (Some (Py.PyInt 20)) None])
                 None None None None)
              "l" "egacy_002")
    as (sd & _ & Hget & _ & _ & _ & Hz & _).
  - reflexivity.
  - reflexivity.
  - vm_compute. apply NoDup_cons. split; [|apply NoDup_singleton].
    intros H%list_elem_of_singleton. discriminate H.
  - right. repeat constructor; vm_compute; try done.
    all: intros H; discriminate H.
  - exists sd. split; [exact Hget|]. rewrite Hz. vm_compute. reflexivity.
Defined.
